(** * Healthcare OCR processor: enrichment, rule extraction and batch totals

    A shallow embedding of [azure_ocr_processor.py] (class
    [HealthcareOCRProcessor]) and the properties of its pattern-extraction
    engine, document assembler and batch orchestrator.

    Conventions of the embedding.
    - A Python [str] is a Rocq [string]: a sequence of characters whose code
      points are below 256 (ASCII and the Latin-1 supplement).  On that range
      [str.lower] acts character by character and keeps the length.
    - The module [Unicode] embeds the rule miner and its context window a
      second time, on text that may also hold U+0130, the one code point
      that [str.lower] turns into two; on text below 256 the two embeddings
      agree.
    - Indices are [Z], as [str.find] answers [-1] for a missing pattern.
    - A Python object handed over by the OCR client is a [pyval]; attribute
      access, [len], iteration and indexing can raise, which is an [inl] of
      the [result] sum.
    - Calls that leave the process ([time.sleep], blob uploads) are recorded
      as events of a trace. *)

From Stdlib Require Import ZArith QArith List String Ascii Bool Arith Lia.
Import ListNotations.
Close Scope Q_scope.
Open Scope string_scope.

(** ** Python string primitives *)

Module PyStr.

(** Upper-case letters with a lower-case partner: A-Z, and the Latin-1
    capitals U+00C0..U+00DE except the multiplication sign U+00D7. *)
Definition is_upper (c : ascii) : bool :=
  let n := nat_of_ascii c in
  (((65 <=? n) && (n <=? 90))
   || ((192 <=? n) && (n <=? 222) && negb (n =? 215)))%nat.

Definition lower_char (c : ascii) : ascii :=
  if is_upper c then ascii_of_nat (nat_of_ascii c + 32) else c.

(** [s.lower()] *)
Fixpoint lower (s : string) : string :=
  match s with
  | EmptyString => EmptyString
  | String c s' => String (lower_char c) (lower s')
  end.

(** ASCII letters; [title] below is only ever applied to the ASCII keyword
    table of the payer detector, where these two agree with Python. *)
Definition is_ascii_lower (c : ascii) : bool :=
  let n := nat_of_ascii c in ((97 <=? n) && (n <=? 122))%nat.

Definition is_ascii_upper (c : ascii) : bool :=
  let n := nat_of_ascii c in ((65 <=? n) && (n <=? 90))%nat.

Definition is_cased (c : ascii) : bool := is_ascii_lower c || is_ascii_upper c.

Definition upper_char (c : ascii) : ascii :=
  if is_ascii_lower c then ascii_of_nat (nat_of_ascii c - 32) else c.

(** The loop of [str.title]: a character that follows a cased character is
    lower-cased, any other character is title-cased. *)
Fixpoint title_from (previous_is_cased : bool) (s : string) : string :=
  match s with
  | EmptyString => EmptyString
  | String c s' =>
      String (if previous_is_cased then lower_char c else upper_char c)
             (title_from (is_cased c) s')
  end.

(** [s.title()] on ASCII strings *)
Definition title (s : string) : string := title_from false s.

(** [c.isspace()] for code points below 256: TAB..CR, FS..US, space, NEL and
    the no-break space. *)
Definition is_space (c : ascii) : bool :=
  let n := nat_of_ascii c in
  (((9 <=? n) && (n <=? 13)) || ((28 <=? n) && (n <=? 32))
   || (n =? 133) || (n =? 160))%nat.

Fixpoint lstrip (s : string) : string :=
  match s with
  | EmptyString => EmptyString
  | String c s' => if is_space c then lstrip s' else s
  end.

Fixpoint rstrip (s : string) : string :=
  match s with
  | EmptyString => EmptyString
  | String c s' =>
      match rstrip s' with
      | EmptyString => if is_space c then EmptyString else String c EmptyString
      | r => String c r
      end
  end.

(** [s.strip()] *)
Definition strip (s : string) : string := rstrip (lstrip s).

(** [len(s)] *)
Definition len (s : string) : Z := Z.of_nat (String.length s).

(** [pat in text] *)
Fixpoint contains (pat text : string) : bool :=
  if prefix pat text then true
  else match text with
       | EmptyString => false
       | String _ rest => contains pat rest
       end.

(** [text.find(pat)]: the lowest index at which [pat] starts, or [-1]. *)
Fixpoint find (text pat : string) : Z :=
  if prefix pat text then 0%Z
  else match text with
       | EmptyString => (-1)%Z
       | String _ rest =>
           let r := find rest pat in
           if (r =? -1)%Z then (-1)%Z else (r + 1)%Z
       end.

(** Normalisation of one slice bound: a negative bound counts from the end,
    and every bound is clamped to [0, len]. *)
Definition slice_bound (n i : Z) : Z :=
  if (i <? 0)%Z then Z.max 0 (i + n) else Z.min i n.

(** [s[start:stop]] *)
Definition slice (s : string) (start stop : Z) : string :=
  let lo := slice_bound (len s) start in
  let hi := slice_bound (len s) stop in
  substring (Z.to_nat lo) (Z.to_nat (hi - lo)) s.

(** [s.endswith(suffix)] *)
Fixpoint endswith (s suffix : string) : bool :=
  if String.eqb s suffix then true
  else match s with
       | EmptyString => false
       | String _ rest => endswith rest suffix
       end.

End PyStr.

(** ** Pattern extraction engine *)

Module Extraction.
Import PyStr.

Definition payer_keywords : list string :=
  [ "united healthcare"; "unitedhealthcare"; "uhc";
    "anthem"; "elevance";
    "aetna"; "cvs health";
    "kaiser permanente";
    "cigna"; "humana";
    "blue cross blue shield"; "bcbs";
    "centene"; "molina healthcare" ].

(** The [for payer in payer_keywords] loop, leaving at the first hit. *)
Fixpoint payer_loop (keywords : list string) (text_lower : string)
  : option string :=
  match keywords with
  | [] => None
  | payer :: rest =>
      if contains payer text_lower then Some (title payer)
      else payer_loop rest text_lower
  end.

Definition _extract_payer_name (text : string) : option string :=
  let text_lower := lower text in
  payer_loop payer_keywords text_lower.

Definition _classify_document_type (text : string) : string :=
  let text_lower := lower text in
  if contains "prior authorization" text_lower
     || contains "pre-authorization" text_lower
  then "Prior Authorization Guidelines"
  else if contains "claim" text_lower && contains "timely filing" text_lower
  then "Claims & Timely Filing"
  else if contains "appeal" text_lower
  then "Appeals Process"
  else if contains "provider manual" text_lower
  then "Provider Manual"
  else if contains "fee schedule" text_lower
          || contains "reimbursement" text_lower
  then "Fee Schedule"
  else if contains "credentialing" text_lower
  then "Credentialing Requirements"
  else "General Policy Document".

(** One entry of [detected_rules]; the dict keys are ["type"],
    ["pattern_matched"] and ["rule_text"]. *)
Record DetectedRule : Type := mkRule
  { type : string;
    pattern_matched : string;
    rule_text : string }.

(** [rule_patterns], in the insertion order that [dict.items()] follows. *)
Definition rule_patterns : list (string * list string) :=
  [ ("prior_authorization",
      ["prior authorization required"; "pre-auth required"; "pa required"]);
    ("timely_filing",
      ["timely filing"; "filing deadline"; "claim submission deadline"]);
    ("appeal_deadline",
      ["appeal within"; "appeal deadline"; "days to appeal"]);
    ("documentation",
      ["documentation required"; "medical records required"]);
    ("notification",
      ["notification required"; "must notify"; "advance notice"]) ].

Definition default_context_chars : Z := 200.

Definition _extract_surrounding_text
  (text pattern : string) (context_chars : Z) : string :=
  let pattern_lower := lower pattern in
  let text_lower := lower text in
  let idx := find text_lower pattern_lower in
  if (idx =? -1)%Z then ""
  else
    let start := Z.max 0 (idx - context_chars) in
    let end_ := Z.min (len text) (idx + len pattern + context_chars) in
    strip (slice text start end_).

(** The inner loop [for pattern in patterns], threading the list [rules]
    that [rules.append] extends. *)
Fixpoint patterns_loop (text text_lower rule_type : string)
  (patterns : list string) (rules : list DetectedRule) : list DetectedRule :=
  match patterns with
  | [] => rules
  | pattern :: rest =>
      let rules' :=
        if contains pattern text_lower
        then (rules ++ [ {| type := rule_type;
                            pattern_matched := pattern;
                            rule_text :=
                              _extract_surrounding_text
                                text pattern default_context_chars |} ])%list
        else rules in
      patterns_loop text text_lower rule_type rest rules'
  end.

(** The outer loop [for rule_type, patterns in rule_patterns.items()]. *)
Fixpoint items_loop (text text_lower : string)
  (items : list (string * list string)) (rules : list DetectedRule)
  : list DetectedRule :=
  match items with
  | [] => rules
  | (rule_type, patterns) :: rest =>
      items_loop text text_lower rest
        (patterns_loop text text_lower rule_type patterns rules)
  end.

Definition _extract_healthcare_rules (text : string) : list DetectedRule :=
  let rules := [] in
  let text_lower := lower text in
  items_loop text text_lower rule_patterns rules.

End Extraction.

(** ** Python values and exceptions *)

Module Py.

(** The values a layout result is made of.  [VObj] is an object with the
    listed attributes (the first binding of a name counts); a float keeps its
    rational value and is never computed with. *)
#[local] Set Warnings "-register-all".

Inductive pyval : Type :=
| VNone
| VInt (n : Z)
| VFloat (x : Q)
| VStr (s : string)
| VList (items : list pyval)
| VObj (attrs : list (string * pyval)).

(** Exceptions below [Exception].  [ServiceError] stands for whatever a
    collaborator (storage, OCR client) raises, with its [str(e)]. *)
Inductive exn : Type :=
| AttributeError (attr : string)
| TypeError (what : string)
| IndexError
| ServiceError (message : string).

(** [str(e)]; for the three built-in kinds the interpreter's wording is
    abridged (the type name of the offending object is left out). *)
Definition str_of_exn (e : exn) : string :=
  match e with
  | AttributeError attr => "object has no attribute '" ++ attr ++ "'"
  | TypeError what => what
  | IndexError => "list index out of range"
  | ServiceError message => message
  end.

Definition result (A : Type) : Type := (exn + A)%type.

Definition ok {A : Type} (a : A) : result A := inr a.
Definition raise {A : Type} (e : exn) : result A := inl e.

Definition bind {A B : Type} (c : result A) (k : A -> result B) : result B :=
  match c with
  | inl e => inl e
  | inr a => k a
  end.

Notation "x <- c ;; k" := (bind c (fun x => k))
  (at level 61, c at next level, right associativity).

(** A loop body run over each element in turn, collecting what it appends;
    the first exception ends the loop. *)
Fixpoint for_each {A B : Type} (body : A -> result B) (xs : list A)
  : result (list B) :=
  match xs with
  | [] => ok []
  | x :: rest =>
      y <- body x ;;
      ys <- for_each body rest ;;
      ok (y :: ys)
  end.

(** The same with [enumerate(xs)] counting from [idx]. *)
Fixpoint for_each_enumerate {A B : Type} (body : Z -> A -> result B)
  (idx : Z) (xs : list A) : result (list B) :=
  match xs with
  | [] => ok []
  | x :: rest =>
      y <- body idx x ;;
      ys <- for_each_enumerate body (idx + 1)%Z rest ;;
      ok (y :: ys)
  end.

Fixpoint assoc (name : string) (attrs : list (string * pyval))
  : option pyval :=
  match attrs with
  | [] => None
  | (k, v) :: rest => if String.eqb k name then Some v else assoc name rest
  end.

(** Attribute lookup; only objects carry the attributes read here. *)
Definition lookup_attr (o : pyval) (name : string) : option pyval :=
  match o with
  | VObj attrs => assoc name attrs
  | _ => None
  end.

(** [hasattr(o, name)] *)
Definition hasattr (o : pyval) (name : string) : bool :=
  match lookup_attr o name with
  | Some _ => true
  | None => false
  end.

(** [o.name] *)
Definition getattr (o : pyval) (name : string) : result pyval :=
  match lookup_attr o name with
  | Some v => ok v
  | None => raise (AttributeError name)
  end.

(** [getattr(o, name, default)] *)
Definition getattr_default (o : pyval) (name : string) (default : pyval)
  : pyval :=
  match lookup_attr o name with
  | Some v => v
  | None => default
  end.

(** Truth value of [v] in a condition. *)
Definition truthy (v : pyval) : bool :=
  match v with
  | VNone => false
  | VInt n => negb (n =? 0)%Z
  | VFloat x => negb (Qeq_bool x 0)
  | VStr s => negb (String.eqb s "")
  | VList items => match items with [] => false | _ :: _ => true end
  | VObj _ => true
  end.

(** [len(v)] *)
Definition py_len (v : pyval) : result Z :=
  match v with
  | VStr s => ok (PyStr.len s)
  | VList items => ok (Z.of_nat (List.length items))
  | _ => raise (TypeError "object has no len()")
  end.

Fixpoint chars (s : string) : list pyval :=
  match s with
  | EmptyString => []
  | String c rest => VStr (String c EmptyString) :: chars rest
  end.

(** The elements a [for] loop over [v] visits. *)
Definition py_iter (v : pyval) : result (list pyval) :=
  match v with
  | VList items => ok items
  | VStr s => ok (chars s)
  | _ => raise (TypeError "object is not iterable")
  end.

(** [v[0]] *)
Definition py_first (v : pyval) : result pyval :=
  match v with
  | VList (x :: _) => ok x
  | VList [] => raise IndexError
  | VStr (String c _) => ok (VStr (String c EmptyString))
  | VStr EmptyString => raise IndexError
  | _ => raise (TypeError "object is not subscriptable")
  end.

(** The receiver of [text.lower()] has to be a [str]: no other value here
    has a method [lower], and an attribute of that name is not callable. *)
Definition expect_str (v : pyval) : result string :=
  match v with
  | VStr s => ok s
  | VObj attrs =>
      match assoc "lower" attrs with
      | Some _ => raise (TypeError "object is not callable")
      | None => raise (AttributeError "lower")
      end
  | _ => raise (AttributeError "lower")
  end.

End Py.

(** ** Layout adapter and document assembler *)

Module Adapter.
Import PyStr Extraction Py.

Record LineRecord : Type := mkLine
  { text : pyval;
    confidence : pyval;
    bounding_box : pyval }.

Record Dimensions : Type := mkDimensions
  { width : pyval;
    height : pyval;
    unit : pyval }.

Record PageRecord : Type := mkPage
  { page_number : pyval;
    dimensions : Dimensions;
    lines : list LineRecord }.

(** [para_page_number] is the key ["page_number"], which a paragraph entry
    has only when the paragraph names a bounding region. *)
Record ParagraphRecord : Type := mkParagraph
  { para_content : pyval;
    role : pyval;
    para_page_number : option pyval }.

Record CellRecord : Type := mkCell
  { row : pyval;
    column : pyval;
    cell_content : pyval;
    kind : pyval;
    row_span : pyval;
    column_span : pyval }.

Record TableRecord : Type := mkTable
  { table_id : Z;
    row_count : pyval;
    column_count : pyval;
    cells : list CellRecord }.

Record HealthcareMetadata : Type := mkMetadata
  { payer_name : option string;
    document_type : string;
    detected_rules : list DetectedRule }.

Record ExtractionDocument : Type := mkDocument
  { source_blob : string;
    extraction_date : string;
    page_count : Z;
    full_text : string;
    pages : list PageRecord;
    paragraphs : list ParagraphRecord;
    tables : list TableRecord;
    healthcare_metadata : HealthcareMetadata;
    healthcare_rules_count : Z }.

(** In-place updates of [json_output]. *)
Definition extend_pages (d : ExtractionDocument) (ps : list PageRecord)
  : ExtractionDocument :=
  mkDocument (source_blob d) (extraction_date d) (page_count d) (full_text d)
    (pages d ++ ps) (paragraphs d) (tables d) (healthcare_metadata d)
    (healthcare_rules_count d).

Definition extend_paragraphs (d : ExtractionDocument)
  (ps : list ParagraphRecord) : ExtractionDocument :=
  mkDocument (source_blob d) (extraction_date d) (page_count d) (full_text d)
    (pages d) (paragraphs d ++ ps) (tables d) (healthcare_metadata d)
    (healthcare_rules_count d).

Definition extend_tables (d : ExtractionDocument) (ts : list TableRecord)
  : ExtractionDocument :=
  mkDocument (source_blob d) (extraction_date d) (page_count d) (full_text d)
    (pages d) (paragraphs d) (tables d ++ ts) (healthcare_metadata d)
    (healthcare_rules_count d).

Definition set_rules_count (d : ExtractionDocument) (n : Z)
  : ExtractionDocument :=
  mkDocument (source_blob d) (extraction_date d) (page_count d) (full_text d)
    (pages d) (paragraphs d) (tables d) (healthcare_metadata d) n.

(** Body of [for line in page.lines]. *)
Definition convert_line (line : pyval) : result LineRecord :=
  content <- getattr line "content" ;;
  let conf := getattr_default line "confidence" VNone in
  polygon <- (if hasattr line "polygon" then getattr line "polygon"
              else ok VNone) ;;
  ok {| text := content; confidence := conf; bounding_box := polygon |}.

(** Body of [for page in result.pages]. *)
Definition convert_page (page : pyval) : result PageRecord :=
  number <- getattr page "page_number" ;;
  w <- getattr page "width" ;;
  h <- getattr page "height" ;;
  u <- getattr page "unit" ;;
  page_lines <- getattr page "lines" ;;
  line_data <- (if truthy page_lines
                then items <- py_iter page_lines ;; for_each convert_line items
                else ok []) ;;
  ok {| page_number := number;
        dimensions := {| width := w; height := h; unit := u |};
        lines := line_data |}.

(** Body of [for para in result.paragraphs]. *)
Definition convert_paragraph (para : pyval) : result ParagraphRecord :=
  content <- getattr para "content" ;;
  let para_role := getattr_default para "role" VNone in
  number <- (if hasattr para "bounding_regions"
             then regions <- getattr para "bounding_regions" ;;
                  if truthy regions
                  then region <- py_first regions ;;
                       n <- getattr region "page_number" ;;
                       ok (Some n)
                  else ok None
             else ok None) ;;
  ok {| para_content := content; role := para_role;
        para_page_number := number |}.

(** Body of [for cell in table.cells]. *)
Definition convert_cell (cell : pyval) : result CellRecord :=
  r <- getattr cell "row_index" ;;
  c <- getattr cell "column_index" ;;
  content <- getattr cell "content" ;;
  ok {| row := r; column := c; cell_content := content;
        kind := getattr_default cell "kind" VNone;
        row_span := getattr_default cell "row_span" (VInt 1);
        column_span := getattr_default cell "column_span" (VInt 1) |}.

(** Body of [for table_idx, table in enumerate(result.tables)]. *)
Definition convert_table (table_idx : Z) (table : pyval)
  : result TableRecord :=
  rows <- getattr table "row_count" ;;
  cols <- getattr table "column_count" ;;
  table_cells <- getattr table "cells" ;;
  items <- py_iter table_cells ;;
  cell_data <- for_each convert_cell items ;;
  ok {| table_id := (table_idx + 1)%Z; row_count := rows;
        column_count := cols; cells := cell_data |}.

(** [_convert_to_healthcare_json(result, blob_name)]; [now] is what
    [datetime.utcnow().isoformat()] answers. *)
Definition _convert_to_healthcare_json
  (raw : pyval) (blob_name : string) (now : string)
  : result ExtractionDocument :=
  raw_pages <- getattr raw "pages" ;;
  count <- (if truthy raw_pages then py_len raw_pages else ok 0%Z) ;;
  content <- getattr raw "content" ;;
  full <- expect_str content ;;
  let json_output :=
    {| source_blob := blob_name;
       extraction_date := now;
       page_count := count;
       full_text := full;
       pages := [];
       paragraphs := [];
       tables := [];
       healthcare_metadata :=
         {| payer_name := _extract_payer_name full;
            document_type := _classify_document_type full;
            detected_rules := _extract_healthcare_rules full |};
       healthcare_rules_count := 0 |} in
  page_data <- (if truthy raw_pages
                then items <- py_iter raw_pages ;; for_each convert_page items
                else ok []) ;;
  let json_output := extend_pages json_output page_data in
  raw_paragraphs <- getattr raw "paragraphs" ;;
  para_data <- (if truthy raw_paragraphs
                then items <- py_iter raw_paragraphs ;;
                     for_each convert_paragraph items
                else ok []) ;;
  let json_output := extend_paragraphs json_output para_data in
  raw_tables <- getattr raw "tables" ;;
  table_data <- (if truthy raw_tables
                 then items <- py_iter raw_tables ;;
                      for_each_enumerate convert_table 0%Z items
                 else ok []) ;;
  let json_output := extend_tables json_output table_data in
  ok (set_rules_count json_output
        (Z.of_nat
           (List.length (detected_rules (healthcare_metadata json_output))))).

End Adapter.

(** ** Batch orchestrator *)

Module Batch.
Import PyStr Extraction Py.

(** What [list_blobs] yields for one blob. *)
Record Blob : Type := mkBlob
  { name : string;
    size : Z }.

(** One entry of [results].  A success entry has the keys ["pages"],
    ["rules_extracted"] and ["json_blob"], a failure entry has ["error"];
    a key that an entry lacks is [None]. *)
Record BatchResult : Type := mkBatchResult
  { blob_name : string;
    status : string;
    pages : option Z;
    rules_extracted : option Z;
    json_blob : option string;
    error : option string;
    timestamp : string }.

Record BatchSummary : Type := mkBatchSummary
  { processing_date : string;
    total_files : Z;
    successful : Z;
    failed : Z;
    total_pages : Z;
    total_rules : Z;
    results : list BatchResult }.

(** [r["status"] == s] *)
Definition has_status (s : string) (r : BatchResult) : bool :=
  String.eqb (status r) s.

(** [r.get(key, default)] on an integer entry. *)
Definition get_or (field : option Z) (default : Z) : Z :=
  match field with
  | Some v => v
  | None => default
  end.

(** [sum(xs)]: addition from the left, starting at 0. *)
Definition py_sum (xs : list Z) : Z := fold_left Z.add xs 0%Z.

(** The dict that [_upload_batch_summary] builds. *)
Definition batch_summary (rs : list BatchResult) (now : string)
  : BatchSummary :=
  {| processing_date := now;
     total_files := Z.of_nat (List.length rs);
     successful := Z.of_nat (List.length (filter (has_status "success") rs));
     failed := Z.of_nat (List.length (filter (has_status "failed") rs));
     total_pages :=
       py_sum (map (fun r => get_or (pages r) 0)
                   (filter (has_status "success") rs));
     total_rules :=
       py_sum (map (fun r => get_or (rules_extracted r) 0)
                   (filter (has_status "success") rs));
     results := rs |}.

(** What is handed to [_upload_json_to_blob]. *)
Inductive json_data : Type :=
| DocumentJson (d : Adapter.ExtractionDocument)
| SummaryJson (s : BatchSummary).

(** Observable steps of a run, in the order they happen. *)
Inductive event : Type :=
| Process (blob : string)
| Sleep (seconds : Z)
| UploadSummary (blob : string) (summary : BatchSummary) (stored : bool).

(** The attributes [__init__] reads from the environment. *)
Record Processor : Type := mkProcessor
  { pdf_container : string;
    json_container : string }.

Section Orchestrator.

(** The collaborators: storage listing, the storage account and its SAS
    tokens, the OCR service ([begin_analyze_document_from_url] and the
    poller's result), the JSON upload, [Path(...).stem], and the two
    renderings of the clock.  The cost estimate that the run prints takes
    no part in what it returns or does. *)
Variable self : Processor.
Variable list_blobs : string -> result (list Blob).
Variable account_name : string.
Variable generate_blob_sas : string -> string -> result string.
Variable analyze_document : string -> result pyval.
Variable upload_blob : string -> string -> json_data -> result Datatypes.unit.
Variable stem : string -> string.
Variable utcnow_isoformat : string.
Variable utcnow_stamp : string.

Definition generate_blob_sas_url (container_name blob : string)
  : result string :=
  sas_token <- generate_blob_sas container_name blob ;;
  let blob_url :=
    "https://" ++ account_name ++ ".blob.core.windows.net/"
    ++ container_name ++ "/" ++ blob ++ "?" ++ sas_token in
  ok blob_url.

Definition _upload_json_to_blob (data : json_data) (blob : string)
  : result Datatypes.unit :=
  upload_blob (json_container self) blob data.

Definition process_pdf_from_blob (blob : string)
  : result Adapter.ExtractionDocument :=
  pdf_url <- generate_blob_sas_url (pdf_container self) blob ;;
  raw <- analyze_document pdf_url ;;
  json_result <-
    Adapter._convert_to_healthcare_json raw blob utcnow_isoformat ;;
  let json_blob_name := stem blob ++ "_ocr.json" in
  _ <- _upload_json_to_blob (DocumentJson json_result) json_blob_name ;;
  ok json_result.

(** [_upload_batch_summary]: a failed upload is caught and reported. *)
Definition _upload_batch_summary (rs : list BatchResult) : list event :=
  let summary := batch_summary rs utcnow_isoformat in
  let summary_blob_name := "_batch_summary_" ++ utcnow_stamp ++ ".json" in
  match _upload_json_to_blob (SummaryJson summary) summary_blob_name with
  | inr _ => [UploadSummary summary_blob_name summary true]
  | inl _ => [UploadSummary summary_blob_name summary false]
  end.

(** The entry appended for one blob: the [try] branch or the [except]
    branch. *)
Definition outcome (blob : Blob) : BatchResult :=
  match process_pdf_from_blob (name blob) with
  | inr json_result =>
      {| blob_name := name blob;
         status := "success";
         pages := Some (Adapter.page_count json_result);
         rules_extracted := Some (Adapter.healthcare_rules_count json_result);
         json_blob := Some (stem (name blob) ++ "_ocr.json");
         error := None;
         timestamp := utcnow_isoformat |}
  | inl e =>
      {| blob_name := name blob;
         status := "failed";
         pages := None;
         rules_extracted := None;
         json_blob := None;
         error := Some (str_of_exn e);
         timestamp := utcnow_isoformat |}
  end.

(** [for i, blob in enumerate(pdf_blobs, 1)], with [total] standing for
    [len(pdf_blobs)]; the state is the list [results] and the trace. *)
Fixpoint batch_loop (total i : nat) (blobs : list Blob)
  (rs : list BatchResult) (trace : list event)
  : list BatchResult * list event :=
  match blobs with
  | [] => (rs, trace)
  | blob :: rest =>
      let trace1 := (trace ++ [Process (name blob)])%list in
      let rs1 := (rs ++ [outcome blob])%list in
      let trace2 :=
        if (i <? total)%nat then (trace1 ++ [Sleep 3])%list else trace1 in
      batch_loop total (S i) rest rs1 trace2
  end.

Definition is_pdf (blob : Blob) : bool := endswith (lower (name blob)) ".pdf".

(** [process_all_pdfs_from_blob]: the returned list and the trace. *)
Definition process_all_pdfs_from_blob : list BatchResult * list event :=
  match list_blobs (pdf_container self) with
  | inl _ => ([], [])
  | inr all_blobs =>
      let pdf_blobs := filter is_pdf all_blobs in
      match pdf_blobs with
      | [] => ([], [])
      | _ :: _ =>
          let '(rs, trace) :=
            batch_loop (List.length pdf_blobs) 1 pdf_blobs [] [] in
          (rs, (trace ++ _upload_batch_summary rs)%list)
      end
  end.

End Orchestrator.

End Batch.

(** ** Vocabulary of the properties *)

Module Spec.
Import PyStr Extraction.

(** [p] occurs in [t] as a substring. *)
Definition occurs (p t : string) : Prop :=
  exists pre suf, t = pre ++ p ++ suf.

(** [p] occurs in [t] at index [i]. *)
Definition occurs_at (p t : string) (i : Z) : Prop :=
  exists pre suf, t = pre ++ p ++ suf /\ len pre = i.

(** Ignoring case, [p] occurs in [t] at index [i]: the stretch of [t] that
    starts there lower-cases to the lower-cased [p]. *)
Definition ci_occurs_at (p t : string) (i : Z) : Prop :=
  exists pre mid suf,
    t = pre ++ mid ++ suf /\ len pre = i /\ lower mid = lower p.

Definition first_ci_occurrence (p t : string) (i : Z) : Prop :=
  ci_occurs_at p t i /\ forall j, ci_occurs_at p t j -> (i <= j)%Z.

(** Ignoring case, the keyword [kw] occurs somewhere in [text]. *)
Definition mentions (kw text : string) : Prop :=
  exists i, ci_occurs_at kw text i.

(** The conditions of the document-type rules, in priority order. *)
Definition prior_authorization_rule (text : string) : Prop :=
  mentions "prior authorization" text \/ mentions "pre-authorization" text.

Definition claims_rule (text : string) : Prop :=
  mentions "claim" text /\ mentions "timely filing" text.

Definition appeal_rule (text : string) : Prop := mentions "appeal" text.

Definition provider_manual_rule (text : string) : Prop :=
  mentions "provider manual" text.

Definition fee_schedule_rule (text : string) : Prop :=
  mentions "fee schedule" text \/ mentions "reimbursement" text.

Definition credentialing_rule (text : string) : Prop :=
  mentions "credentialing" text.

(** The trigger phrases paired with their categories, in table order. *)
Definition phrase_table : list (string * string) :=
  flat_map (fun entry => map (pair (fst entry)) (snd entry)) rule_patterns.

Definition trigger_phrases : list string := map snd phrase_table.

(** The entry appended for a phrase that occurs. *)
Definition rule_of (text : string) (cp : string * string) : DetectedRule :=
  {| type := fst cp;
     pattern_matched := snd cp;
     rule_text :=
       _extract_surrounding_text text (snd cp) default_context_chars |}.

(** The test that selects a table entry. *)
Definition hit (text_lower : string) (cp : string * string) : bool :=
  contains (snd cp) text_lower.

(** Category and phrase of a detected rule. *)
Definition tag (r : DetectedRule) : string * string :=
  (type r, pattern_matched r).

(** How many of [rules] carry the phrase [p]. *)
Definition rules_for (p : string) (rules : list DetectedRule) : nat :=
  List.length (filter (fun r => String.eqb (pattern_matched r) p) rules).

(** [w] is the stretch of [t] from index [lo] up to, not including, [hi]. *)
Definition window (t : string) (lo hi : Z) (w : string) : Prop :=
  exists pre suf,
    t = pre ++ w ++ suf /\ len pre = lo /\ (len pre + len w = hi)%Z.

Fixpoint all_space (s : string) : Prop :=
  match s with
  | EmptyString => True
  | String c rest => is_space c = true /\ all_space rest
  end.

Definition no_leading_space (s : string) : Prop :=
  forall c rest, s = String c rest -> is_space c = false.

Definition no_trailing_space (s : string) : Prop :=
  forall front c, s = front ++ String c EmptyString -> is_space c = false.

(** [s] is [w] without its leading and trailing whitespace. *)
Definition trimmed (w s : string) : Prop :=
  exists l r,
    w = l ++ s ++ r /\ all_space l /\ all_space r
    /\ no_leading_space s /\ no_trailing_space s.

(** *** Layout results *)

Section Layout.
Import Py Adapter.

(** Well-formedness of what the OCR client hands over: the attributes the
    adapter reads without a guard are there.  [pages], [paragraphs],
    [tables] and a page's [lines] are [None] or a list. *)
Definition has_attrs (o : pyval) (names : list string) : bool :=
  forallb (hasattr o) names.

Definition attr_is (check : pyval -> bool) (o : pyval) (attr : string)
  : bool :=
  match lookup_attr o attr with
  | Some v => check v
  | None => false
  end.

Definition optional_list (item_ok : pyval -> bool) (v : pyval) : bool :=
  match v with
  | VNone => true
  | VList items => forallb item_ok items
  | _ => false
  end.

Definition is_list_of (item_ok : pyval -> bool) (v : pyval) : bool :=
  match v with
  | VList items => forallb item_ok items
  | _ => false
  end.

Definition is_str (v : pyval) : bool :=
  match v with
  | VStr _ => true
  | _ => false
  end.

Definition line_ok (line : pyval) : bool := hasattr line "content".

Definition page_ok (page : pyval) : bool :=
  has_attrs page ["page_number"; "width"; "height"; "unit"]
  && attr_is (optional_list line_ok) page "lines".

Definition region_ok (region : pyval) : bool := hasattr region "page_number".

Definition paragraph_ok (para : pyval) : bool :=
  hasattr para "content"
  && match lookup_attr para "bounding_regions" with
     | Some v => optional_list region_ok v
     | None => true
     end.

Definition cell_ok (cell : pyval) : bool :=
  has_attrs cell ["row_index"; "column_index"; "content"].

Definition table_ok (table : pyval) : bool :=
  has_attrs table ["row_count"; "column_count"]
  && attr_is (is_list_of cell_ok) table "cells".

Definition layout_ok (raw : pyval) : bool :=
  attr_is is_str raw "content"
  && attr_is (optional_list page_ok) raw "pages"
  && attr_is (optional_list paragraph_ok) raw "paragraphs"
  && attr_is (optional_list table_ok) raw "tables".

(** The output field [out] is the attribute [attr] of [o], and [default]
    when [o] has no such attribute. *)
Definition defaults_to (o : pyval) (attr : string) (default out : pyval)
  : Prop :=
  (lookup_attr o attr = None -> out = default)
  /\ (forall v, lookup_attr o attr = Some v -> out = v).

(** The output sequence [out] is empty for an absent ([None]) input and
    follows a list input item by item. *)
Definition sequence_adapted {B : Type} (R : pyval -> B -> Prop)
  (v : pyval) (out : list B) : Prop :=
  (v = VNone -> out = [])
  /\ (forall items, v = VList items -> Forall2 R items out).

Definition line_adapted (line : pyval) (rec : LineRecord) : Prop :=
  lookup_attr line "content" = Some (text rec)
  /\ defaults_to line "confidence" VNone (confidence rec)
  /\ defaults_to line "polygon" VNone (bounding_box rec).

Definition page_adapted (page : pyval) (rec : PageRecord) : Prop :=
  exists v,
    lookup_attr page "lines" = Some v
    /\ sequence_adapted line_adapted v (lines rec).

Definition paragraph_adapted (para : pyval) (rec : ParagraphRecord) : Prop :=
  lookup_attr para "content" = Some (para_content rec)
  /\ defaults_to para "role" VNone (role rec)
  /\ (lookup_attr para "bounding_regions" = None ->
      para_page_number rec = None)
  /\ (lookup_attr para "bounding_regions" = Some VNone ->
      para_page_number rec = None)
  /\ (lookup_attr para "bounding_regions" = Some (VList []) ->
      para_page_number rec = None)
  /\ (forall region rest,
        lookup_attr para "bounding_regions" = Some (VList (region :: rest)) ->
        exists n,
          lookup_attr region "page_number" = Some n
          /\ para_page_number rec = Some n).

Definition cell_adapted (cell : pyval) (rec : CellRecord) : Prop :=
  lookup_attr cell "content" = Some (cell_content rec)
  /\ defaults_to cell "kind" VNone (kind rec)
  /\ defaults_to cell "row_span" (VInt 1) (row_span rec)
  /\ defaults_to cell "column_span" (VInt 1) (column_span rec).

Definition table_adapted (table : pyval) (rec : TableRecord) : Prop :=
  forall items,
    lookup_attr table "cells" = Some (VList items) ->
    Forall2 cell_adapted items (cells rec).

Definition document_adapted (raw : pyval) (doc : ExtractionDocument)
  : Prop :=
  exists raw_pages raw_paragraphs raw_tables,
    lookup_attr raw "pages" = Some raw_pages
    /\ lookup_attr raw "paragraphs" = Some raw_paragraphs
    /\ lookup_attr raw "tables" = Some raw_tables
    /\ sequence_adapted page_adapted raw_pages (pages doc)
    /\ sequence_adapted paragraph_adapted raw_paragraphs (paragraphs doc)
    /\ sequence_adapted table_adapted raw_tables (tables doc).

End Layout.

(** *** Batch runs *)

(** What one entry adds to the page total and to the rule total. *)
Definition page_contribution (r : Batch.BatchResult) : Z :=
  if String.eqb (Batch.status r) "success"
  then Batch.get_or (Batch.pages r) 0
  else 0%Z.

Definition rule_contribution (r : Batch.BatchResult) : Z :=
  if String.eqb (Batch.status r) "success"
  then Batch.get_or (Batch.rules_extracted r) 0
  else 0%Z.

Definition total_of (contribution : Batch.BatchResult -> Z)
  (rs : list Batch.BatchResult) : Z :=
  fold_right (fun r acc => (contribution r + acc)%Z) 0%Z rs.

(** The documents in turn, with a pause of [seconds] between two
    consecutive ones. *)
Fixpoint paced (seconds : Z) (names : list string) : list Batch.event :=
  match names with
  | [] => []
  | n :: rest =>
      Batch.Process n
      :: match rest with
         | [] => []
         | _ :: _ => Batch.Sleep seconds :: paced seconds rest
         end
  end.

Definition is_sleep (e : Batch.event) : bool :=
  match e with
  | Batch.Sleep _ => true
  | _ => false
  end.

(** The blobs whose processing the trace shows, in order. *)
Definition processed (trace : list Batch.event) : list string :=
  flat_map (fun e => match e with
                     | Batch.Process blob => [blob]
                     | _ => []
                     end) trace.

(** Whether a call returned or raised. *)
Definition returned {A : Type} (ended : Py.result A) : bool :=
  match ended with
  | inr _ => true
  | inl _ => false
  end.

(** The entry recorded for a blob, given how its processing ended. *)
Definition recorded (ended : Py.result Adapter.ExtractionDocument)
  (r : Batch.BatchResult) : Prop :=
  match ended with
  | inr doc =>
      Batch.status r = "success"
      /\ Batch.pages r = Some (Adapter.page_count doc)
      /\ Batch.rules_extracted r = Some (Adapter.healthcare_rules_count doc)
      /\ Batch.error r = None
  | inl e =>
      Batch.status r = "failed"
      /\ Batch.error r = Some (Py.str_of_exn e)
      /\ Batch.pages r = None
      /\ Batch.rules_extracted r = None
  end.

End Spec.

(** ** Sample inputs *)

Module Samples.
Import Py.

(** A one-page layout: the second line has neither confidence nor polygon,
    the paragraph has no role, the table cell has no kind and no spans. *)
Definition sample_layout : pyval :=
  VObj
    [ ("content",
        VStr "Aetna provider notice: prior authorization required.");
      ("pages",
        VList
          [ VObj
              [ ("page_number", VInt 1);
                ("width", VFloat (17 # 2)); ("height", VInt 11);
                ("unit", VStr "inch");
                ("lines",
                  VList
                    [ VObj [ ("content", VStr "Aetna provider notice:");
                             ("confidence", VFloat (99 # 100));
                             ("polygon", VList [VInt 0; VInt 0]) ];
                      VObj [ ("content",
                               VStr "prior authorization required.") ] ]) ] ]);
      ("paragraphs",
        VList [ VObj [ ("content", VStr "Aetna provider notice:") ] ]);
      ("tables",
        VList
          [ VObj
              [ ("row_count", VInt 1); ("column_count", VInt 1);
                ("cells",
                  VList
                    [ VObj [ ("row_index", VInt 0);
                             ("column_index", VInt 0);
                             ("content", VStr "CPT") ] ]) ] ]) ].

(** [s * n] *)
Fixpoint replicate (n : nat) (s : string) : string :=
  match n with
  | O => EmptyString
  | S k => s ++ replicate k s
  end.

(** A layout with no text, pages, paragraphs or tables. *)
Definition empty_layout : pyval :=
  VObj
    [ ("content", VStr ""); ("pages", VNone);
      ("paragraphs", VNone); ("tables", VNone) ].

(** Collaborators of a batch run: three PDFs and a text file in the
    container; the OCR service fails on [two.pdf] with the message [msg]. *)
Definition sample_processor : Batch.Processor :=
  {| Batch.pdf_container := "healthcare-pdfs";
     Batch.json_container := "healthcare-json" |}.

Definition sample_blobs : list Batch.Blob :=
  [ Batch.mkBlob "one.pdf" 1000; Batch.mkBlob "notes.txt" 10;
    Batch.mkBlob "two.pdf" 2000; Batch.mkBlob "THREE.PDF" 3000 ].

Definition sample_sas (container blob : string) : result string :=
  ok "sp=r&sig=c2lnbmF0dXJl".

Definition sample_analyze (msg url : string) : result pyval :=
  if PyStr.contains "/two.pdf?" url then raise (ServiceError msg)
  else ok sample_layout.

Definition sample_upload (container blob : string) (data : Batch.json_data)
  : result Datatypes.unit := ok tt.

(** The stem of a name that ends in a four-character extension. *)
Definition sample_stem (blob : string) : string := PyStr.slice blob 0 (-4).

Definition sample_run (blobs : list Batch.Blob) (msg : string)
  : list Batch.BatchResult * list Batch.event :=
  Batch.process_all_pdfs_from_blob sample_processor (fun _ => ok blobs)
    "policies" sample_sas (sample_analyze msg) sample_upload sample_stem
    "2024-05-01T10:00:00" "20240501_100000".

End Samples.

(** ** Text beyond code point 255 *)

Module Unicode.

(** The characters of the wider text: the code points below 256, LATIN
    CAPITAL LETTER I WITH DOT ABOVE (U+0130) and COMBINING DOT ABOVE
    (U+0307), which the lower-casing of U+0130 brings in. *)
Inductive uchar : Type :=
| Latin (c : ascii)
| CapitalIDot
| CombiningDot.

Definition ustr : Type := list uchar.

Definition uchar_eqb (a b : uchar) : bool :=
  match a, b with
  | Latin x, Latin y => Ascii.eqb x y
  | CapitalIDot, CapitalIDot => true
  | CombiningDot, CombiningDot => true
  | _, _ => false
  end.

(** The lower-case form of one character: U+0130 becomes "i" followed by
    U+0307. *)
Definition lower_uchar (c : uchar) : ustr :=
  match c with
  | Latin x => [Latin (PyStr.lower_char x)]
  | CapitalIDot => [Latin "i"%char; CombiningDot]
  | CombiningDot => [CombiningDot]
  end.

(** [s.lower()] *)
Definition lower (s : ustr) : ustr := flat_map lower_uchar s.

(** [c.isspace()] *)
Definition is_space (c : uchar) : bool :=
  match c with
  | Latin x => PyStr.is_space x
  | _ => false
  end.

Fixpoint lstrip (s : ustr) : ustr :=
  match s with
  | [] => []
  | c :: rest => if is_space c then lstrip rest else s
  end.

Fixpoint rstrip (s : ustr) : ustr :=
  match s with
  | [] => []
  | c :: rest =>
      match rstrip rest with
      | [] => if is_space c then [] else [c]
      | r => c :: r
      end
  end.

(** [s.strip()] *)
Definition strip (s : ustr) : ustr := rstrip (lstrip s).

(** [len(s)] *)
Definition len (s : ustr) : Z := Z.of_nat (List.length s).

(** [text.startswith(pat)] *)
Fixpoint startswith (text pat : ustr) : bool :=
  match pat with
  | [] => true
  | a :: pat' =>
      match text with
      | [] => false
      | b :: text' => if uchar_eqb a b then startswith text' pat' else false
      end
  end.

(** [pat in text] *)
Fixpoint contains (pat text : ustr) : bool :=
  if startswith text pat then true
  else match text with
       | [] => false
       | _ :: rest => contains pat rest
       end.

(** [text.find(pat)] *)
Fixpoint find (text pat : ustr) : Z :=
  if startswith text pat then 0%Z
  else match text with
       | [] => (-1)%Z
       | _ :: rest =>
           let r := find rest pat in
           if (r =? -1)%Z then (-1)%Z else (r + 1)%Z
       end.

(** [s[start:stop]] *)
Definition slice (s : ustr) (start stop : Z) : ustr :=
  let lo := PyStr.slice_bound (len s) start in
  let hi := PyStr.slice_bound (len s) stop in
  firstn (Z.to_nat (hi - lo)) (skipn (Z.to_nat lo) s).

(** A text of code points below 256. *)
Fixpoint of_str (s : string) : ustr :=
  match s with
  | EmptyString => []
  | String c rest => Latin c :: of_str rest
  end.

Definition _extract_surrounding_text
  (text pattern : ustr) (context_chars : Z) : ustr :=
  let pattern_lower := lower pattern in
  let text_lower := lower text in
  let idx := find text_lower pattern_lower in
  if (idx =? -1)%Z then []
  else
    let start := Z.max 0 (idx - context_chars) in
    let end_ := Z.min (len text) (idx + len pattern + context_chars) in
    strip (slice text start end_).

Record DetectedRule : Type := mkRule
  { type : ustr;
    pattern_matched : ustr;
    rule_text : ustr }.

(** The same table as [Extraction.rule_patterns]. *)
Definition rule_patterns : list (ustr * list ustr) :=
  map (fun entry => (of_str (fst entry), map of_str (snd entry)))
    Extraction.rule_patterns.

Fixpoint patterns_loop (text text_lower rule_type : ustr)
  (patterns : list ustr) (rules : list DetectedRule) : list DetectedRule :=
  match patterns with
  | [] => rules
  | pattern :: rest =>
      let rules' :=
        if contains pattern text_lower
        then (rules ++ [ {| type := rule_type;
                            pattern_matched := pattern;
                            rule_text :=
                              _extract_surrounding_text text pattern
                                Extraction.default_context_chars |} ])%list
        else rules in
      patterns_loop text text_lower rule_type rest rules'
  end.

Fixpoint items_loop (text text_lower : ustr)
  (items : list (ustr * list ustr)) (rules : list DetectedRule)
  : list DetectedRule :=
  match items with
  | [] => rules
  | (rule_type, patterns) :: rest =>
      items_loop text text_lower rest
        (patterns_loop text text_lower rule_type patterns rules)
  end.

Definition _extract_healthcare_rules (text : ustr) : list DetectedRule :=
  let rules := [] in
  let text_lower := lower text in
  items_loop text text_lower rule_patterns rules.

(** A rule of the narrower embedding, as a rule over the wider text. *)
Definition of_rule (r : Extraction.DetectedRule) : DetectedRule :=
  {| type := of_str (Extraction.type r);
     pattern_matched := of_str (Extraction.pattern_matched r);
     rule_text := of_str (Extraction.rule_text r) |}.

(** *** The window in the words of the specification *)

Fixpoint ustr_eqb (a b : ustr) : bool :=
  match a, b with
  | [], [] => true
  | x :: a', y :: b' => uchar_eqb x y && ustr_eqb a' b'
  | _, _ => false
  end.

(** The first index of [text] at which the phrase stands, letter case
    aside. *)
Fixpoint first_occurrence (text pattern : ustr) : option nat :=
  if ustr_eqb (lower (firstn (List.length pattern) text)) (lower pattern)
  then Some 0
  else match text with
       | [] => None
       | _ :: rest => option_map S (first_occurrence rest pattern)
       end.

(** The stretch of the text from [context_chars] characters before that
    index to [context_chars] characters after the end of the phrase,
    clipped to the text and trimmed; empty without an occurrence. *)
Definition specified_window (text pattern : ustr) (context_chars : Z)
  : ustr :=
  match first_occurrence text pattern with
  | None => []
  | Some i =>
      strip
        (slice text
           (Z.max 0 (Z.of_nat i - context_chars))
           (Z.min (len text) (Z.of_nat i + len pattern + context_chars)))
  end.

(** *** Sample texts *)

(** 300 times U+0130, the phrase, 300 times "b". *)
Definition dotted_text : ustr :=
  (repeat CapitalIDot 300 ++ of_str "timely filing"
   ++ repeat (Latin "b"%char) 300)%list.

(** 1000 times U+0130, then the phrase. *)
Definition long_dotted_text : ustr :=
  (repeat CapitalIDot 1000 ++ of_str "timely filing")%list.

End Unicode.

(** ** Start-up *)

Module Startup.
Import Py.

(** [os.environ], after [load_dotenv()]. *)
Definition environ : Type := string -> option string.

(** [os.getenv(key)] *)
Definition getenv (env : environ) (key : string) : option string := env key.

(** [os.getenv(key, default)] *)
Definition getenv_or (env : environ) (key default : string) : string :=
  match env key with
  | Some v => v
  | None => default
  end.

(** The value of a variable that passes the test [if not v: raise]: set,
    and not to the empty string. *)
Definition required (v : option string) : option string :=
  match v with
  | Some s => if String.eqb s "" then None else Some s
  | None => None
  end.

Definition newline : string := String (ascii_of_nat 10) EmptyString.

Definition missing_credentials : string :=
  "Missing Azure Document Intelligence credentials:" ++ newline
  ++ "AZURE_DOCUMENT_INTELLIGENCE_ENDPOINT" ++ newline
  ++ "AZURE_DOCUMENT_INTELLIGENCE_KEY".

Definition missing_storage : string :=
  "Missing AZURE_STORAGE_CONNECTION_STRING in .env file".

(** What [__init__] can end with: its own [ValueError], or whatever the
    construction of a client raises. *)
Inductive init_error : Type :=
| ValueError (message : string)
| ClientError (e : exn).

(** The attributes of the processor after [__init__]; [created] tells
    whether [create_container] went through or raised (a container that is
    there already). *)
Record Initialized (DocClient BlobService : Type) : Type := mkInitialized
  { doc_client : DocClient;
    blob_service : BlobService;
    containers : Batch.Processor;
    created : bool }.

Arguments mkInitialized {DocClient BlobService}.
Arguments doc_client {DocClient BlobService}.
Arguments blob_service {DocClient BlobService}.
Arguments containers {DocClient BlobService}.
Arguments created {DocClient BlobService}.

Section Init.

Variables DocClient BlobService : Type.

(** [DocumentIntelligenceClient(endpoint, AzureKeyCredential(key))],
    [BlobServiceClient.from_connection_string] and [create_container]. *)
Variable document_intelligence_client : string -> string -> result DocClient.
Variable from_connection_string : string -> result BlobService.
Variable create_container : BlobService -> string -> result Datatypes.unit.

Definition init (env : environ)
  : init_error + Initialized DocClient BlobService :=
  let doc_endpoint := getenv env "AZURE_DOCUMENT_INTELLIGENCE_ENDPOINT" in
  let doc_key := getenv env "AZURE_DOCUMENT_INTELLIGENCE_KEY" in
  match required doc_endpoint, required doc_key with
  | Some endpoint, Some key =>
      match document_intelligence_client endpoint key with
      | inl e => inl (ClientError e)
      | inr client =>
          let storage_conn := getenv env "AZURE_STORAGE_CONNECTION_STRING" in
          match required storage_conn with
          | Some conn =>
              match from_connection_string conn with
              | inl e => inl (ClientError e)
              | inr service =>
                  let pdf :=
                    getenv_or env "AZURE_PDF_CONTAINER_NAME"
                      "healthcare-pdfs" in
                  let json :=
                    getenv_or env "AZURE_JSON_CONTAINER_NAME"
                      "healthcare-json" in
                  let made :=
                    match create_container service json with
                    | inr _ => true
                    | inl _ => false
                    end in
                  inr {| doc_client := client;
                         blob_service := service;
                         containers :=
                           {| Batch.pdf_container := pdf;
                              Batch.json_container := json |};
                         created := made |}
              end
          | None => inl (ValueError missing_storage)
          end
      end
  | _, _ => inl (ValueError missing_credentials)
  end.

End Init.

End Startup.

(** ** Console report of a batch *)

Module Report.
Import Py.

(** The lines that [_print_batch_summary] prints, each by what it reports;
    the rules, blank lines and the heading are left out. *)
Inductive report_line : Type :=
| Succeeded (files : Z)
| Failed (files : Z)
| TotalPages (pages : Z)
| TotalRules (rules : Z)
| SavedTo (container : string)
| FailedFiles
| FailedFile (blob error : string)
| AndMore (files : Z).

(** [result.get('error', 'Unknown error')] *)
Definition error_or (field : option string) (default : string) : string :=
  match field with
  | Some v => v
  | None => default
  end.

Definition _print_batch_summary (self : Batch.Processor)
  (results : list Batch.BatchResult) : list report_line :=
  let successful := filter (Batch.has_status "success") results in
  let failed := filter (Batch.has_status "failed") results in
  ([ Succeeded (Z.of_nat (List.length successful));
     Failed (Z.of_nat (List.length failed)) ]
   ++ (match successful with
       | [] => []
       | _ :: _ =>
           let total_pages :=
             Batch.py_sum
               (map (fun r => Batch.get_or (Batch.pages r) 0) successful) in
           let total_rules :=
             Batch.py_sum
               (map (fun r => Batch.get_or (Batch.rules_extracted r) 0)
                  successful) in
           [ TotalPages total_pages; TotalRules total_rules;
             SavedTo (Batch.json_container self) ]
       end)
   ++ (match failed with
       | [] => []
       | _ :: _ =>
           FailedFiles
           :: map (fun result =>
                     FailedFile (Batch.blob_name result)
                       (error_or (Batch.error result) "Unknown error"))
                (firstn 5 failed)
           ++ (if (5 <? List.length failed)%nat
               then [AndMore (Z.of_nat (List.length failed) - 5)]
               else [])
       end))%list.

End Report.

(** ** Vocabulary of the further properties *)

Module Props.
Import PyStr Extraction.

(** Number of lines of a report that name a failed file. *)
Definition failed_files_shown (report : list Report.report_line) : nat :=
  List.length
    (filter (fun l => match l with
                      | Report.FailedFile _ _ => true
                      | _ => false
                      end) report).

(** The files that the report says are not shown. *)
Definition failed_files_hidden (report : list Report.report_line) : Z :=
  fold_right (fun l acc => match l with
                           | Report.AndMore k => (k + acc)%Z
                           | _ => acc
                           end) 0%Z report.

(** What a blob adds to the page total of a run, given how its processing
    ended. *)
Definition pages_of (ended : Py.result Adapter.ExtractionDocument) : Z :=
  match ended with
  | inr doc => Adapter.page_count doc
  | inl _ => 0%Z
  end.

Definition rules_of (ended : Py.result Adapter.ExtractionDocument) : Z :=
  match ended with
  | inr doc => Adapter.healthcare_rules_count doc
  | inl _ => 0%Z
  end.

(** An event without the note whether the summary upload went through. *)
Definition forget_stored (e : Batch.event) : Batch.event :=
  match e with
  | Batch.UploadSummary blob summary _ => Batch.UploadSummary blob summary true
  | _ => e
  end.

(** The seven document types. *)
Definition document_types : list string :=
  [ "Prior Authorization Guidelines"; "Claims & Timely Filing";
    "Appeals Process"; "Provider Manual"; "Fee Schedule";
    "Credentialing Requirements"; "General Policy Document" ].

(** A sample environment with the three required variables and one
    container name. *)
Definition sample_environ : Startup.environ :=
  fun key =>
    if String.eqb key "AZURE_DOCUMENT_INTELLIGENCE_ENDPOINT"
    then Some "https://di.example.net/"
    else if String.eqb key "AZURE_DOCUMENT_INTELLIGENCE_KEY"
    then Some "0123456789abcdef"
    else if String.eqb key "AZURE_STORAGE_CONNECTION_STRING"
    then Some "AccountName=policies;AccountKey=a2V5"
    else if String.eqb key "AZURE_PDF_CONTAINER_NAME"
    then Some ""
    else None.

End Props.

Import PyStr Extraction Spec.

(** ** Facts about the string primitives *)

Lemma length_app (s t : string) :
  String.length (s ++ t) = String.length s + String.length t.
Proof. induction s as [|c s IH]; simpl; [reflexivity | now rewrite IH]. Qed.

Lemma len_app (s t : string) : (len (s ++ t) = len s + len t)%Z.
Proof. unfold len. rewrite length_app. lia. Qed.

Lemma len_nonneg (s : string) : (0 <= len s)%Z.
Proof. unfold len. lia. Qed.

Lemma app_assoc_str (s t u : string) : (s ++ t) ++ u = s ++ t ++ u.
Proof. induction s as [|c s IH]; simpl; [reflexivity | now rewrite IH]. Qed.

Lemma app_empty_r (s : string) : s ++ "" = s.
Proof. induction s as [|c s IH]; simpl; [reflexivity | now rewrite IH]. Qed.

Lemma app_inv_head_str (p s t : string) : p ++ s = p ++ t -> s = t.
Proof.
  induction p as [|c p IH]; simpl; intros H; [exact H|].
  injection H as H. auto.
Qed.

Lemma app_eq_length (a b c d : string) :
  a ++ b = c ++ d -> String.length a = String.length c -> a = c /\ b = d.
Proof.
  revert c. induction a as [|x a IH]; intros [|y c]; simpl; intros H L;
    try discriminate.
  - auto.
  - injection H as -> H. injection L as L.
    destruct (IH _ H L) as [-> ->]. auto.
Qed.

(** [prefix] is [str.startswith]. *)
Lemma prefix_iff (p t : string) :
  prefix p t = true <-> exists suf, t = p ++ suf.
Proof.
  revert t. induction p as [|a p IH]; intros t.
  - destruct t; simpl; split; eauto.
  - destruct t as [|b t]; simpl.
    + split; [discriminate | intros [suf H]; discriminate].
    + destruct (ascii_dec a b) as [->|N].
      * rewrite IH. split; intros [suf H]; exists suf.
        -- now rewrite H.
        -- now injection H.
      * split; [discriminate|]. intros [suf H]. injection H as H _.
        now elim N.
Qed.

Lemma contains_unfold (p t : string) :
  contains p t =
  if prefix p t then true
  else match t with
       | EmptyString => false
       | String _ rest => contains p rest
       end.
Proof. destruct t; reflexivity. Qed.

Lemma find_unfold (t p : string) :
  find t p =
  if prefix p t then 0%Z
  else match t with
       | EmptyString => (-1)%Z
       | String _ rest =>
           let r := find rest p in
           if (r =? -1)%Z then (-1)%Z else (r + 1)%Z
       end.
Proof. destruct t; reflexivity. Qed.

(** [in] decides substring occurrence. *)
Lemma contains_iff (p t : string) : contains p t = true <-> occurs p t.
Proof.
  split.
  - induction t as [|c t IH]; rewrite contains_unfold;
      destruct (prefix p _) eqn:P; intros H.
    + apply prefix_iff in P as [suf ->]. now exists "", suf.
    + discriminate.
    + apply prefix_iff in P as [suf ->]. now exists "", suf.
    + destruct (IH H) as (pre & suf & ->). now exists (String c pre), suf.
  - intros (pre & suf & ->). induction pre as [|c pre IH].
    + rewrite contains_unfold.
      replace (prefix p ("" ++ p ++ suf)) with true; [reflexivity|].
      symmetry. apply prefix_iff. now exists suf.
    + rewrite contains_unfold. simpl append.
      destruct (prefix p _); [reflexivity | exact IH].
Qed.

Lemma contains_false_iff (p t : string) :
  contains p t = false <-> ~ occurs p t.
Proof.
  rewrite <- contains_iff. destruct (contains p t); split; intros H;
    try congruence; try discriminate.
Qed.

Lemma find_range (t p : string) :
  find t p = (-1)%Z \/ (0 <= find t p <= len t - len p)%Z.
Proof.
  induction t as [|c t IH]; rewrite find_unfold;
    destruct (prefix p _) eqn:P.
  - right. apply prefix_iff in P as [suf P]. rewrite P, len_app.
    pose proof (len_nonneg suf). lia.
  - now left.
  - right. apply prefix_iff in P as [suf P]. rewrite P, len_app.
    pose proof (len_nonneg suf). lia.
  - cbv zeta. destruct (find t p =? -1)%Z eqn:E; [now left|].
    right. apply Z.eqb_neq in E. destruct IH as [IH|IH]; [contradiction|].
    unfold len in *. simpl String.length. lia.
Qed.

(** [find] answers [-1] exactly when the pattern does not occur. *)
Lemma find_none_iff (t p : string) :
  find t p = (-1)%Z <-> contains p t = false.
Proof.
  induction t as [|c t IH]; rewrite find_unfold, contains_unfold;
    destruct (prefix p _); try (split; [discriminate | discriminate]);
    try tauto.
  cbv zeta. destruct (find t p =? -1)%Z eqn:E.
  - apply Z.eqb_eq in E. tauto.
  - apply Z.eqb_neq in E. pose proof (find_range t p) as R.
    split; intros K; [lia|]. apply IH in K. contradiction.
Qed.

(** Otherwise [find] answers the index of the first occurrence. *)
Lemma find_first (t p : string) :
  find t p <> (-1)%Z ->
  occurs_at p t (find t p)
  /\ forall j, occurs_at p t j -> (find t p <= j)%Z.
Proof.
  induction t as [|c t IH]; rewrite find_unfold;
    destruct (prefix p _) eqn:P; intros H.
  - apply prefix_iff in P as [suf P]. split.
    + exists "", suf. split; [exact P | reflexivity].
    + intros j (pre & s & _ & <-). apply len_nonneg.
  - contradiction.
  - apply prefix_iff in P as [suf P]. split.
    + exists "", suf. split; [exact P | reflexivity].
    + intros j (pre & s & _ & <-). apply len_nonneg.
  - cbv zeta in *. destruct (find t p =? -1)%Z eqn:E; [contradiction|].
    apply Z.eqb_neq in E. destruct (IH E) as [(pre & suf & Ht & L) M].
    split.
    + exists (String c pre), suf. split.
      * simpl. now rewrite <- Ht.
      * unfold len in *. simpl String.length. lia.
    + intros j (pre' & suf' & Ht' & <-). destruct pre' as [|c' pre'].
      * simpl in Ht'. assert (prefix p (String c t) = true) as P'
          by (apply prefix_iff; now exists suf').
        congruence.
      * simpl in Ht'. injection Ht' as _ Ht'.
        assert (find t p <= len pre')%Z
          by (apply M; now exists pre', suf').
        unfold len in *. simpl String.length. lia.
Qed.

(** [lower] works character by character. *)
Lemma lower_length (s : string) : String.length (lower s) = String.length s.
Proof. induction s as [|c s IH]; simpl; [reflexivity | now rewrite IH]. Qed.

Lemma lower_len (s : string) : len (lower s) = len s.
Proof. unfold len. now rewrite lower_length. Qed.

Lemma lower_app (s t : string) : lower (s ++ t) = lower s ++ lower t.
Proof. induction s as [|c s IH]; simpl; [reflexivity | now rewrite IH]. Qed.

Lemma lower_app_inv (t x y : string) :
  lower t = x ++ y ->
  exists a b, t = a ++ b /\ lower a = x /\ lower b = y.
Proof.
  revert t. induction x as [|c x IH]; intros t H.
  - exists "", t. auto.
  - destruct t as [|d t]; simpl in H; [discriminate|].
    injection H as Hc H. destruct (IH _ H) as (a & b & -> & <- & <-).
    exists (String d a), b. simpl. now rewrite Hc.
Qed.

(** An occurrence in the lower-cased text is an occurrence in the text
    itself up to case, at the same index. *)
Lemma occurs_at_lower_iff (p t : string) (i : Z) :
  occurs_at (lower p) (lower t) i <-> ci_occurs_at p t i.
Proof.
  split.
  - intros (pre & suf & H & L).
    apply lower_app_inv in H as (a & b & -> & <- & H).
    apply lower_app_inv in H as (m & s & -> & Hm & _).
    exists a, m, s. rewrite lower_len in L. auto.
  - intros (pre & mid & suf & -> & L & H).
    exists (lower pre), (lower suf).
    rewrite !lower_app, H, lower_len. auto.
Qed.

Lemma substring_window (s : string) (n m : nat) :
  n + m <= String.length s ->
  exists pre suf,
    s = pre ++ substring n m s ++ suf
    /\ String.length pre = n /\ String.length (substring n m s) = m.
Proof.
  revert n m. induction s as [|c s IH]; intros n m H; simpl in H.
  - assert (n = 0) as -> by lia. assert (m = 0) as -> by lia.
    now exists "", "".
  - destruct n as [|n].
    + destruct m as [|m].
      * exists "", (String c s). auto.
      * destruct (IH 0 m) as (pre & suf & E & L & M); [lia|].
        destruct pre; [|discriminate]. simpl in E.
        exists "", suf. simpl. rewrite <- E, M. auto.
    + destruct (IH n m) as (pre & suf & E & L & M); [lia|].
      exists (String c pre), suf. simpl. rewrite <- E, L. auto.
Qed.

(** A slice between bounds that lie in the text, in order, is the stretch
    between them. *)
Lemma slice_window (s : string) (lo hi : Z) :
  (0 <= lo <= hi)%Z -> (hi <= len s)%Z -> window s lo hi (slice s lo hi).
Proof.
  intros B1 B2. unfold slice, slice_bound.
  destruct (lo <? 0)%Z eqn:E1; [apply Z.ltb_lt in E1; lia|].
  destruct (hi <? 0)%Z eqn:E2; [apply Z.ltb_lt in E2; lia|].
  rewrite !Z.min_l by lia.
  destruct (substring_window s (Z.to_nat lo) (Z.to_nat (hi - lo)))
    as (pre & suf & E & L & M); [unfold len in B2; lia|].
  exists pre, suf. unfold len. rewrite L, M. repeat split; [exact E|lia|lia].
Qed.

(** Two windows of one text between the same bounds are equal. *)
Lemma window_unique (t : string) (lo hi : Z) (w1 w2 : string) :
  window t lo hi w1 -> window t lo hi w2 -> w1 = w2.
Proof.
  intros (p1 & s1 & E1 & L1 & H1) (p2 & s2 & E2 & L2 & H2).
  rewrite E1 in E2. unfold len in *.
  apply app_eq_length in E2 as [-> E2]; [|lia].
  apply app_eq_length in E2 as [E2 _]; [exact E2 | lia].
Qed.

Lemma lstrip_spec (s : string) :
  exists l, s = l ++ lstrip s /\ all_space l /\ no_leading_space (lstrip s).
Proof.
  induction s as [|c s (l & E & A & N)]; simpl.
  - exists "". repeat split. intros c rest H. discriminate.
  - destruct (is_space c) eqn:Sp.
    + exists (String c l). simpl. rewrite <- E. auto.
    + exists "". repeat split. intros c' rest H. now injection H as <- _.
Qed.

Lemma rstrip_spec (s : string) :
  exists r, s = rstrip s ++ r /\ all_space r /\ no_trailing_space (rstrip s).
Proof.
  induction s as [|c s (r & E & A & N)]; simpl.
  - exists "". repeat split. intros [|d front] c H; discriminate.
  - destruct (rstrip s) as [|d u] eqn:R.
    + simpl in E. subst r. destruct (is_space c) eqn:Sp.
      * exists (String c s). simpl. repeat split; auto.
      * exists s. simpl. repeat split; auto.
        intros [|x front] y H; simpl in H.
        -- now injection H as <-.
        -- injection H as _ H. destruct front; discriminate.
    + exists r. simpl in *. rewrite <- E. repeat split; [exact A|].
      intros [|x front] y H; simpl in H; [discriminate|].
      injection H as _ H. exact (N front y H).
Qed.

Lemma rstrip_keeps_head (s : string) :
  no_leading_space s -> no_leading_space (rstrip s).
Proof.
  intros N c rest H. destruct s as [|d s]; simpl in H; [discriminate|].
  destruct (rstrip s); [destruct (is_space d) eqn:Sp; [discriminate|]|];
    injection H as <- _; exact (N d s eq_refl).
Qed.

(** [strip] removes exactly the leading and the trailing whitespace. *)
Lemma strip_trimmed (w : string) : trimmed w (strip w).
Proof.
  unfold strip. destruct (lstrip_spec w) as (l & E & A & N).
  destruct (rstrip_spec (lstrip w)) as (r & E' & A' & N').
  exists l, r. rewrite <- E', <- E. repeat split; auto.
  now apply rstrip_keeps_head.
Qed.

(** ** Payer detection *)

Lemma payer_loop_some (keywords : list string) (text_lower payer : string) :
  payer_loop keywords text_lower = Some payer <->
  exists before variant after,
    keywords = (before ++ variant :: after)%list
    /\ occurs variant text_lower
    /\ (forall earlier, In earlier before -> ~ occurs earlier text_lower)
    /\ payer = title variant.
Proof.
  revert payer. induction keywords as [|k ks IH]; intros payer; simpl.
  - split; [discriminate|]. intros (b & v & a & E & _).
    destruct b; discriminate.
  - destruct (contains k text_lower) eqn:C.
    + apply contains_iff in C. split.
      * intros [= <-]. exists [], k, ks. simpl. repeat split; tauto.
      * intros (b & v & a & E & O & F & ->). destruct b as [|x b].
        -- simpl in E. now injection E as ->.
        -- simpl in E. injection E as <- _. elim (F k); simpl; auto.
    + apply contains_false_iff in C. rewrite IH. split.
      * intros (b & v & a & -> & O & F & ->). exists (k :: b), v, a.
        simpl. repeat split; auto. intros e [<-|I]; auto.
      * intros (b & v & a & E & O & F & ->). destruct b as [|x b].
        -- simpl in E. injection E as <- _. contradiction.
        -- simpl in E. injection E as <- ->. exists b, v, a.
           repeat split; auto. intros e I. apply F. now right.
Qed.

Lemma payer_loop_none (keywords : list string) (text_lower : string) :
  payer_loop keywords text_lower = None <->
  forall variant, In variant keywords -> ~ occurs variant text_lower.
Proof.
  induction keywords as [|k ks IH]; simpl.
  - split; [intros _ v [] | reflexivity].
  - destruct (contains k text_lower) eqn:C.
    + apply contains_iff in C. split; [discriminate|].
      intros F. elim (F k); auto.
    + apply contains_false_iff in C. rewrite IH. split.
      * intros F v [<-|I]; auto.
      * intros F v I. apply F. now right.
Qed.

(** C1. Payer detection answers the title-cased form of the first variant of
    the fixed list that occurs in the lower-cased text, and [None] when no
    variant occurs; the sample text with both UHC and Aetna gives "Uhc". *)
Theorem payer_detection_first_variant :
  payer_keywords =
    [ "united healthcare"; "unitedhealthcare"; "uhc"; "anthem"; "elevance";
      "aetna"; "cvs health"; "kaiser permanente"; "cigna"; "humana";
      "blue cross blue shield"; "bcbs"; "centene"; "molina healthcare" ]
  /\ map title payer_keywords =
    [ "United Healthcare"; "Unitedhealthcare"; "Uhc"; "Anthem"; "Elevance";
      "Aetna"; "Cvs Health"; "Kaiser Permanente"; "Cigna"; "Humana";
      "Blue Cross Blue Shield"; "Bcbs"; "Centene"; "Molina Healthcare" ]
  /\ (forall text payer,
        _extract_payer_name text = Some payer <->
        exists before variant after,
          payer_keywords = (before ++ variant :: after)%list
          /\ occurs variant (lower text)
          /\ (forall earlier,
                In earlier before -> ~ occurs earlier (lower text))
          /\ payer = title variant)
  /\ (forall text,
        _extract_payer_name text = None <->
        forall variant,
          In variant payer_keywords -> ~ occurs variant (lower text))
  /\ _extract_payer_name
       "Member is covered under UHC and also Aetna network" = Some "Uhc".
Proof.
  split; [reflexivity|]. split; [vm_compute; reflexivity|].
  split; [|split].
  - intros text payer. apply payer_loop_some.
  - intros text. apply payer_loop_none.
  - vm_compute. reflexivity.
Qed.

(** The "Aetna" of the sample is passed over because "uhc" comes earlier in
    the list: the characterisation of C1 applied at the sample text. *)
Lemma payer_detection_first_variant_witness :
  exists before variant after,
    payer_keywords = (before ++ variant :: after)%list
    /\ occurs variant
         (lower "Member is covered under UHC and also Aetna network")
    /\ (forall earlier,
          In earlier before ->
          ~ occurs earlier
              (lower "Member is covered under UHC and also Aetna network"))
    /\ "Uhc" = title variant.
Proof.
  apply (proj1 (proj1 (proj2 (proj2 payer_detection_first_variant)) _ _)).
  vm_compute. reflexivity.
Defined.

(** ** Document-type classification *)

Lemma occurs_iff_at (p t : string) : occurs p t <-> exists i, occurs_at p t i.
Proof.
  split.
  - intros (pre & suf & E). exists (len pre), pre, suf. auto.
  - intros (i & pre & suf & E & _). now exists pre, suf.
Qed.

(** Testing a lower-case keyword against the lower-cased text is a
    case-insensitive test on the text. *)
Lemma mentions_reflect (kw text : string) :
  lower kw = kw -> reflect (mentions kw text) (contains kw (lower text)).
Proof.
  intros L. apply iff_reflect. rewrite contains_iff, occurs_iff_at.
  unfold mentions. split; intros [i H]; exists i.
  - rewrite <- L. now apply occurs_at_lower_iff.
  - apply occurs_at_lower_iff. now rewrite L.
Qed.

Ltac decide_mentions kw text :=
  let M := fresh "M" in
  destruct (mentions_reflect kw text eq_refl) as [M|M].

(** C2. Classification answers the category of the first rule, in the fixed
    priority order, whose keywords occur in the text regardless of case, and
    "General Policy Document" when none does; a text with "appeal" and
    "fee schedule" that rules 1 and 2 do not match is "Appeals Process". *)
Theorem classification_first_matching_rule (text : string) :
  (prior_authorization_rule text ->
   _classify_document_type text = "Prior Authorization Guidelines")
  /\ (~ prior_authorization_rule text -> claims_rule text ->
      _classify_document_type text = "Claims & Timely Filing")
  /\ (~ prior_authorization_rule text -> ~ claims_rule text ->
      appeal_rule text ->
      _classify_document_type text = "Appeals Process")
  /\ (~ prior_authorization_rule text -> ~ claims_rule text ->
      ~ appeal_rule text -> provider_manual_rule text ->
      _classify_document_type text = "Provider Manual")
  /\ (~ prior_authorization_rule text -> ~ claims_rule text ->
      ~ appeal_rule text -> ~ provider_manual_rule text ->
      fee_schedule_rule text ->
      _classify_document_type text = "Fee Schedule")
  /\ (~ prior_authorization_rule text -> ~ claims_rule text ->
      ~ appeal_rule text -> ~ provider_manual_rule text ->
      ~ fee_schedule_rule text -> credentialing_rule text ->
      _classify_document_type text = "Credentialing Requirements")
  /\ (~ prior_authorization_rule text -> ~ claims_rule text ->
      ~ appeal_rule text -> ~ provider_manual_rule text ->
      ~ fee_schedule_rule text -> ~ credentialing_rule text ->
      _classify_document_type text = "General Policy Document")
  /\ (mentions "appeal" text -> mentions "fee schedule" text ->
      ~ prior_authorization_rule text -> ~ claims_rule text ->
      _classify_document_type text = "Appeals Process").
Proof.
  unfold prior_authorization_rule, claims_rule, appeal_rule,
    provider_manual_rule, fee_schedule_rule, credentialing_rule,
    _classify_document_type.
  decide_mentions "prior authorization" text;
    [simpl; repeat split; intros; tauto|].
  decide_mentions "pre-authorization" text;
    [simpl; repeat split; intros; tauto|].
  decide_mentions "claim" text; decide_mentions "timely filing" text;
    try (simpl; repeat split; intros; tauto);
    (decide_mentions "appeal" text;
       [simpl; repeat split; intros; tauto|];
     decide_mentions "provider manual" text;
       [simpl; repeat split; intros; tauto|];
     decide_mentions "fee schedule" text;
       [simpl; repeat split; intros; tauto|];
     decide_mentions "reimbursement" text;
       [simpl; repeat split; intros; tauto|];
     decide_mentions "credentialing" text;
       simpl; repeat split; intros; tauto).
Qed.

(** C2 at a text that mentions an appeal and a fee schedule. *)
Lemma classification_first_matching_rule_witness :
  _classify_document_type "How to APPEAL a Fee Schedule decision"
  = "Appeals Process".
Proof.
  apply (proj2 (proj2 (proj2 (proj2 (proj2 (proj2 (proj2
           (classification_first_matching_rule
              "How to APPEAL a Fee Schedule decision")))))))).
  - apply (reflect_iff _ _ (mentions_reflect _ _ eq_refl)).
    vm_compute. reflexivity.
  - apply (reflect_iff _ _ (mentions_reflect _ _ eq_refl)).
    vm_compute. reflexivity.
  - intros [H|H];
      apply (reflect_iff _ _ (mentions_reflect _ _ eq_refl)) in H;
      vm_compute in H; discriminate.
  - intros [H _];
      apply (reflect_iff _ _ (mentions_reflect _ _ eq_refl)) in H;
      vm_compute in H; discriminate.
Defined.

(** ** Rule mining *)

Lemma patterns_loop_eq (text tl rt : string) (pats : list string)
  (rules : list DetectedRule) :
  patterns_loop text tl rt pats rules =
  (rules ++ map (rule_of text) (filter (hit tl) (map (pair rt) pats)))%list.
Proof.
  revert rules. induction pats as [|p ps IH]; intros rules; simpl.
  - now rewrite app_nil_r.
  - rewrite IH. unfold hit at 2. simpl.
    destruct (contains p tl); simpl; [|reflexivity].
    now rewrite <- app_assoc.
Qed.

Lemma items_loop_eq (text tl : string) (items : list (string * list string))
  (rules : list DetectedRule) :
  items_loop text tl items rules =
  (rules ++
   map (rule_of text)
     (filter (hit tl)
        (flat_map (fun entry => map (pair (fst entry)) (snd entry)) items)))
  %list.
Proof.
  revert rules. induction items as [|[rt pats] rest IH]; intros rules; simpl.
  - now rewrite app_nil_r.
  - rewrite IH, patterns_loop_eq, filter_app, map_app, app_assoc.
    reflexivity.
Qed.

(** The mined rules are the table entries whose phrase occurs, in table
    order. *)
Lemma rules_eq (text : string) :
  _extract_healthcare_rules text =
  map (rule_of text) (filter (hit (lower text)) phrase_table).
Proof. unfold _extract_healthcare_rules. now rewrite items_loop_eq. Qed.

Lemma phrase_table_eq :
  phrase_table =
  [ ("prior_authorization", "prior authorization required");
    ("prior_authorization", "pre-auth required");
    ("prior_authorization", "pa required");
    ("timely_filing", "timely filing");
    ("timely_filing", "filing deadline");
    ("timely_filing", "claim submission deadline");
    ("appeal_deadline", "appeal within");
    ("appeal_deadline", "appeal deadline");
    ("appeal_deadline", "days to appeal");
    ("documentation", "documentation required");
    ("documentation", "medical records required");
    ("notification", "notification required");
    ("notification", "must notify");
    ("notification", "advance notice") ].
Proof. reflexivity. Qed.

Lemma trigger_phrases_nodup : NoDup trigger_phrases.
Proof.
  apply (NoDup_count_occ' string_dec). intros p I.
  unfold trigger_phrases in *. rewrite phrase_table_eq in *.
  simpl in I. repeat destruct I as [<-|I]; try reflexivity. contradiction.
Qed.

(** In a table without repeated phrases, the selected entries hold a given
    phrase once if it is selected and not at all otherwise. *)
Lemma rules_for_selected (text : string) (f : string * string -> bool)
  (table : list (string * string)) (p : string) :
  NoDup (map snd table) ->
  (forall cp, In cp table -> snd cp = p -> f cp = true) ->
  In p (map snd table) ->
  rules_for p (map (rule_of text) (filter f table)) = 1.
Proof.
  unfold rules_for. induction table as [|[c q] rest IH]; simpl;
    intros N F I; [contradiction|].
  inversion N as [|? ? Nq Nr]; subst.
  assert (forall l, ~ In p (map snd l) ->
            List.length
              (filter (fun r => String.eqb (pattern_matched r) p)
                 (map (rule_of text) (filter f l))) = 0) as Z.
  { induction l as [|[c' q'] l IHl]; simpl; intros NI; [reflexivity|].
    destruct (f (c', q')); simpl; [|apply IHl; tauto].
    destruct (String.eqb_spec q' p); [tauto | apply IHl; tauto]. }
  destruct (string_dec q p) as [->|Ne].
  - rewrite (F (c, p)); auto. simpl. rewrite String.eqb_refl. simpl.
    now rewrite Z.
  - destruct I as [I|I]; [contradiction|].
    assert (K := IH Nr (fun cp H => F cp (or_intror H)) I).
    destruct (f (c, q)); simpl; [|exact K].
    destruct (String.eqb_spec q p); [contradiction | exact K].
Qed.

Lemma rules_for_unselected (text : string) (f : string * string -> bool)
  (table : list (string * string)) (p : string) :
  (forall cp, In cp table -> snd cp = p -> f cp = false) ->
  rules_for p (map (rule_of text) (filter f table)) = 0.
Proof.
  unfold rules_for. induction table as [|[c q] rest IH]; simpl; intros F;
    [reflexivity|].
  destruct (f (c, q)) eqn:E; simpl.
  - destruct (String.eqb_spec q p) as [->|Ne].
    + rewrite F in E; auto. discriminate.
    + apply IH. intros cp H. apply F. now right.
  - apply IH. intros cp H. apply F. now right.
Qed.

Ltac in_list :=
  solve [vm_compute; repeat (first [left; reflexivity | right])].

Lemma filter_keep {A : Type} (f : A -> bool) (x : A) (l : list A) :
  f x = true -> filter f (x :: l) = x :: filter f l.
Proof. intros H. simpl. now rewrite H. Qed.

Lemma filter_drop {A : Type} (f : A -> bool) (x : A) (l : list A) :
  f x = false -> filter f (x :: l) = filter f l.
Proof. intros H. simpl. now rewrite H. Qed.

(** Walks down the phrase table, settling each test from the hypotheses on
    which phrases occur. *)
Ltac settle_tests none :=
  repeat first
    [ rewrite filter_keep
        by (unfold hit; cbn [snd]; apply contains_iff; assumption)
    | rewrite filter_drop
        by (unfold hit; cbn [snd]; apply contains_false_iff, none;
            first [in_list | discriminate]) ].

(** C3. The table holds the 14 trigger phrases of the five categories
    listed here.  Rule mining tests every phrase of the table against the
    lower-cased text; the result holds one rule for each phrase that occurs,
    however often it occurs, with the phrase's category, the phrase itself
    and its context window, and nothing else.  Two phrases of one category
    give two rules of that category; no phrase gives no rule. *)
Theorem rule_mining_one_rule_per_phrase :
  phrase_table =
    [ ("prior_authorization", "prior authorization required");
      ("prior_authorization", "pre-auth required");
      ("prior_authorization", "pa required");
      ("timely_filing", "timely filing");
      ("timely_filing", "filing deadline");
      ("timely_filing", "claim submission deadline");
      ("appeal_deadline", "appeal within");
      ("appeal_deadline", "appeal deadline");
      ("appeal_deadline", "days to appeal");
      ("documentation", "documentation required");
      ("documentation", "medical records required");
      ("notification", "notification required");
      ("notification", "must notify");
      ("notification", "advance notice") ]
  /\ (forall text,
        map tag (_extract_healthcare_rules text)
        = filter (hit (lower text)) phrase_table)
  /\ (forall text p,
        In p trigger_phrases -> occurs p (lower text) ->
        rules_for p (_extract_healthcare_rules text) = 1)
  /\ (forall text p,
        ~ (In p trigger_phrases /\ occurs p (lower text)) ->
        rules_for p (_extract_healthcare_rules text) = 0)
  /\ (forall text r,
        In r (_extract_healthcare_rules text) ->
        In (tag r) phrase_table
        /\ occurs (pattern_matched r) (lower text)
        /\ rule_text r
           = _extract_surrounding_text text (pattern_matched r) 200)
  /\ (forall text,
        occurs "timely filing" (lower text) ->
        occurs "filing deadline" (lower text) ->
        (forall p, In p trigger_phrases ->
                   p <> "timely filing" -> p <> "filing deadline" ->
                   ~ occurs p (lower text)) ->
        map tag (_extract_healthcare_rules text)
        = [ ("timely_filing", "timely filing");
            ("timely_filing", "filing deadline") ])
  /\ (forall text,
        (forall p, In p trigger_phrases -> ~ occurs p (lower text)) ->
        _extract_healthcare_rules text = []).
Proof.
  assert (forall text,
            map tag (_extract_healthcare_rules text)
            = filter (hit (lower text)) phrase_table) as T.
  { intros text. rewrite rules_eq, map_map.
    rewrite map_ext with (g := fun cp => cp); [apply map_id|].
    now intros [c p]. }
  split; [reflexivity|]. split; [exact T|]. repeat split.
  - intros text p I O. rewrite rules_eq.
    apply rules_for_selected; [apply trigger_phrases_nodup| |exact I].
    intros cp _ <-. now apply contains_iff.
  - intros text p N. rewrite rules_eq. apply rules_for_unselected.
    intros cp I <-. apply contains_false_iff. intros O. apply N.
    split; [|exact O]. now apply in_map.
  - rewrite rules_eq in H. apply in_map_iff in H as (cp & <- & I).
    apply filter_In in I as [I _]. now destruct cp.
  - rewrite rules_eq in H. apply in_map_iff in H as (cp & <- & I).
    apply filter_In in I as [_ I]. now apply contains_iff.
  - rewrite rules_eq in H. apply in_map_iff in H as (cp & <- & I).
    reflexivity.
  - intros text O1 O2 none. rewrite T, phrase_table_eq.
    settle_tests none. reflexivity.
  - intros text none. rewrite rules_eq, phrase_table_eq.
    settle_tests none. reflexivity.
Qed.

(** C3 at a text that repeats "timely filing" and has "filing deadline"
    once: two rules, both tagged [timely_filing]. *)
Lemma rule_mining_one_rule_per_phrase_witness :
  rules_for "timely filing"
    (_extract_healthcare_rules
       "Timely filing applies. TIMELY FILING: the filing deadline is 90 days.")
  = 1
  /\ map tag
       (_extract_healthcare_rules
          "Timely filing applies. TIMELY FILING: the filing deadline is 90 days.")
     = [ ("timely_filing", "timely filing");
         ("timely_filing", "filing deadline") ].
Proof.
  split.
  - apply (proj1 (proj2 (proj2 rule_mining_one_rule_per_phrase))).
    + in_list.
    + apply contains_iff. vm_compute. reflexivity.
  - apply (proj1 (proj2 (proj2 (proj2 (proj2 (proj2
             rule_mining_one_rule_per_phrase)))))).
    + apply contains_iff. vm_compute. reflexivity.
    + apply contains_iff. vm_compute. reflexivity.
    + intros p I N1 N2. apply contains_false_iff.
      simpl in I.
      repeat (destruct I as [<-|I];
              [first [contradiction | vm_compute; reflexivity]|]).
      contradiction.
Defined.

(** ** Context window *)

Lemma lstrip_all_space (s : string) : all_space s -> lstrip s = "".
Proof.
  induction s as [|c s IH]; simpl; [reflexivity|].
  intros [-> A]. auto.
Qed.

Lemma rstrip_all_space (s : string) : all_space s -> rstrip s = "".
Proof.
  induction s as [|c s IH]; simpl; [reflexivity|].
  intros [-> A]. now rewrite IH.
Qed.

Lemma lstrip_app_space (l s : string) :
  all_space l -> lstrip (l ++ s) = lstrip s.
Proof.
  induction l as [|c l IH]; simpl; [reflexivity|].
  intros [-> A]. auto.
Qed.

Lemma rstrip_app_space (s r : string) :
  all_space r -> rstrip (s ++ r) = rstrip s.
Proof.
  intros A. induction s as [|c s IH]; simpl.
  - now apply rstrip_all_space.
  - now rewrite IH.
Qed.

Lemma rstrip_fixed (s : string) : no_trailing_space s -> rstrip s = s.
Proof.
  induction s as [|c s IH]; simpl; intros N; [reflexivity|].
  rewrite IH.
  - destruct s as [|d s]; [|reflexivity].
    now rewrite (N "" c eq_refl).
  - intros front d E. apply (N (String c front) d). simpl. now rewrite E.
Qed.

(** The trimmed form of a string is unique: it is what [strip] answers. *)
Lemma trimmed_strip (w s : string) : trimmed w s -> s = strip w.
Proof.
  intros (l & r & -> & Al & Ar & Nl & Nt). unfold strip.
  rewrite lstrip_app_space by exact Al.
  destruct s as [|c s].
  - simpl. rewrite lstrip_all_space by exact Ar. reflexivity.
  - simpl. rewrite (Nl c s eq_refl).
    change (String c (s ++ r)) with (String c s ++ r).
    rewrite rstrip_app_space by exact Ar. symmetry. now apply rstrip_fixed.
Qed.

Lemma ci_occurs_at_find (text pattern : string) :
  find (lower text) (lower pattern) <> (-1)%Z ->
  first_ci_occurrence pattern text (find (lower text) (lower pattern)).
Proof.
  intros H. destruct (find_first _ _ H) as [O M]. split.
  - now apply occurs_at_lower_iff.
  - intros j C. apply M. now apply occurs_at_lower_iff.
Qed.

Lemma ci_occurs_at_none (text pattern : string) :
  find (lower text) (lower pattern) = (-1)%Z ->
  forall i, ~ ci_occurs_at pattern text i.
Proof.
  intros H i C. apply find_none_iff, contains_false_iff in H. apply H.
  apply occurs_iff_at. exists i. now apply occurs_at_lower_iff.
Qed.

Lemma first_ci_occurrence_unique (text pattern : string) (i j : Z) :
  first_ci_occurrence pattern text i ->
  first_ci_occurrence pattern text j -> i = j.
Proof.
  intros [Ci Mi] [Cj Mj]. specialize (Mi _ Cj). specialize (Mj _ Ci). lia.
Qed.

(** The window for any context width that is not negative. *)
Lemma surrounding_text_window (text pattern : string) (context_chars i : Z) :
  (0 <= context_chars)%Z ->
  first_ci_occurrence pattern text i ->
  exists w,
    window text (Z.max 0 (i - context_chars))
      (Z.min (len text) (i + len pattern + context_chars)) w
    /\ trimmed w (_extract_surrounding_text text pattern context_chars).
Proof.
  intros Hc F. unfold _extract_surrounding_text.
  destruct (find (lower text) (lower pattern) =? -1)%Z eqn:E.
  - apply Z.eqb_eq in E. destruct F as [C _].
    now elim (ci_occurs_at_none _ _ E i).
  - apply Z.eqb_neq in E.
    rewrite (first_ci_occurrence_unique _ _ _ _ F (ci_occurs_at_find _ _ E)).
    pose proof (find_range (lower text) (lower pattern)) as [R|R];
      [contradiction|].
    rewrite !lower_len in R. pose proof (len_nonneg pattern).
    eexists. split; [|apply strip_trimmed].
    apply slice_window; lia.
Qed.

(** On text of code points below 256: when the phrase occurs in the text
    regardless of case, the context window is the stretch of the original
    text from 200 characters before the first such occurrence to 200
    characters after its end, clipped to the text, with leading and trailing
    whitespace removed; when the phrase does not occur, it is the empty
    string. *)
Theorem context_window_extraction (text pattern : string) :
  (forall i,
     first_ci_occurrence pattern text i ->
     exists w,
       window text (Z.max 0 (i - 200))
         (Z.min (len text) (i + len pattern + 200)) w
       /\ trimmed w (_extract_surrounding_text text pattern 200)
       /\ _extract_surrounding_text text pattern 200 = strip w)
  /\ ((forall i, ~ ci_occurs_at pattern text i) ->
      _extract_surrounding_text text pattern 200 = "")
  /\ ((exists i, first_ci_occurrence pattern text i)
      \/ (forall i, ~ ci_occurs_at pattern text i)).
Proof.
  split; [|split].
  - intros i F.
    destruct (surrounding_text_window text pattern 200 i) as (w & W & T);
      [lia | exact F |].
    exists w. split; [exact W|]. split; [exact T|]. now apply trimmed_strip.
  - intros N. unfold _extract_surrounding_text.
    destruct (find (lower text) (lower pattern) =? -1)%Z eqn:E;
      [reflexivity|].
    apply Z.eqb_neq in E. destruct (ci_occurs_at_find _ _ E) as [C _].
    now elim (N _ C).
  - destruct (Z.eq_dec (find (lower text) (lower pattern)) (-1)) as [E|E].
    + right. now apply ci_occurs_at_none.
    + left. eexists. now apply ci_occurs_at_find.
Qed.

(** ** The empty text *)

(** C10. On the empty text the payer is absent, the document type is the
    general one and no rule is mined. *)
Theorem empty_text_neutral :
  _extract_payer_name "" = None
  /\ _classify_document_type "" = "General Policy Document"
  /\ _extract_healthcare_rules "" = [].
Proof. repeat split; vm_compute; reflexivity. Qed.

(** ** Layout adapter and document assembly *)

Import Py Adapter.

Lemma bind_inr {A B : Type} (c : result A) (k : A -> result B) (b : B) :
  bind c k = inr b -> exists a, c = inr a /\ k a = inr b.
Proof. destruct c as [e|a]; simpl; [discriminate | eauto]. Qed.

Lemma getattr_inr (o : pyval) (attr : string) (v : pyval) :
  getattr o attr = inr v <-> lookup_attr o attr = Some v.
Proof.
  unfold getattr. destruct (lookup_attr o attr); unfold ok, raise;
    split; congruence.
Qed.

Lemma hasattr_true (o : pyval) (attr : string) :
  hasattr o attr = true -> exists v, lookup_attr o attr = Some v.
Proof.
  unfold hasattr. destruct (lookup_attr o attr); [eauto | discriminate].
Qed.

Lemma getattr_default_spec (o : pyval) (attr : string) (default : pyval) :
  defaults_to o attr default (getattr_default o attr default).
Proof.
  unfold defaults_to, getattr_default.
  destruct (lookup_attr o attr); split; congruence.
Qed.

Ltac inv_bind H :=
  let a := fresh "a" in
  let E := fresh "E" in
  cbv zeta in H; apply bind_inr in H as (a & E & H).

Lemma for_each_Forall2 {A B : Type} (body : A -> result B)
  (xs : list A) (ys : list B) :
  for_each body xs = inr ys -> Forall2 (fun x y => body x = inr y) xs ys.
Proof.
  revert ys. induction xs as [|x xs IH]; intros ys H; simpl in H.
  - injection H as <-. constructor.
  - inv_bind H. inv_bind H. injection H as <-. constructor; auto.
Qed.

Lemma for_each_enumerate_Forall2 {A B : Type} (body : Z -> A -> result B)
  (idx : Z) (xs : list A) (ys : list B) :
  for_each_enumerate body idx xs = inr ys ->
  Forall2 (fun x y => exists i, body i x = inr y) xs ys.
Proof.
  revert idx ys. induction xs as [|x xs IH]; intros idx ys H; simpl in H.
  - injection H as <-. constructor.
  - inv_bind H. inv_bind H. injection H as <-. constructor; eauto.
Qed.

Lemma for_each_total {A B : Type} (body : A -> result B) (xs : list A) :
  Forall (fun x => exists y, body x = inr y) xs ->
  exists ys, for_each body xs = inr ys.
Proof.
  induction 1 as [|x xs [y Hy] _ [ys Hys]]; simpl.
  - now exists [].
  - rewrite Hy. simpl. rewrite Hys. simpl. now eexists.
Qed.

Lemma for_each_enumerate_total {A B : Type} (body : Z -> A -> result B)
  (idx : Z) (xs : list A) :
  Forall (fun x => forall i, exists y, body i x = inr y) xs ->
  exists ys, for_each_enumerate body idx xs = inr ys.
Proof.
  intros F. revert idx.
  induction F as [|x xs Hx _ IH]; intros idx; simpl.
  - now exists [].
  - destruct (Hx idx) as [y ->]. simpl.
    destruct (IH (idx + 1)%Z) as [ys ->]. simpl. now eexists.
Qed.

Lemma forallb_total {A B : Type} (item_ok : A -> bool) (body : A -> result B)
  (xs : list A) :
  (forall x, item_ok x = true -> exists y, body x = inr y) ->
  forallb item_ok xs = true ->
  Forall (fun x => exists y, body x = inr y) xs.
Proof.
  intros H F. apply Forall_forall. intros x I. apply H.
  rewrite forallb_forall in F. auto.
Qed.

(** A guarded loop, [if v: for x in v: ...], over an adapted sequence. *)
Lemma guarded_loop_adapted {B : Type} (body : pyval -> result B)
  (R : pyval -> B -> Prop) (v : pyval) (out : list B) :
  (forall x y, body x = inr y -> R x y) ->
  (if truthy v then items <- py_iter v ;; for_each body items else ok [])
  = inr out ->
  sequence_adapted R v out.
Proof.
  intros HR H. split.
  - intros ->. simpl in H. now injection H as <-.
  - intros items ->. destruct items as [|x items].
    + simpl in H. injection H as <-. constructor.
    + change (for_each body (x :: items) = inr out) in H.
      apply for_each_Forall2 in H.
      eapply Forall2_impl; [|exact H]. exact HR.
Qed.

Lemma guarded_loop_total {B : Type} (item_ok : pyval -> bool)
  (body : pyval -> result B) (v : pyval) :
  (forall x, item_ok x = true -> exists y, body x = inr y) ->
  optional_list item_ok v = true ->
  exists out,
    (if truthy v then items <- py_iter v ;; for_each body items else ok [])
    = inr out.
Proof.
  intros H O. destruct v; try discriminate; simpl in *.
  - now eexists.
  - destruct items as [|x items]; [now eexists|].
    apply (for_each_total body (x :: items)).
    now apply (forallb_total item_ok).
Qed.

Lemma convert_line_adapted (line : pyval) (rec : LineRecord) :
  convert_line line = inr rec -> line_adapted line rec.
Proof.
  unfold convert_line. intros H. inv_bind H. inv_bind H.
  injection H as <-. apply getattr_inr in E.
  repeat split; simpl; try exact E;
    try apply getattr_default_spec.
  - intros N. unfold hasattr in E0. rewrite N in E0. now injection E0.
  - intros v S. unfold hasattr in E0. rewrite S in E0.
    apply getattr_inr in E0. congruence.
Qed.

Lemma convert_line_total (line : pyval) :
  line_ok line = true -> exists rec, convert_line line = inr rec.
Proof.
  unfold line_ok, convert_line. intros H.
  apply hasattr_true in H as [v H]. apply getattr_inr in H. rewrite H.
  simpl. unfold hasattr, getattr.
  destruct (lookup_attr line "polygon"); simpl; now eexists.
Qed.

Ltac use_attr H :=
  let v := fresh "v" in
  apply hasattr_true in H as [v H];
  (try rewrite H); apply getattr_inr in H; (try rewrite H); cbn [bind ok].

Ltac split_andb :=
  repeat match goal with
    | K : (_ && _)%bool = true |- _ => apply andb_true_iff in K as [? ?]
    end.

Ltac use_attrs :=
  repeat match goal with K : hasattr _ _ = true |- _ => use_attr K end.

Lemma attr_is_true (check : pyval -> bool) (o : pyval) (attr : string) :
  attr_is check o attr = true ->
  exists v, lookup_attr o attr = Some v /\ check v = true.
Proof.
  unfold attr_is. destruct (lookup_attr o attr); [eauto | discriminate].
Qed.

Lemma convert_page_adapted (page : pyval) (rec : PageRecord) :
  convert_page page = inr rec -> page_adapted page rec.
Proof.
  unfold convert_page. intros H. do 6 inv_bind H. injection H as <-.
  exists a3. split; [now apply getattr_inr|]. simpl.
  eapply guarded_loop_adapted; [exact convert_line_adapted | exact E4].
Qed.

Lemma convert_page_total (page : pyval) :
  page_ok page = true -> exists rec, convert_page page = inr rec.
Proof.
  unfold page_ok, has_attrs, convert_page. cbn [forallb]. intros H.
  split_andb. use_attrs.
  match goal with K : attr_is _ _ _ = true |- _ =>
    apply attr_is_true in K as (v3 & L & O) end.
  apply getattr_inr in L. rewrite L. cbn [bind ok].
  destruct (guarded_loop_total line_ok convert_line v3 convert_line_total O)
    as [out ->].
  cbn [bind ok]. now eexists.
Qed.

Lemma convert_paragraph_adapted (para : pyval) (rec : ParagraphRecord) :
  convert_paragraph para = inr rec -> paragraph_adapted para rec.
Proof.
  unfold convert_paragraph. intros H. do 2 inv_bind H. injection H as <-.
  apply getattr_inr in E. unfold hasattr, getattr in E0.
  split; [exact E|]. split; [apply getattr_default_spec|]. simpl.
  destruct (lookup_attr para "bounding_regions") as [regions|];
    cbn [bind ok] in E0.
  - repeat split; try discriminate.
    + intros [= ->]. simpl in E0. now injection E0 as <-.
    + intros [= ->]. simpl in E0. now injection E0 as <-.
    + intros region rest [= ->]. simpl in E0. inv_bind E0.
      injection E0 as <-. apply getattr_inr in E1. eauto.
  - injection E0 as <-. repeat split; try discriminate.
Qed.

Lemma convert_paragraph_total (para : pyval) :
  paragraph_ok para = true -> exists rec, convert_paragraph para = inr rec.
Proof.
  unfold paragraph_ok, convert_paragraph. intros H.
  apply andb_true_iff in H as [H1 H2]. use_attr H1.
  unfold hasattr, getattr.
  destruct (lookup_attr para "bounding_regions") as [regions|];
    cbn [bind ok]; [|now eexists].
  destruct regions as [| | | |[|region rest]|]; try discriminate;
    simpl; try (now eexists).
  simpl in H2. apply andb_true_iff in H2 as [H2 _].
  unfold region_ok in H2. apply hasattr_true in H2 as [n H2].
  unfold getattr. rewrite H2. simpl. now eexists.
Qed.

Lemma convert_cell_adapted (cell : pyval) (rec : CellRecord) :
  convert_cell cell = inr rec -> cell_adapted cell rec.
Proof.
  unfold convert_cell. intros H. do 3 inv_bind H. injection H as <-.
  apply getattr_inr in E1.
  repeat split; simpl; try exact E1; apply getattr_default_spec.
Qed.

Lemma convert_cell_total (cell : pyval) :
  cell_ok cell = true -> exists rec, convert_cell cell = inr rec.
Proof.
  unfold cell_ok, has_attrs, convert_cell. cbn [forallb]. intros H.
  split_andb. use_attrs. now eexists.
Qed.

Lemma convert_table_adapted (idx : Z) (table : pyval) (rec : TableRecord) :
  convert_table idx table = inr rec -> table_adapted table rec.
Proof.
  unfold convert_table. intros H. do 5 inv_bind H. injection H as <-.
  intros items L. simpl. apply getattr_inr in E1.
  rewrite L in E1. injection E1 as <-. simpl in E2. injection E2 as <-.
  apply for_each_Forall2 in E3.
  eapply Forall2_impl; [|exact E3]. exact convert_cell_adapted.
Qed.

Lemma convert_table_total (idx : Z) (table : pyval) :
  table_ok table = true -> exists rec, convert_table idx table = inr rec.
Proof.
  unfold table_ok, has_attrs, convert_table. cbn [forallb]. intros H.
  split_andb. use_attrs.
  match goal with K : attr_is _ _ _ = true |- _ =>
    apply attr_is_true in K as (cs & L & O) end.
  apply getattr_inr in L. rewrite L. cbn [bind ok].
  destruct cs; try discriminate. simpl in O. cbn [py_iter bind ok].
  destruct (for_each_total convert_cell items) as [out ->];
    [now apply (forallb_total cell_ok), O; exact convert_cell_total|].
  cbn [bind ok]. now eexists.
Qed.

(** The guarded, enumerated loop over the tables. *)
Lemma tables_loop_adapted (v : pyval) (out : list TableRecord) :
  (if truthy v
   then items <- py_iter v ;; for_each_enumerate convert_table 0%Z items
   else ok []) = inr out ->
  sequence_adapted table_adapted v out.
Proof.
  intros H. split.
  - intros ->. simpl in H. now injection H as <-.
  - intros items ->. destruct items as [|x items].
    + simpl in H. injection H as <-. constructor.
    + change (for_each_enumerate convert_table 0%Z (x :: items) = inr out)
        in H.
      apply for_each_enumerate_Forall2 in H.
      eapply Forall2_impl; [|exact H].
      intros t r [i K]. exact (convert_table_adapted i t r K).
Qed.

Lemma tables_loop_total (v : pyval) :
  optional_list table_ok v = true ->
  exists out,
    (if truthy v
     then items <- py_iter v ;; for_each_enumerate convert_table 0%Z items
     else ok []) = inr out.
Proof.
  intros O. destruct v; try discriminate; simpl in *.
  - now eexists.
  - destruct items as [|x items]; [now eexists|].
    apply (for_each_enumerate_total convert_table 0%Z (x :: items)).
    apply Forall_forall. intros t I i. apply convert_table_total.
    rewrite forallb_forall in O. auto.
Qed.

Lemma convert_document_adapted (raw : pyval) (blob now : string)
  (doc : ExtractionDocument) :
  _convert_to_healthcare_json raw blob now = inr doc ->
  document_adapted raw doc.
Proof.
  unfold _convert_to_healthcare_json. intros H. do 9 inv_bind H.
  injection H as <-.
  exists a, a4, a6. simpl.
  repeat split; try (now apply getattr_inr).
  - destruct (guarded_loop_adapted _ _ _ _ convert_page_adapted E3); auto.
  - destruct (guarded_loop_adapted _ _ _ _ convert_page_adapted E3); auto.
  - destruct
      (guarded_loop_adapted _ _ _ _ convert_paragraph_adapted E5); auto.
  - destruct
      (guarded_loop_adapted _ _ _ _ convert_paragraph_adapted E5); auto.
  - destruct (tables_loop_adapted _ _ E7); auto.
  - destruct (tables_loop_adapted _ _ E7); auto.
Qed.

Lemma convert_document_total (raw : pyval) (blob now : string) :
  layout_ok raw = true ->
  exists doc, _convert_to_healthcare_json raw blob now = inr doc.
Proof.
  unfold layout_ok, _convert_to_healthcare_json. intros H. split_andb.
  repeat match goal with K : attr_is _ _ _ = true |- _ =>
    let v := fresh "v" in
    let L := fresh "L" in
    let O := fresh "O" in
    apply attr_is_true in K as (v & L & O); apply getattr_inr in L
  end.
  rewrite L1. cbn [bind ok].
  assert (exists n, (if truthy v1 then py_len v1 else ok 0%Z) = inr n)
    as [n ->].
  { destruct v1; try discriminate; simpl; [now eexists|].
    destruct items; now eexists. }
  cbn [bind ok]. rewrite L2. cbn [bind ok].
  destruct v2; try discriminate. cbn [expect_str bind ok]. cbv zeta.
  destruct (guarded_loop_total page_ok convert_page v1 convert_page_total O1)
    as [ps ->].
  cbn [bind ok]. rewrite L0. cbn [bind ok].
  destruct (guarded_loop_total paragraph_ok convert_paragraph v0
              convert_paragraph_total O0) as [qs ->].
  cbn [bind ok]. rewrite L. cbn [bind ok].
  destruct (tables_loop_total v O) as [ts ->].
  cbn [bind ok]. now eexists.
Qed.

(** C5. In every document that the assembly step returns, the rule count is
    the length of the detected-rules list; a layout without text gives an
    empty list and the count 0. *)
Theorem rules_count_is_length :
  (forall raw blob now doc,
     _convert_to_healthcare_json raw blob now = inr doc ->
     healthcare_rules_count doc
     = Z.of_nat (List.length (detected_rules (healthcare_metadata doc))))
  /\ (forall blob now,
        exists doc,
          _convert_to_healthcare_json Samples.empty_layout blob now = inr doc
          /\ detected_rules (healthcare_metadata doc) = []
          /\ healthcare_rules_count doc = 0%Z).
Proof.
  split.
  - intros raw blob now doc H. unfold _convert_to_healthcare_json in H.
    do 9 inv_bind H. injection H as <-. reflexivity.
  - intros blob now. eexists. split; [reflexivity|]. split; reflexivity.
Qed.

(** C5 at the sample layout, whose text holds one trigger phrase. *)
Lemma rules_count_is_length_witness :
  exists doc,
    _convert_to_healthcare_json Samples.sample_layout "a.pdf" "t" = inr doc
    /\ healthcare_rules_count doc = 1%Z
    /\ List.length (detected_rules (healthcare_metadata doc)) = 1.
Proof.
  destruct (convert_document_total Samples.sample_layout "a.pdf" "t"
              eq_refl) as [doc H].
  exists doc. split; [exact H|].
  pose proof (proj1 rules_count_is_length _ _ _ _ H) as K.
  assert (List.length (detected_rules (healthcare_metadata doc)) = 1) as L.
  { vm_compute in H. injection H as <-. reflexivity. }
  rewrite L in K. split; [exact K | exact L].
Defined.



(** The sample layout, adapted: markers and default spans in place. *)
Example sample_layout_adapted :
  exists doc,
    _convert_to_healthcare_json Samples.sample_layout "a.pdf" "t" = inr doc
    /\ map (fun p => map (fun l => (confidence l, bounding_box l)) (lines p))
         (Adapter.pages doc)
       = [ [ (VFloat (99 # 100), VList [VInt 0; VInt 0]); (VNone, VNone) ] ]
    /\ map role (paragraphs doc) = [VNone]
    /\ map para_page_number (paragraphs doc) = [None]
    /\ map (fun t => map (fun c => (kind c, row_span c, column_span c))
                       (cells t)) (tables doc)
       = [ [ (VNone, VInt 1, VInt 1) ] ]
    /\ map table_id (tables doc) = [1%Z].
Proof. eexists. split; [reflexivity|]. repeat split. Qed.

(** Outside the guarded cases: a span that is present with the value [None]
    is handed on as it is, and a result object without the attribute
    [pages] makes the adapter raise. *)
Remark unguarded_layout_cases :
  (forall cell rec,
     convert_cell cell = inr rec ->
     lookup_attr cell "row_span" = Some VNone -> row_span rec = VNone)
  /\ _convert_to_healthcare_json (VObj [("content", VStr "")]) "a.pdf" "t"
     = inl (AttributeError "pages").
Proof.
  split; [|reflexivity].
  intros cell rec H L. apply convert_cell_adapted in H.
  destruct H as (_ & _ & [_ H] & _). now apply H.
Qed.

(** ** Batch summary *)

Lemma fold_left_add_shift (xs : list Z) (a : Z) :
  fold_left Z.add xs a = (a + fold_left Z.add xs 0)%Z.
Proof.
  revert a. induction xs as [|x xs IH]; intros a; simpl; [lia|].
  rewrite IH, (IH x). lia.
Qed.

Lemma py_sum_cons (x : Z) (xs : list Z) :
  Batch.py_sum (x :: xs) = (x + Batch.py_sum xs)%Z.
Proof. unfold Batch.py_sum. simpl. now rewrite fold_left_add_shift. Qed.

Lemma sum_over_successful (field : Batch.BatchResult -> option Z)
  (rs : list Batch.BatchResult) :
  Batch.py_sum
    (map (fun r => Batch.get_or (field r) 0)
       (filter (Batch.has_status "success") rs))
  = total_of
      (fun r => if String.eqb (Batch.status r) "success"
                then Batch.get_or (field r) 0 else 0%Z) rs.
Proof.
  unfold total_of. induction rs as [|r rs IH]; [reflexivity|].
  cbn [filter fold_right]. unfold Batch.has_status at 1.
  destruct (String.eqb (Batch.status r) "success").
  - cbn [map]. now rewrite py_sum_cons, IH.
  - rewrite IH. lia.
Qed.

Lemma count_with_status (s : string) (rs : list Batch.BatchResult) :
  List.length (filter (Batch.has_status s) rs)
  = count_occ string_dec (map Batch.status rs) s.
Proof.
  induction rs as [|r rs IH]; [reflexivity|].
  cbn [filter map count_occ]. unfold Batch.has_status at 1.
  destruct (String.eqb_spec (Batch.status r) s) as [E|E];
    destruct (string_dec (Batch.status r) s); try contradiction;
    cbn [List.length]; now rewrite IH.
Qed.

(** C6. The totals of the batch summary are reductions over the result
    list: the number of entries, the numbers of entries with status
    "success" and with status "failed", and the sums of what each entry
    contributes, where only a successful entry contributes its page and
    rule counts and a failed entry contributes 0. *)
Theorem batch_totals_are_reductions
  (rs : list Batch.BatchResult) (now : string) :
  Batch.total_files (Batch.batch_summary rs now) = Z.of_nat (List.length rs)
  /\ Batch.successful (Batch.batch_summary rs now)
     = Z.of_nat (count_occ string_dec (map Batch.status rs) "success")
  /\ Batch.failed (Batch.batch_summary rs now)
     = Z.of_nat (count_occ string_dec (map Batch.status rs) "failed")
  /\ Batch.total_pages (Batch.batch_summary rs now)
     = total_of page_contribution rs
  /\ Batch.total_rules (Batch.batch_summary rs now)
     = total_of rule_contribution rs
  /\ Batch.results (Batch.batch_summary rs now) = rs
  /\ (forall r,
        Batch.status r = "failed" ->
        page_contribution r = 0%Z /\ rule_contribution r = 0%Z
        /\ Batch.total_pages (Batch.batch_summary (r :: rs) now)
           = Batch.total_pages (Batch.batch_summary rs now)
        /\ Batch.total_rules (Batch.batch_summary (r :: rs) now)
           = Batch.total_rules (Batch.batch_summary rs now))
  /\ (forall r pages_of_r rules_of_r,
        Batch.status r = "success" ->
        Batch.pages r = Some pages_of_r ->
        Batch.rules_extracted r = Some rules_of_r ->
        Batch.total_pages (Batch.batch_summary (r :: rs) now)
        = (pages_of_r + Batch.total_pages (Batch.batch_summary rs now))%Z
        /\ Batch.total_rules (Batch.batch_summary (r :: rs) now)
           = (rules_of_r + Batch.total_rules (Batch.batch_summary rs now))%Z).
Proof.
  assert (forall l, Batch.total_pages (Batch.batch_summary l now)
                    = total_of page_contribution l) as P
    by (intros l; apply (sum_over_successful Batch.pages)).
  assert (forall l, Batch.total_rules (Batch.batch_summary l now)
                    = total_of rule_contribution l) as R
    by (intros l; apply (sum_over_successful Batch.rules_extracted)).
  split; [reflexivity|].
  split; [simpl; now rewrite count_with_status|].
  split; [simpl; now rewrite count_with_status|].
  split; [apply P|]. split; [apply R|]. split; [reflexivity|]. split.
  - intros r F. rewrite !P, !R. unfold page_contribution, rule_contribution.
    simpl. unfold page_contribution, rule_contribution. rewrite F. simpl.
    auto.
  - intros r p q S Pg Rl. rewrite !P, !R. simpl.
    unfold page_contribution, rule_contribution.
    rewrite S, Pg, Rl. simpl. auto.
Qed.

(** C6 on a list with one successful and one failed entry. *)
Lemma batch_totals_are_reductions_witness :
  Batch.total_pages
    (Batch.batch_summary
       [ Batch.mkBatchResult "b.pdf" "failed" None None None
           (Some "timeout") "t";
         Batch.mkBatchResult "a.pdf" "success" (Some 7%Z) (Some 2%Z)
           (Some "a_ocr.json") None "t" ] "t")
  = Batch.total_pages
      (Batch.batch_summary
         [ Batch.mkBatchResult "a.pdf" "success" (Some 7%Z) (Some 2%Z)
             (Some "a_ocr.json") None "t" ] "t").
Proof.
  apply (proj2 (proj2 (proj2 (proj2 (proj2 (proj2
           (batch_totals_are_reductions
              [ Batch.mkBatchResult "a.pdf" "success" (Some 7%Z) (Some 2%Z)
                  (Some "a_ocr.json") None "t" ] "t"))))))).
  reflexivity.
Defined.

(** ** Batch orchestrator *)

Lemma paced_sleeps (seconds : Z) (names : list string) :
  filter is_sleep (paced seconds names)
  = repeat (Batch.Sleep seconds) (List.length names - 1).
Proof.
  induction names as [|n [|m rest] IH]; try reflexivity.
  change (paced seconds (n :: m :: rest))
    with (Batch.Process n :: Batch.Sleep seconds :: paced seconds (m :: rest)).
  cbn [filter is_sleep]. rewrite IH. simpl. now rewrite Nat.sub_0_r.
Qed.

Lemma paced_processed (seconds : Z) (names : list string) :
  processed (paced seconds names) = names.
Proof.
  unfold processed.
  induction names as [|n [|m rest] IH]; try reflexivity.
  change (paced seconds (n :: m :: rest))
    with (Batch.Process n :: Batch.Sleep seconds :: paced seconds (m :: rest)).
  cbn [flat_map app]. now rewrite IH.
Qed.

Lemma paced_sleep_value (seconds d : Z) (names : list string) :
  In (Batch.Sleep d) (paced seconds names) -> d = seconds.
Proof.
  induction names as [|n [|m rest] IH]; simpl; intros H.
  - contradiction.
  - destruct H as [H|[]]. discriminate.
  - destruct H as [H|[H|H]]; [discriminate | congruence | now apply IH].
Qed.

Section BatchRun.

Variable self : Batch.Processor.
Variable list_blobs : string -> result (list Batch.Blob).
Variable account_name : string.
Variable generate_blob_sas : string -> string -> result string.
Variable analyze_document : string -> result pyval.
Variable upload_blob :
  string -> string -> Batch.json_data -> result Datatypes.unit.
Variable stem : string -> string.
Variable utcnow_isoformat : string.
Variable utcnow_stamp : string.

Abbreviation process :=
  (Batch.process_pdf_from_blob self account_name generate_blob_sas
     analyze_document upload_blob stem utcnow_isoformat).
Abbreviation outcome :=
  (Batch.outcome self account_name generate_blob_sas analyze_document
     upload_blob stem utcnow_isoformat).
Abbreviation upload_summary :=
  (Batch._upload_batch_summary self upload_blob utcnow_isoformat
     utcnow_stamp).
Abbreviation run :=
  (Batch.process_all_pdfs_from_blob self list_blobs account_name
     generate_blob_sas analyze_document upload_blob stem utcnow_isoformat
     utcnow_stamp).

(** The loop appends one entry per blob and pauses after every blob but the
    last. *)
Lemma batch_loop_eq (blobs : list Batch.Blob) (total i : nat)
  (rs : list Batch.BatchResult) (trace : list Batch.event) :
  i + List.length blobs = S total ->
  Batch.batch_loop self account_name generate_blob_sas analyze_document
    upload_blob stem utcnow_isoformat total i blobs rs trace
  = ((rs ++ map outcome blobs)%list,
     (trace ++ paced 3 (map Batch.name blobs))%list).
Proof.
  revert i rs trace.
  induction blobs as [|b rest IH]; intros i rs trace L.
  - simpl. now rewrite !app_nil_r.
  - cbn [Batch.batch_loop]. cbv zeta. rewrite IH by (simpl in L; lia).
    rewrite <- app_assoc. f_equal. destruct rest as [|b' rest].
    + simpl in L. replace (i <? total)%nat with false
        by (symmetry; apply Nat.ltb_ge; lia).
      now rewrite app_nil_r.
    + simpl in L. replace (i <? total)%nat with true
        by (symmetry; apply Nat.ltb_lt; lia).
      now rewrite <- !app_assoc.
Qed.

Lemma run_eq (all_blobs : list Batch.Blob) :
  list_blobs (Batch.pdf_container self) = inr all_blobs ->
  filter Batch.is_pdf all_blobs <> [] ->
  run = (map outcome (filter Batch.is_pdf all_blobs),
         (paced 3 (map Batch.name (filter Batch.is_pdf all_blobs))
          ++ upload_summary (map outcome (filter Batch.is_pdf all_blobs)))
         %list).
Proof.
  intros L N. unfold Batch.process_all_pdfs_from_blob. rewrite L.
  destruct (filter Batch.is_pdf all_blobs) as [|b rest] eqn:F;
    [contradiction|].
  rewrite batch_loop_eq by (simpl; lia). reflexivity.
Qed.

Lemma upload_summary_event (rs : list Batch.BatchResult) :
  exists stored,
    upload_summary rs
    = [ Batch.UploadSummary ("_batch_summary_" ++ utcnow_stamp ++ ".json")
          (Batch.batch_summary rs utcnow_isoformat) stored ].
Proof.
  unfold Batch._upload_batch_summary.
  destruct (Batch._upload_json_to_blob _ _ _ _); eauto.
Qed.

Lemma outcome_recorded (blob : Batch.Blob) :
  Batch.blob_name (outcome blob) = Batch.name blob
  /\ recorded (process (Batch.name blob)) (outcome blob).
Proof.
  unfold Batch.outcome, recorded.
  destruct (process (Batch.name blob)); simpl; auto.
Qed.

Lemma outcome_status (s : string) (blobs : list Batch.Blob) :
  List.length (filter (Batch.has_status s) (map outcome blobs))
  = List.length
      (filter (fun blob => Batch.has_status s (outcome blob)) blobs).
Proof.
  induction blobs as [|b rest IH]; [reflexivity|]. simpl.
  destruct (Batch.has_status s (outcome b)); simpl; now rewrite IH.
Qed.

Lemma outcome_success (blob : Batch.Blob) :
  Batch.has_status "success" (outcome blob)
  = returned (process (Batch.name blob)).
Proof.
  unfold Batch.outcome, Batch.has_status.
  destruct (process (Batch.name blob)); reflexivity.
Qed.

Lemma outcome_failed (blob : Batch.Blob) :
  Batch.has_status "failed" (outcome blob)
  = negb (returned (process (Batch.name blob))).
Proof.
  unfold Batch.outcome, Batch.has_status.
  destruct (process (Batch.name blob)); reflexivity.
Qed.

(** Every pause of a run lasts 3 seconds, whatever the collaborators and
    the settings are. *)
Lemma run_sleep_value (d : Z) : In (Batch.Sleep d) (snd run) -> d = 3%Z.
Proof.
  unfold Batch.process_all_pdfs_from_blob.
  destruct (list_blobs _) as [e|all_blobs]; [intros []|].
  destruct (filter Batch.is_pdf all_blobs) as [|b rest] eqn:F; [intros []|].
  rewrite batch_loop_eq by (simpl; lia). cbn [snd app].
  intros H. apply in_app_or in H as [H|H].
  - now apply paced_sleep_value in H.
  - destruct (upload_summary_event (map outcome (b :: rest))) as [st E].
    rewrite E in H. destruct H as [H|[]]. discriminate.
Qed.

(** C7, amended.  In a run over the N >= 1 PDF blobs of the container,
    every blob is processed once, in listing order; a blob whose processing
    raises is recorded with status "failed" and the error [str(e)], a blob
    whose processing returns is recorded with status "success" and its page
    and rule counts, and the run goes on either way.  The summary covers
    all N entries: [total_files] is N, [successful] and [failed] count the
    blobs whose processing returned and raised, and they add up to N. *)
Theorem batch_failures_are_isolated (all_blobs : list Batch.Blob) :
  list_blobs (Batch.pdf_container self) = inr all_blobs ->
  filter Batch.is_pdf all_blobs <> [] ->
  let pdf_blobs := filter Batch.is_pdf all_blobs in
  List.length (fst run) = List.length pdf_blobs
  /\ Forall2
       (fun blob r =>
          Batch.blob_name r = Batch.name blob
          /\ recorded (process (Batch.name blob)) r)
       pdf_blobs (fst run)
  /\ processed (snd run) = map Batch.name pdf_blobs
  /\ exists before blob summary stored,
       snd run = (before ++ [Batch.UploadSummary blob summary stored])%list
       /\ Batch.results summary = fst run
       /\ Batch.total_files summary = Z.of_nat (List.length pdf_blobs)
       /\ Batch.successful summary
          = Z.of_nat
              (List.length
                 (filter (fun b => returned (process (Batch.name b)))
                    pdf_blobs))
       /\ Batch.failed summary
          = Z.of_nat
              (List.length
                 (filter (fun b => negb (returned (process (Batch.name b))))
                    pdf_blobs))
       /\ (Batch.successful summary + Batch.failed summary
           = Batch.total_files summary)%Z.
Proof.
  intros L N pdf_blobs. rewrite (run_eq all_blobs L N). fold pdf_blobs.
  cbn [fst snd]. split; [apply length_map|]. split; [|split].
  - induction pdf_blobs as [|b rest IH]; constructor; auto.
    apply outcome_recorded.
  - destruct (upload_summary_event (map outcome pdf_blobs)) as [st ->].
    unfold processed. rewrite flat_map_app. cbn [flat_map app].
    rewrite app_nil_r. apply paced_processed.
  - destruct (upload_summary_event (map outcome pdf_blobs)) as [st ->].
    do 4 eexists. split; [reflexivity|]. cbn.
    rewrite !outcome_status, length_map.
    rewrite (filter_ext _ _ outcome_success).
    rewrite (filter_ext _ _ outcome_failed).
    repeat split.
    clear. induction pdf_blobs as [|b rest IH]; [reflexivity|].
    cbn [filter]. destruct (returned (process (Batch.name b)));
      cbn [negb List.length]; lia.
Qed.

(** C9, amended.  The trace of a run over the PDF blobs of the container is
    the blobs in turn with a pause of 3 seconds between two consecutive
    ones, followed by what the summary upload adds: N - 1 pauses for N
    blobs, none after the last blob and none for a single blob, and every
    pause lasts 3 seconds. *)
Theorem pacing_between_documents (all_blobs : list Batch.Blob) :
  list_blobs (Batch.pdf_container self) = inr all_blobs ->
  let pdf_blobs := filter Batch.is_pdf all_blobs in
  (exists rest,
     snd run = (paced 3 (map Batch.name pdf_blobs) ++ rest)%list
     /\ filter is_sleep rest = [])
  /\ filter is_sleep (snd run)
     = repeat (Batch.Sleep 3) (List.length pdf_blobs - 1)
  /\ (List.length pdf_blobs = 1 -> filter is_sleep (snd run) = [])
  /\ (forall d, In (Batch.Sleep d) (snd run) -> d = 3%Z).
Proof.
  intros L pdf_blobs.
  assert (exists rest,
            snd run = (paced 3 (map Batch.name pdf_blobs) ++ rest)%list
            /\ filter is_sleep rest = []) as (rest & E & S).
  { destruct pdf_blobs as [|b bs] eqn:F.
    - exists []. unfold Batch.process_all_pdfs_from_blob. rewrite L.
      fold pdf_blobs. now rewrite F.
    - assert (filter Batch.is_pdf all_blobs <> []) as N
        by (fold pdf_blobs; now rewrite F).
      rewrite (run_eq all_blobs L N). fold pdf_blobs. rewrite F.
      destruct (upload_summary_event (map outcome (b :: bs))) as [st ->].
      eexists. split; reflexivity. }
  assert (filter is_sleep (snd run)
          = repeat (Batch.Sleep 3) (List.length pdf_blobs - 1)) as C.
  { rewrite E, filter_app, S, app_nil_r, paced_sleeps.
    now rewrite length_map. }
  split; [eauto|]. split; [exact C|]. split.
  - intros One. now rewrite C, One.
  - exact run_sleep_value.
Qed.

End BatchRun.

(** At a text where the phrase starts at index 17: the window reaches to
    both ends of the text and loses the outer blanks. *)
Lemma context_window_extraction_witness :
  exists w,
    window "  Claims notice: Timely Filing is 90 days.  "
      (Z.max 0 (17 - 200))
      (Z.min (len "  Claims notice: Timely Filing is 90 days.  ")
         (17 + len "timely filing" + 200)) w
    /\ trimmed w
         (_extract_surrounding_text
            "  Claims notice: Timely Filing is 90 days.  "
            "timely filing" 200)
    /\ _extract_surrounding_text
         "  Claims notice: Timely Filing is 90 days.  " "timely filing" 200
       = strip w.
Proof.
  apply (proj1 (context_window_extraction
                  "  Claims notice: Timely Filing is 90 days.  "
                  "timely filing") 17%Z).
  change 17%Z
    with (find (lower "  Claims notice: Timely Filing is 90 days.  ")
            (lower "timely filing")).
  apply ci_occurs_at_find. vm_compute. discriminate.
Defined.

Example context_window_sample :
  _extract_surrounding_text
    "  Claims notice: Timely Filing is 90 days.  " "timely filing" 200
  = "Claims notice: Timely Filing is 90 days."
  /\ _extract_surrounding_text "No deadline is named here." "timely filing"
       200 = "".
Proof. split; vm_compute; reflexivity. Qed.

(** Windows of long texts: 200 characters are kept on either side of a
    phrase in the middle; the window starts at index 0 for a phrase at the
    start of the text and ends with the text for a phrase at its end. *)
Example context_window_clipped :
  _extract_surrounding_text
    (Samples.replicate 300 "a" ++ " Timely Filing "
     ++ Samples.replicate 300 "b") "timely filing" 200
  = Samples.replicate 199 "a" ++ " Timely Filing "
    ++ Samples.replicate 199 "b"
  /\ _extract_surrounding_text
       ("Timely filing" ++ Samples.replicate 300 " x") "timely filing" 200
     = "Timely filing" ++ Samples.replicate 100 " x"
  /\ _extract_surrounding_text
       (Samples.replicate 300 "x " ++ "Filing Deadline") "filing deadline"
       200
     = Samples.replicate 100 "x " ++ "Filing Deadline".
Proof. repeat split; vm_compute; reflexivity. Qed.

(** The sample batch: three PDFs, the OCR service failing on the second. *)
Example sample_batch_run :
  map (fun r => (Batch.blob_name r, Batch.status r, Batch.error r,
                 Batch.json_blob r))
    (fst (Samples.sample_run Samples.sample_blobs "OCR service unavailable"))
  = [ ("one.pdf", "success", None, Some "one_ocr.json");
      ("two.pdf", "failed", Some "OCR service unavailable", None);
      ("THREE.PDF", "success", None, Some "THREE_ocr.json") ]
  /\ map (fun e => match e with
                   | Batch.Process blob => ("process", blob)
                   | Batch.Sleep _ => ("sleep", "")
                   | Batch.UploadSummary blob _ _ => ("summary", blob)
                   end)
       (snd (Samples.sample_run Samples.sample_blobs
               "OCR service unavailable"))
     = [ ("process", "one.pdf"); ("sleep", ""); ("process", "two.pdf");
         ("sleep", ""); ("process", "THREE.PDF");
         ("summary", "_batch_summary_20240501_100000.json") ].
Proof. split; vm_compute; reflexivity. Qed.

(** C7 on the sample batch: three files, two successful, one failed. *)
Lemma batch_failures_are_isolated_witness :
  exists before blob summary stored,
    snd (Samples.sample_run Samples.sample_blobs "OCR service unavailable")
    = (before ++ [Batch.UploadSummary blob summary stored])%list
    /\ Batch.total_files summary = 3%Z
    /\ Batch.successful summary = 2%Z
    /\ Batch.failed summary = 1%Z.
Proof.
  destruct
    (batch_failures_are_isolated Samples.sample_processor
       (fun _ => ok Samples.sample_blobs) "policies" Samples.sample_sas
       (Samples.sample_analyze "OCR service unavailable")
       Samples.sample_upload Samples.sample_stem
       "2024-05-01T10:00:00" "20240501_100000" Samples.sample_blobs
       eq_refl ltac:(discriminate))
    as (_ & _ & _ & before & blob & summary & stored & T & _ & F & S & D & _).
  exists before, blob, summary, stored.
  split; [exact T|]. split; [exact F|]. split; [exact S | exact D].
Defined.

(** C7 as stated does not hold in two places: an exception whose string
    form is empty (a bare [MemoryError()], say) is recorded with an empty
    error description, and a run that finds no PDF returns without building
    a summary. *)
Lemma failed_entry_with_empty_description :
  (exists r,
     fst (Samples.sample_run [Batch.mkBlob "two.pdf" 2000] "") = [r]
     /\ Batch.status r = "failed"
     /\ Batch.error r = Some "")
  /\ Samples.sample_run [Batch.mkBlob "notes.txt" 10] "" = ([], []).
Proof.
  split; [|reflexivity]. eexists. split; [reflexivity|]. split; reflexivity.
Qed.

(** C9 on the sample batch: two pauses for three documents. *)
Lemma pacing_between_documents_witness :
  filter is_sleep
    (snd (Samples.sample_run Samples.sample_blobs "OCR service unavailable"))
  = [Batch.Sleep 3; Batch.Sleep 3]
  /\ filter is_sleep
       (snd (Samples.sample_run [Batch.mkBlob "one.pdf" 1000] ""))
     = [].
Proof.
  split.
  - exact (proj1 (proj2
             (pacing_between_documents Samples.sample_processor
                (fun _ => ok Samples.sample_blobs) "policies" Samples.sample_sas
                (Samples.sample_analyze "OCR service unavailable")
                Samples.sample_upload Samples.sample_stem
                "2024-05-01T10:00:00" "20240501_100000"
                Samples.sample_blobs eq_refl))).
  - exact (proj1 (proj2 (proj2
             (pacing_between_documents Samples.sample_processor
                (fun _ => ok [Batch.mkBlob "one.pdf" 1000])
                "policies" Samples.sample_sas (Samples.sample_analyze "")
                Samples.sample_upload Samples.sample_stem
                "2024-05-01T10:00:00" "20240501_100000"
                [Batch.mkBlob "one.pdf" 1000] eq_refl))) eq_refl).
Defined.

(** C9 as stated does not hold on "configurable": no processor settings and
    no collaborators make a run pause for anything but 3 seconds. *)
Lemma pacing_delay_is_not_configurable :
  ~ exists self list_blobs account_name generate_blob_sas analyze_document
      upload_blob stem utcnow_isoformat utcnow_stamp d,
      d <> 3%Z
      /\ In (Batch.Sleep d)
           (snd (Batch.process_all_pdfs_from_blob self list_blobs
                   account_name generate_blob_sas analyze_document
                   upload_blob stem utcnow_isoformat utcnow_stamp)).
Proof.
  intros (self & lb & acc & sas & an & up & st & now & stamp & d & N & I).
  apply run_sleep_value in I. contradiction.
Qed.

(** * Further properties of the code *)

Import Props.

(** ** More on the string primitives *)

Lemma lower_char_idem (c : ascii) : lower_char (lower_char c) = lower_char c.
Proof. destruct c as [[] [] [] [] [] [] [] []]; reflexivity. Qed.

Lemma lower_idem (s : string) : lower (lower s) = lower s.
Proof.
  induction s as [|c s IH]; simpl; [reflexivity|].
  now rewrite lower_char_idem, IH.
Qed.

Lemma is_space_lower_char (c : ascii) : is_space (lower_char c) = is_space c.
Proof. destruct c as [[] [] [] [] [] [] [] []]; reflexivity. Qed.

(** Two splittings of one string: the shorter head is a head of the
    longer. *)
Lemma app_split_le (x1 y1 x2 y2 : string) :
  x1 ++ y1 = x2 ++ y2 -> String.length x1 <= String.length x2 ->
  exists d, x2 = x1 ++ d /\ y1 = d ++ y2.
Proof.
  revert x2. induction x1 as [|c x1 IH]; intros x2 E L.
  - exists x2. auto.
  - destruct x2 as [|d x2]; simpl in L; [lia|].
    simpl in E. injection E as -> E.
    destruct (IH x2 E) as (m & -> & ->); [lia|]. now exists m.
Qed.

Lemma substring_head (m : nat) (s : string) :
  exists suf, s = substring 0 m s ++ suf.
Proof.
  revert m. induction s as [|c s IH]; intros m.
  - destruct m; now exists "".
  - destruct m as [|m]; simpl; [now eexists|].
    destruct (IH m) as [t E]. exists t. now rewrite <- E.
Qed.

Lemma occurs_substring (n m : nat) (s : string) : occurs (substring n m s) s.
Proof.
  revert n. induction s as [|c s IH]; intros n.
  - destruct n, m; now exists "", "".
  - destruct n as [|n].
    + destruct (substring_head m (String c s)) as [suf E]. now exists "", suf.
    + simpl. destruct (IH n) as (pre & suf & E).
      exists (String c pre), suf. simpl. now rewrite <- E.
Qed.

Lemma occurs_slice (s : string) (lo hi : Z) : occurs (slice s lo hi) s.
Proof. apply occurs_substring. Qed.

Lemma occurs_trans (a b c : string) : occurs a b -> occurs b c -> occurs a c.
Proof.
  intros (p1 & s1 & ->) (p2 & s2 & ->). exists (p2 ++ p1), (s1 ++ s2).
  now rewrite !app_assoc_str.
Qed.

Lemma occurs_strip (w : string) : occurs (strip w) w.
Proof. destruct (strip_trimmed w) as (l & r & E & _). now exists l, r. Qed.

Lemma occurs_len (a b : string) : occurs a b -> (len a <= len b)%Z.
Proof.
  intros (p & s & ->). rewrite !len_app.
  pose proof (len_nonneg p). pose proof (len_nonneg s). lia.
Qed.

(** Stripping does not reach into a stretch that starts and ends with a
    character that is not whitespace. *)
Lemma lstrip_keeps (a mid b : string) :
  mid <> "" -> no_leading_space mid ->
  exists a', lstrip (a ++ mid ++ b) = a' ++ mid ++ b.
Proof.
  intros NE NL. induction a as [|x a IH].
  - exists "". destruct mid as [|c m]; [contradiction|].
    simpl. now rewrite (NL c m eq_refl).
  - simpl. destruct (is_space x); [exact IH|]. now exists (String x a).
Qed.

Lemma rstrip_cons (c : ascii) (s : string) :
  rstrip (String c s)
  = match rstrip s with
    | EmptyString => if is_space c then EmptyString else String c EmptyString
    | r => String c r
    end.
Proof. reflexivity. Qed.

Lemma rstrip_keeps_tail (mid b : string) :
  mid <> "" -> no_trailing_space mid ->
  exists b', rstrip (mid ++ b) = mid ++ b'.
Proof.
  induction mid as [|c m IH]; intros NE NT; [contradiction|].
  destruct m as [|d m].
  - simpl. destruct (rstrip b) as [|e r].
    + rewrite (NT "" c eq_refl). now exists "".
    + now exists (String e r).
  - destruct IH as [b' E]; [discriminate| |].
    + intros front e F. apply (NT (String c front) e). simpl. now rewrite F.
    + exists b'. simpl append in *. rewrite rstrip_cons, E. reflexivity.
Qed.

Lemma rstrip_keeps (a mid b : string) :
  mid <> "" -> no_trailing_space mid ->
  exists b', rstrip (a ++ mid ++ b) = a ++ mid ++ b'.
Proof.
  intros NE NT. induction a as [|x a [b' IH]].
  - simpl. now apply rstrip_keeps_tail.
  - exists b'. simpl append. rewrite rstrip_cons, IH.
    destruct a; [destruct mid; [contradiction|]|]; reflexivity.
Qed.

Lemma strip_keeps (a mid b : string) :
  mid <> "" -> no_leading_space mid -> no_trailing_space mid ->
  exists a' b', strip (a ++ mid ++ b) = a' ++ mid ++ b'.
Proof.
  intros NE NL NT. unfold strip.
  destruct (lstrip_keeps a mid b NE NL) as [a' ->].
  destruct (rstrip_keeps a' mid b NE NT) as [b' ->]. now exists a', b'.
Qed.

(** A string that [strip] leaves alone has no outer whitespace. *)
Lemma strip_fixed_inv (s : string) :
  strip s = s -> no_leading_space s /\ no_trailing_space s.
Proof.
  intros E. destruct (strip_trimmed s) as (l & r & _ & _ & _ & NL & NT).
  rewrite E in NL, NT. auto.
Qed.

(** Outer whitespace is the same up to case. *)
Lemma no_leading_space_ci (p mid : string) :
  lower mid = lower p -> no_leading_space p -> no_leading_space mid.
Proof.
  intros L N c rest ->. destruct p as [|d p]; [discriminate|].
  simpl in L. injection L as Lc _.
  rewrite <- is_space_lower_char, Lc, is_space_lower_char.
  exact (N d p eq_refl).
Qed.

Lemma no_trailing_space_ci (p mid : string) :
  lower mid = lower p -> no_trailing_space p -> no_trailing_space mid.
Proof.
  intros L N front c ->. rewrite lower_app in L. symmetry in L.
  apply lower_app_inv in L as (a & b & -> & _ & Lb).
  destruct b as [|d [|e b]]; try discriminate.
  simpl in Lb. injection Lb as Lc.
  rewrite <- is_space_lower_char, <- Lc, is_space_lower_char.
  exact (N a d eq_refl).
Qed.

(** ** More on the context window *)

Lemma surrounding_text_none (text pattern : string) (c : Z) :
  find (lower text) (lower pattern) = (-1)%Z ->
  _extract_surrounding_text text pattern c = "".
Proof. intros E. unfold _extract_surrounding_text. now rewrite E. Qed.

Lemma surrounding_text_found (text pattern : string) (c : Z) :
  find (lower text) (lower pattern) <> (-1)%Z ->
  _extract_surrounding_text text pattern c
  = strip
      (slice text
         (Z.max 0 (find (lower text) (lower pattern) - c))
         (Z.min (len text)
            (find (lower text) (lower pattern) + len pattern + c))).
Proof.
  intros E. unfold _extract_surrounding_text.
  apply Z.eqb_neq in E. now rewrite E.
Qed.

Lemma trimmed_len (w s : string) : trimmed w s -> (len s <= len w)%Z.
Proof.
  intros (l & r & -> & _). rewrite !len_app.
  pose proof (len_nonneg l). pose proof (len_nonneg r). lia.
Qed.

(** X1. The context window is never longer than the phrase plus the context
    width on either side. *)
Theorem surrounding_text_length (text pattern : string) (context_chars : Z) :
  (0 <= context_chars)%Z ->
  (len (_extract_surrounding_text text pattern context_chars)
   <= len pattern + 2 * context_chars)%Z.
Proof.
  intros Hc.
  destruct (Z.eq_dec (find (lower text) (lower pattern)) (-1)) as [E|E].
  - rewrite surrounding_text_none by exact E.
    pose proof (len_nonneg pattern). change (len "") with 0%Z. lia.
  - destruct (surrounding_text_window text pattern context_chars _ Hc
                (ci_occurs_at_find _ _ E))
      as (w & (pre & suf & _ & Lp & Lw) & T).
    apply trimmed_len in T. pose proof (len_nonneg pre). lia.
Qed.

Lemma surrounding_text_length_witness :
  (len (_extract_surrounding_text
          (Samples.replicate 300 "a" ++ " Timely Filing "
           ++ Samples.replicate 300 "b") "timely filing" 200)
   <= len "timely filing" + 2 * 200)%Z.
Proof. apply surrounding_text_length. lia. Defined.

Lemma surrounding_text_occurs (text pattern : string) (context_chars : Z) :
  occurs (_extract_surrounding_text text pattern context_chars) text.
Proof.
  destruct (Z.eq_dec (find (lower text) (lower pattern)) (-1)) as [E|E].
  - rewrite surrounding_text_none by exact E. exists "", text. reflexivity.
  - rewrite surrounding_text_found by exact E.
    eapply occurs_trans; [apply occurs_strip | apply occurs_slice].
Qed.

(** X2. For every context width, the context window is a stretch of the
    original text, in its original case, without leading or trailing
    whitespace. *)
Theorem surrounding_text_is_excerpt
  (text pattern : string) (context_chars : Z) :
  occurs (_extract_surrounding_text text pattern context_chars) text
  /\ no_leading_space (_extract_surrounding_text text pattern context_chars)
  /\ no_trailing_space (_extract_surrounding_text text pattern context_chars)
  /\ (len (_extract_surrounding_text text pattern context_chars)
      <= len text)%Z.
Proof.
  assert (occurs (_extract_surrounding_text text pattern context_chars) text
          /\ no_leading_space
               (_extract_surrounding_text text pattern context_chars)
          /\ no_trailing_space
               (_extract_surrounding_text text pattern context_chars))
    as (O & L & T).
  { destruct (Z.eq_dec (find (lower text) (lower pattern)) (-1)) as [E|E].
    - rewrite surrounding_text_none by exact E. split; [|split].
      + exists "", text. reflexivity.
      + intros c rest H. discriminate.
      + intros [|d front] c H; discriminate.
    - rewrite surrounding_text_found by exact E. split; [|split].
      + eapply occurs_trans; [apply occurs_strip | apply occurs_slice].
      + destruct (strip_trimmed
                    (slice text
                       (Z.max 0
                          (find (lower text) (lower pattern) - context_chars))
                       (Z.min (len text)
                          (find (lower text) (lower pattern) + len pattern
                           + context_chars))))
          as (l & r & _ & _ & _ & NL & _). exact NL.
      + destruct (strip_trimmed
                    (slice text
                       (Z.max 0
                          (find (lower text) (lower pattern) - context_chars))
                       (Z.min (len text)
                          (find (lower text) (lower pattern) + len pattern
                           + context_chars))))
          as (l & r & _ & _ & _ & _ & NT). exact NT. }
  repeat split; auto. now apply occurs_len.
Qed.

(** A window around the first occurrence holds that occurrence. *)
Lemma window_holds_match (text pre mid suf w : string) (lo hi : Z) :
  text = pre ++ mid ++ suf ->
  window text lo hi w ->
  (lo <= len pre)%Z -> (len pre + len mid <= hi)%Z ->
  exists a b, w = a ++ mid ++ b.
Proof.
  intros -> (p1 & s1 & E & L1 & L2) B1 B2. unfold len in *.
  symmetry in E. apply app_split_le in E as (a & -> & E); [|lia].
  rewrite <- app_assoc_str in E. symmetry in E.
  apply app_split_le in E as (b & -> & _).
  - exists a, b. now rewrite app_assoc_str.
  - rewrite !length_app in *. lia.
Qed.

Lemma window_keeps_phrase (text pattern : string) (context_chars : Z) :
  (0 <= context_chars)%Z ->
  pattern <> "" -> strip pattern = pattern ->
  mentions pattern text ->
  mentions pattern (_extract_surrounding_text text pattern context_chars)
  /\ _extract_surrounding_text text pattern context_chars <> "".
Proof.
  intros Hc NE SP [j M].
  assert (find (lower text) (lower pattern) <> (-1)%Z) as E
    by (intros E; exact (ci_occurs_at_none _ _ E j M)).
  pose proof (ci_occurs_at_find _ _ E) as F.
  destruct (surrounding_text_window text pattern context_chars _ Hc F)
    as (w & W & T).
  destruct F as [(pre & mid & suf & Et & Lp & Lm) _].
  assert (len mid = len pattern) as Lmid
    by (rewrite <- (lower_len mid), Lm; apply lower_len).
  assert (len pre + len mid <= len text)%Z as B
    by (rewrite Et, !len_app; pose proof (len_nonneg suf); lia).
  pose proof (len_nonneg pre).
  destruct (window_holds_match _ _ _ _ _ _ _ Et W) as (a & b & ->);
    [lia | lia |].
  apply strip_fixed_inv in SP as [NL NT].
  assert (mid <> "") as NEm.
  { intros ->. destruct pattern; [contradiction | discriminate]. }
  destruct (strip_keeps a mid b NEm (no_leading_space_ci _ _ Lm NL)
              (no_trailing_space_ci _ _ Lm NT)) as (a' & b' & K).
  rewrite (trimmed_strip _ _ T), K. split.
  - exists (len a'), a', mid, b'. auto.
  - destruct a'; [destruct mid; [contradiction|]|]; discriminate.
Qed.

(** ** More on the extraction engine *)

Lemma rule_tags_eq (text : string) :
  map tag (_extract_healthcare_rules text)
  = filter (hit (lower text)) phrase_table.
Proof.
  rewrite rules_eq, map_map.
  rewrite map_ext with (g := fun cp => cp); [apply map_id|].
  now intros [c p].
Qed.

(** Every trigger phrase is lower-case, not empty and without outer
    whitespace. *)
Lemma trigger_phrases_plain (cp : string * string) :
  In cp phrase_table ->
  lower (snd cp) = snd cp /\ strip (snd cp) = snd cp /\ snd cp <> "".
Proof.
  rewrite phrase_table_eq. simpl.
  intros H.
  repeat (destruct H as [<-|H];
          [simpl; repeat split; try reflexivity; discriminate|]).
  contradiction.
Qed.

Lemma rule_text_keeps_phrase (text : string) (r : DetectedRule) :
  In r (_extract_healthcare_rules text) ->
  mentions (pattern_matched r) (rule_text r)
  /\ rule_text r <> ""
  /\ occurs (rule_text r) text.
Proof.
  rewrite rules_eq. intros H. apply in_map_iff in H as (cp & <- & I).
  apply filter_In in I as [I Hit].
  destruct (trigger_phrases_plain cp I) as (L & S & NE). simpl.
  assert (mentions (snd cp) text) as M
    by (apply (reflect_iff _ _ (mentions_reflect _ _ L)); exact Hit).
  destruct (window_keeps_phrase text (snd cp) default_context_chars)
    as [A B]; auto; [unfold default_context_chars; lia|].
  repeat split; auto. apply surrounding_text_occurs.
Qed.

Lemma nodup_filter_snd (f : string * string -> bool)
  (table : list (string * string)) :
  NoDup (map snd table) -> NoDup (map snd (filter f table)).
Proof.
  induction table as [|cp rest IH]; simpl; intros N; [constructor|].
  inversion N as [|? ? Hn Hr]; subst.
  destruct (f cp); simpl; [|auto]. constructor; [|auto].
  intros I. apply Hn. apply in_map_iff in I as (x & E & I).
  apply filter_In in I as [I _]. apply in_map_iff. eauto.
Qed.

(** X5. However the text reads, at most 14 rules are detected and no two of
    them carry the same phrase; each rule's category is the one the table
    gives for its phrase. *)
Theorem detected_rules_bounded (text : string) :
  List.length (_extract_healthcare_rules text) <= 14
  /\ NoDup (map pattern_matched (_extract_healthcare_rules text))
  /\ (forall r1 r2,
        In r1 (_extract_healthcare_rules text) ->
        In r2 (_extract_healthcare_rules text) ->
        pattern_matched r1 = pattern_matched r2 -> r1 = r2).
Proof.
  assert (map pattern_matched (_extract_healthcare_rules text)
          = map snd (filter (hit (lower text)) phrase_table)) as P.
  { rewrite <- rule_tags_eq, map_map. reflexivity. }
  assert (NoDup (map pattern_matched (_extract_healthcare_rules text))) as N
    by (rewrite P; apply nodup_filter_snd, trigger_phrases_nodup).
  split; [|split].
  - rewrite <- (length_map pattern_matched), P, length_map.
    apply (filter_length_le (hit (lower text)) phrase_table).
  - exact N.
  - intros r1 r2 I1 I2 E.
    destruct (In_nth_error _ _ I1) as [i1 E1].
    destruct (In_nth_error _ _ I2) as [i2 E2].
    assert (i1 = i2) as ->.
    { apply (proj1 (NoDup_nth_error _) N).
      - rewrite length_map. apply nth_error_Some. congruence.
      - rewrite !nth_error_map, E1, E2. simpl. now rewrite E. }
    congruence.
Qed.

(** X6. The extraction ignores letter case: two texts that are equal up to
    case get the same payer, the same document type and the same rule
    categories and phrases; so does a text and its lower-cased form. *)
Theorem extraction_ignores_case :
  (forall text1 text2,
     lower text1 = lower text2 ->
     _extract_payer_name text1 = _extract_payer_name text2
     /\ _classify_document_type text1 = _classify_document_type text2
     /\ map tag (_extract_healthcare_rules text1)
        = map tag (_extract_healthcare_rules text2))
  /\ (forall text,
        _extract_payer_name (lower text) = _extract_payer_name text
        /\ _classify_document_type (lower text)
           = _classify_document_type text
        /\ map tag (_extract_healthcare_rules (lower text))
           = map tag (_extract_healthcare_rules text)).
Proof.
  assert (forall text1 text2,
            lower text1 = lower text2 ->
            _extract_payer_name text1 = _extract_payer_name text2
            /\ _classify_document_type text1 = _classify_document_type text2
            /\ map tag (_extract_healthcare_rules text1)
               = map tag (_extract_healthcare_rules text2)) as G.
  { intros t1 t2 E. split; [|split].
    - unfold _extract_payer_name. now rewrite E.
    - unfold _classify_document_type. now rewrite E.
    - now rewrite !rule_tags_eq, E. }
  split; [exact G|]. intros text. apply G, lower_idem.
Qed.

Lemma extraction_ignores_case_witness :
  _extract_payer_name "COVERED BY CIGNA; APPEAL WITHIN 30 DAYS"
  = _extract_payer_name "Covered by Cigna; appeal within 30 days"
  /\ _classify_document_type "COVERED BY CIGNA; APPEAL WITHIN 30 DAYS"
     = _classify_document_type "Covered by Cigna; appeal within 30 days"
  /\ map tag
       (_extract_healthcare_rules "COVERED BY CIGNA; APPEAL WITHIN 30 DAYS")
     = map tag
         (_extract_healthcare_rules "Covered by Cigna; appeal within 30 days").
Proof. apply (proj1 extraction_ignores_case). reflexivity. Defined.

(** X7. The payer, when one is detected, is one of the 14 title-cased names
    of the list, and the document type is always one of the seven
    categories. *)
Theorem extraction_results_enumerated (text : string) :
  (forall payer,
     _extract_payer_name text = Some payer ->
     In payer (map title payer_keywords))
  /\ In (_classify_document_type text) document_types.
Proof.
  split.
  - intros payer H. apply payer_loop_some in H as (b & v & a & E & _ & _ & ->).
    apply in_map. rewrite E. apply in_or_app. right. now left.
  - unfold _classify_document_type, document_types.
    repeat match goal with
      | |- context [contains ?k ?t] => destruct (contains k t)
      end; simpl; auto 10.
Qed.

Lemma extraction_results_enumerated_witness :
  In "Uhc" (map title payer_keywords).
Proof.
  apply (proj1 (extraction_results_enumerated
                  "Member is covered under UHC and also Aetna network")).
  vm_compute. reflexivity.
Defined.

(** ** More on the adapter and the assembly *)

Lemma enumerate_table_ids (idx : Z) (xs : list pyval)
  (ys : list TableRecord) :
  for_each_enumerate convert_table idx xs = inr ys ->
  forall k t,
    nth_error ys k = Some t -> table_id t = (idx + Z.of_nat k + 1)%Z.
Proof.
  revert idx ys. induction xs as [|x xs IH]; intros idx ys H k t N;
    simpl in H.
  - injection H as <-. destruct k; discriminate.
  - inv_bind H. inv_bind H. injection H as <-. destruct k as [|k].
    + simpl in N. injection N as <-. unfold convert_table in E.
      do 5 inv_bind E. injection E as <-. simpl. lia.
    + simpl in N. rewrite (IH _ _ E0 k t N). lia.
Qed.

Lemma for_each_length {A B : Type} (body : A -> result B)
  (xs : list A) (ys : list B) :
  for_each body xs = inr ys -> List.length ys = List.length xs.
Proof.
  intros H. apply for_each_Forall2 in H. symmetry.
  eapply Forall2_length; eauto.
Qed.

Lemma sequence_adapted_length {B : Type} (R : pyval -> B -> Prop)
  (items : list pyval) (out : list B) :
  sequence_adapted R (VList items) out ->
  List.length out = List.length items.
Proof.
  intros [_ H]. symmetry. eapply Forall2_length. now apply H.
Qed.

(** X8. In every assembled document the tables are numbered 1, 2, 3, ... in
    their order of appearance, whatever the layout result says. *)
Theorem table_ids_count_from_one (raw : pyval) (blob now : string)
  (doc : ExtractionDocument) :
  _convert_to_healthcare_json raw blob now = inr doc ->
  forall k t,
    nth_error (tables doc) k = Some t -> table_id t = (Z.of_nat k + 1)%Z.
Proof.
  unfold _convert_to_healthcare_json. intros H. do 9 inv_bind H.
  injection H as <-. simpl. intros k t N.
  destruct (truthy a6).
  - inv_bind E7. now apply (enumerate_table_ids 0 _ _ E7 k t).
  - injection E7 as <-. destruct k; discriminate.
Qed.

Lemma table_ids_count_from_one_witness :
  exists doc,
    _convert_to_healthcare_json Samples.sample_layout "a.pdf" "t" = inr doc
    /\ forall k t,
         nth_error (tables doc) k = Some t ->
         table_id t = (Z.of_nat k + 1)%Z.
Proof.
  destruct (convert_document_total Samples.sample_layout "a.pdf" "t"
              eq_refl) as [doc H].
  exists doc. split; [exact H|].
  exact (table_ids_count_from_one Samples.sample_layout "a.pdf" "t" doc H).
Defined.

(** X9. In every assembled document [page_count] is the number of page
    entries, and a list of pages, paragraphs or tables is carried over
    entry for entry. *)
Theorem page_count_is_number_of_pages (raw : pyval) (blob now : string)
  (doc : ExtractionDocument) :
  _convert_to_healthcare_json raw blob now = inr doc ->
  page_count doc = Z.of_nat (List.length (Adapter.pages doc))
  /\ (0 <= page_count doc)%Z
  /\ (forall items,
        lookup_attr raw "pages" = Some (VList items) ->
        List.length (Adapter.pages doc) = List.length items)
  /\ (forall items,
        lookup_attr raw "paragraphs" = Some (VList items) ->
        List.length (paragraphs doc) = List.length items)
  /\ (forall items,
        lookup_attr raw "tables" = Some (VList items) ->
        List.length (tables doc) = List.length items).
Proof.
  intros H.
  assert (page_count doc = Z.of_nat (List.length (Adapter.pages doc))) as C.
  { unfold _convert_to_healthcare_json in H. do 9 inv_bind H.
    injection H as <-. simpl. clear - E0 E3.
    destruct a as [|n|x|s|items|attrs]; simpl in *.
    - injection E0 as <-. now injection E3 as <-.
    - destruct (negb (n =? 0)%Z); [discriminate|].
      injection E0 as <-. now injection E3 as <-.
    - destruct (negb (Qeq_bool x 0)); [discriminate|].
      injection E0 as <-. now injection E3 as <-.
    - destruct s as [|c s]; simpl in *.
      + injection E0 as <-. now injection E3 as <-.
      + discriminate.
    - destruct items as [|p items].
      + injection E0 as <-. now injection E3 as <-.
      + injection E0 as <-.
        change (for_each convert_page (p :: items) = inr a3) in E3.
        apply for_each_length in E3. now rewrite E3.
    - discriminate. }
  split; [exact C|]. split; [lia|].
  destruct (convert_document_adapted _ _ _ _ H)
    as (rp & rq & rt & Lp & Lq & Lt & Sp & Sq & St).
  repeat split; intros items L.
  - rewrite Lp in L. injection L as ->.
    now apply (sequence_adapted_length page_adapted).
  - rewrite Lq in L. injection L as ->.
    now apply (sequence_adapted_length paragraph_adapted).
  - rewrite Lt in L. injection L as ->.
    now apply (sequence_adapted_length table_adapted).
Qed.

Lemma page_count_is_number_of_pages_witness :
  exists doc,
    _convert_to_healthcare_json Samples.sample_layout "a.pdf" "t" = inr doc
    /\ page_count doc = Z.of_nat (List.length (Adapter.pages doc)).
Proof.
  destruct (convert_document_total Samples.sample_layout "a.pdf" "t"
              eq_refl) as [doc H].
  exists doc. split; [exact H|].
  exact (proj1 (page_count_is_number_of_pages Samples.sample_layout "a.pdf"
                  "t" doc H)).
Defined.

(** X10. An assembled document carries the blob name and the time handed
    in and the text of the layout result unchanged, and its payer, document
    type and rules are the ones extracted from exactly that text. *)
Theorem metadata_follows_full_text (raw : pyval) (blob now : string)
  (doc : ExtractionDocument) :
  _convert_to_healthcare_json raw blob now = inr doc ->
  source_blob doc = blob
  /\ extraction_date doc = now
  /\ lookup_attr raw "content" = Some (VStr (full_text doc))
  /\ payer_name (healthcare_metadata doc)
     = _extract_payer_name (full_text doc)
  /\ document_type (healthcare_metadata doc)
     = _classify_document_type (full_text doc)
  /\ detected_rules (healthcare_metadata doc)
     = _extract_healthcare_rules (full_text doc).
Proof.
  unfold _convert_to_healthcare_json. intros H. do 9 inv_bind H.
  injection H as <-. simpl. repeat split.
  apply getattr_inr in E1. rewrite E1. f_equal.
  destruct a1; try discriminate.
  - simpl in E2. now injection E2 as ->.
  - simpl in E2. destruct (assoc "lower" attrs); discriminate.
Qed.

Lemma metadata_follows_full_text_witness :
  exists doc,
    _convert_to_healthcare_json Samples.sample_layout "a.pdf" "t" = inr doc
    /\ payer_name (healthcare_metadata doc)
       = _extract_payer_name (full_text doc).
Proof.
  destruct (convert_document_total Samples.sample_layout "a.pdf" "t"
              eq_refl) as [doc H].
  exists doc. split; [exact H|].
  exact (proj1 (proj2 (proj2 (proj2
           (metadata_follows_full_text Samples.sample_layout "a.pdf" "t"
              doc H))))).
Defined.

(** X11. Without a text there is no document: when the [content] of the
    layout result is missing or is not a string, the assembly raises. *)
Theorem no_text_no_document (raw : pyval) (blob now : string) :
  (forall s, lookup_attr raw "content" <> Some (VStr s)) ->
  exists e, _convert_to_healthcare_json raw blob now = inl e.
Proof.
  intros N. unfold _convert_to_healthcare_json.
  destruct (getattr raw "pages") as [e|v]; [now eexists|]. cbn [bind].
  destruct (if truthy v then py_len v else ok 0%Z) as [e|n];
    [now eexists|]. cbn [bind].
  unfold getattr. destruct (lookup_attr raw "content") as [c|] eqn:L;
    [|now eexists]. cbn [bind ok].
  destruct c; try (now eexists).
  - now elim (N s).
  - simpl. destruct (assoc "lower" attrs); now eexists.
Qed.

Lemma no_text_no_document_witness :
  exists e,
    _convert_to_healthcare_json
      (VObj [("content", VNone); ("pages", VNone); ("paragraphs", VNone);
             ("tables", VNone)]) "a.pdf" "t" = inl e.
Proof.
  apply no_text_no_document. intros s H. vm_compute in H. discriminate.
Defined.

(** ** More on the batch run *)

Lemma endswith_unfold (s suffix : string) :
  endswith s suffix
  = if String.eqb s suffix then true
    else match s with
         | EmptyString => false
         | String _ rest => endswith rest suffix
         end.
Proof. destruct s; reflexivity. Qed.

Lemma endswith_iff (s suffix : string) :
  endswith s suffix = true <-> exists front, s = front ++ suffix.
Proof.
  split.
  - induction s as [|c s IH]; rewrite endswith_unfold.
    + destruct (String.eqb_spec "" suffix) as [<-|N]; [|discriminate].
      now exists "".
    + destruct (String.eqb_spec (String c s) suffix) as [<-|N];
        [now exists ""|].
      intros H. destruct (IH H) as [front ->]. now exists (String c front).
  - intros [front ->]. induction front as [|c front IH];
      rewrite endswith_unfold.
    + simpl. now rewrite String.eqb_refl.
    + destruct (String.eqb _ suffix); [reflexivity | exact IH].
Qed.

Lemma rules_count_bounds (raw : pyval) (blob now : string)
  (doc : ExtractionDocument) :
  _convert_to_healthcare_json raw blob now = inr doc ->
  (0 <= page_count doc)%Z
  /\ (0 <= healthcare_rules_count doc <= 14)%Z.
Proof.
  intros H.
  assert (0 <= page_count doc)%Z as P.
  { unfold _convert_to_healthcare_json in H. do 9 inv_bind H.
    injection H as <-. simpl. clear - E0.
    destruct (truthy a); [|injection E0 as <-; lia].
    destruct a; simpl in E0; unfold raise, ok in E0; try discriminate;
      injection E0 as <-; unfold len; lia. }
  split; [exact P|].
  unfold _convert_to_healthcare_json in H. do 9 inv_bind H.
  injection H as <-. simpl.
  assert (List.length (_extract_healthcare_rules a2) <= 14) as B.
  { rewrite <- (length_map tag), rule_tags_eq.
    apply (filter_length_le (hit (lower a2)) phrase_table). }
  lia.
Qed.

Section BatchMore.

Variable self : Batch.Processor.
Variable list_blobs : string -> result (list Batch.Blob).
Variable account_name : string.
Variable generate_blob_sas : string -> string -> result string.
Variable analyze_document : string -> result pyval.
Variable upload_blob :
  string -> string -> Batch.json_data -> result Datatypes.unit.
Variable stem : string -> string.
Variable utcnow_isoformat : string.
Variable utcnow_stamp : string.

Abbreviation process :=
  (Batch.process_pdf_from_blob self account_name generate_blob_sas
     analyze_document upload_blob stem utcnow_isoformat).
Abbreviation outcome :=
  (Batch.outcome self account_name generate_blob_sas analyze_document
     upload_blob stem utcnow_isoformat).
Abbreviation run :=
  (Batch.process_all_pdfs_from_blob self list_blobs account_name
     generate_blob_sas analyze_document upload_blob stem utcnow_isoformat
     utcnow_stamp).

(** X12. Processing one PDF returns a document exactly when all four steps
    go through: the SAS token, the OCR analysis of the signed URL, the
    assembly, and the upload of that very document as [<stem>_ocr.json]
    into the JSON container.  So a document whose upload fails is not
    returned. *)
Theorem process_returns_iff_all_steps (blob : string)
  (doc : ExtractionDocument) :
  process blob = inr doc <->
  exists sas_token raw,
    generate_blob_sas (Batch.pdf_container self) blob = inr sas_token
    /\ analyze_document
         ("https://" ++ account_name ++ ".blob.core.windows.net/"
          ++ Batch.pdf_container self ++ "/" ++ blob ++ "?" ++ sas_token)
       = inr raw
    /\ _convert_to_healthcare_json raw blob utcnow_isoformat = inr doc
    /\ upload_blob (Batch.json_container self) (stem blob ++ "_ocr.json")
         (Batch.DocumentJson doc) = inr tt.
Proof.
  unfold Batch.process_pdf_from_blob, Batch.generate_blob_sas_url,
    Batch._upload_json_to_blob. split.
  - intros H. inv_bind H. inv_bind E. injection E as <-.
    do 3 inv_bind H. injection H as <-. destruct a2.
    exists a0, a. auto.
  - intros (token & raw & -> & A & C & U). cbn [bind ok]. cbv zeta.
    rewrite A. cbn [bind]. rewrite C. cbn [bind]. cbv zeta. rewrite U.
    reflexivity.
Qed.

(** X13. A run touches only the PDFs of the listing: the blobs it processes
    are exactly the listed blobs whose name ends in ".pdf" in any letter
    case.  When the listing itself raises, the run returns an empty list
    and does nothing. *)
Theorem run_processes_only_pdfs :
  (forall e,
     list_blobs (Batch.pdf_container self) = inl e -> run = ([], []))
  /\ (forall all_blobs,
        list_blobs (Batch.pdf_container self) = inr all_blobs ->
        forall b,
          In b (processed (snd run)) <->
          exists blob front,
            In blob all_blobs /\ Batch.name blob = b
            /\ lower b = front ++ ".pdf").
Proof.
  split.
  - intros e L. unfold Batch.process_all_pdfs_from_blob. now rewrite L.
  - intros all_blobs L b.
    assert (processed (snd run)
            = map Batch.name (filter Batch.is_pdf all_blobs)) as P.
    { destruct (filter Batch.is_pdf all_blobs) as [|x xs] eqn:F.
      - unfold Batch.process_all_pdfs_from_blob. now rewrite L, F.
      - assert (filter Batch.is_pdf all_blobs <> []) as N
          by (rewrite F; discriminate).
        rewrite (run_eq _ _ _ _ _ _ _ _ _ all_blobs L N). cbn [snd].
        destruct (upload_summary_event self upload_blob utcnow_isoformat
                    utcnow_stamp
                    (map outcome (filter Batch.is_pdf all_blobs)))
          as [st ->].
        unfold processed. rewrite flat_map_app. cbn [flat_map app].
        rewrite app_nil_r. fold (processed
          (paced 3 (map Batch.name (filter Batch.is_pdf all_blobs)))).
        rewrite paced_processed. now rewrite F. }
    rewrite P, in_map_iff. split.
    + intros (blob & <- & I). apply filter_In in I as [I PDF].
      apply endswith_iff in PDF as [front E]. now exists blob, front.
    + intros (blob & front & I & <- & E). exists blob. split; [reflexivity|].
      apply filter_In. split; [exact I|]. apply endswith_iff. now exists front.
Qed.

End BatchMore.

Lemma process_from_assembly
  (self : Batch.Processor) (account_name : string)
  (generate_blob_sas : string -> string -> result string)
  (analyze_document : string -> result pyval)
  (upload_blob : string -> string -> Batch.json_data -> result Datatypes.unit)
  (stem : string -> string) (now blob : string) (doc : ExtractionDocument) :
  Batch.process_pdf_from_blob self account_name generate_blob_sas
    analyze_document upload_blob stem now blob = inr doc ->
  exists raw, _convert_to_healthcare_json raw blob now = inr doc.
Proof.
  unfold Batch.process_pdf_from_blob. intros H. do 4 inv_bind H.
  injection H as <-. eauto.
Qed.

(** Totals over entries whose counts are in range. *)
Lemma totals_in_range (rs : list Batch.BatchResult) :
  Forall (fun r => (0 <= page_contribution r)%Z
                   /\ (0 <= rule_contribution r)%Z
                   /\ (rule_contribution r
                       <= if Batch.has_status "success" r then 14 else 0)%Z)
    rs ->
  (0 <= total_of page_contribution rs)%Z
  /\ (0 <= total_of rule_contribution rs)%Z
  /\ (total_of rule_contribution rs
      <= 14 * Z.of_nat (List.length (filter (Batch.has_status "success") rs)))
     %Z.
Proof.
  unfold total_of.
  induction 1 as [|r rs (P & R & B) _ (IP & IR & IB)];
    cbn [fold_right filter List.length]; [lia|].
  destruct (Batch.has_status "success" r); cbn [List.length]; lia.
Qed.

Section RunTotals.

Variable self : Batch.Processor.
Variable list_blobs : string -> result (list Batch.Blob).
Variable account_name : string.
Variable generate_blob_sas : string -> string -> result string.
Variable analyze_document : string -> result pyval.
Variable upload_blob :
  string -> string -> Batch.json_data -> result Datatypes.unit.
Variable stem : string -> string.
Variable utcnow_isoformat : string.
Variable utcnow_stamp : string.

Abbreviation process :=
  (Batch.process_pdf_from_blob self account_name generate_blob_sas
     analyze_document upload_blob stem utcnow_isoformat).
Abbreviation outcome :=
  (Batch.outcome self account_name generate_blob_sas analyze_document
     upload_blob stem utcnow_isoformat).
Abbreviation run :=
  (Batch.process_all_pdfs_from_blob self list_blobs account_name
     generate_blob_sas analyze_document upload_blob stem utcnow_isoformat
     utcnow_stamp).

Lemma outcome_contributions (blob : Batch.Blob) :
  page_contribution (outcome blob) = pages_of (process (Batch.name blob))
  /\ rule_contribution (outcome blob) = rules_of (process (Batch.name blob)).
Proof.
  unfold Batch.outcome, page_contribution, rule_contribution.
  destruct (process (Batch.name blob)); simpl; auto.
Qed.

Lemma outcome_in_range (blob : Batch.Blob) :
  (0 <= page_contribution (outcome blob))%Z
  /\ (0 <= rule_contribution (outcome blob))%Z
  /\ (rule_contribution (outcome blob)
      <= if Batch.has_status "success" (outcome blob) then 14 else 0)%Z.
Proof.
  destruct (outcome_contributions blob) as [-> ->].
  rewrite outcome_success.
  destruct (process (Batch.name blob)) as [e|doc] eqn:P; simpl; [lia|].
  apply process_from_assembly in P as [raw C].
  apply rules_count_bounds in C. lia.
Qed.

(** X14. The summary that a run uploads is named
    [_batch_summary_<stamp>.json]; its page and rule totals are the sums of
    the page counts and rule counts of the documents that were processed
    successfully, neither is negative, and the rule total is at most 14 per
    successful document. *)
Theorem run_summary_totals (all_blobs : list Batch.Blob) :
  list_blobs (Batch.pdf_container self) = inr all_blobs ->
  filter Batch.is_pdf all_blobs <> [] ->
  exists before summary stored,
    snd run
    = (before
       ++ [Batch.UploadSummary
             ("_batch_summary_" ++ utcnow_stamp ++ ".json") summary stored])
      %list
    /\ Batch.total_pages summary
       = fold_right
           (fun blob acc => (pages_of (process (Batch.name blob)) + acc)%Z)
           0%Z (filter Batch.is_pdf all_blobs)
    /\ Batch.total_rules summary
       = fold_right
           (fun blob acc => (rules_of (process (Batch.name blob)) + acc)%Z)
           0%Z (filter Batch.is_pdf all_blobs)
    /\ (0 <= Batch.total_pages summary)%Z
    /\ (0 <= Batch.total_rules summary <= 14 * Batch.successful summary)%Z.
Proof.
  intros L N. rewrite (run_eq _ _ _ _ _ _ _ _ _ all_blobs L N). cbn [snd].
  destruct (upload_summary_event self upload_blob utcnow_isoformat
              utcnow_stamp (map outcome (filter Batch.is_pdf all_blobs)))
    as [st ->].
  do 3 eexists. split; [reflexivity|].
  set (pdfs := filter Batch.is_pdf all_blobs). clearbody pdfs.
  assert (Batch.total_pages
            (Batch.batch_summary (map outcome pdfs) utcnow_isoformat)
          = total_of page_contribution (map outcome pdfs)) as TP
    by apply (sum_over_successful Batch.pages).
  assert (Batch.total_rules
            (Batch.batch_summary (map outcome pdfs) utcnow_isoformat)
          = total_of rule_contribution (map outcome pdfs)) as TR
    by apply (sum_over_successful Batch.rules_extracted).
  assert (Forall
            (fun r => (0 <= page_contribution r)%Z
                      /\ (0 <= rule_contribution r)%Z
                      /\ (rule_contribution r
                          <= if Batch.has_status "success" r
                             then 14 else 0)%Z) (map outcome pdfs)) as F.
  { apply Forall_forall. intros r I. apply in_map_iff in I as (b & <- & _).
    apply outcome_in_range. }
  apply totals_in_range in F as (F1 & F2 & F3).
  rewrite TP, TR. repeat split; try assumption.
  - clear. induction pdfs as [|b rest IH]; [reflexivity|]. simpl.
    destruct (outcome_contributions b) as [-> _]. now rewrite <- IH.
  - clear. induction pdfs as [|b rest IH]; [reflexivity|]. simpl.
    destruct (outcome_contributions b) as [_ ->]. now rewrite <- IH.
Qed.

End RunTotals.

Lemma process_upload_ext
  (self : Batch.Processor) (account_name : string)
  (generate_blob_sas : string -> string -> result string)
  (analyze_document : string -> result pyval)
  (upload1 upload2 :
     string -> string -> Batch.json_data -> result Datatypes.unit)
  (stem : string -> string) (now blob : string) :
  (forall c b d,
     upload1 c b (Batch.DocumentJson d) = upload2 c b (Batch.DocumentJson d)) ->
  Batch.process_pdf_from_blob self account_name generate_blob_sas
    analyze_document upload1 stem now blob
  = Batch.process_pdf_from_blob self account_name generate_blob_sas
      analyze_document upload2 stem now blob.
Proof.
  intros H. unfold Batch.process_pdf_from_blob, Batch._upload_json_to_blob.
  destruct (Batch.generate_blob_sas_url _ _ _ _) as [e|url]; [reflexivity|].
  cbn [bind]. destruct (analyze_document url) as [e|raw]; [reflexivity|].
  cbn [bind]. destruct (_convert_to_healthcare_json raw blob now) as [e|doc];
    [reflexivity|].
  cbn [bind]. cbv zeta. now rewrite H.
Qed.

(** X15. Whether the upload of the batch summary goes through or raises
    changes nothing else: two runs whose uploads agree on the documents
    return the same results and take the same steps, and upload the same
    summary. *)
Theorem summary_upload_failure_is_harmless
  (self : Batch.Processor)
  (list_blobs : string -> result (list Batch.Blob))
  (account_name : string)
  (generate_blob_sas : string -> string -> result string)
  (analyze_document : string -> result pyval)
  (upload1 upload2 :
     string -> string -> Batch.json_data -> result Datatypes.unit)
  (stem : string -> string) (now stamp : string) :
  (forall c b d,
     upload1 c b (Batch.DocumentJson d) = upload2 c b (Batch.DocumentJson d)) ->
  fst (Batch.process_all_pdfs_from_blob self list_blobs account_name
         generate_blob_sas analyze_document upload1 stem now stamp)
  = fst (Batch.process_all_pdfs_from_blob self list_blobs account_name
           generate_blob_sas analyze_document upload2 stem now stamp)
  /\ map forget_stored
       (snd (Batch.process_all_pdfs_from_blob self list_blobs account_name
               generate_blob_sas analyze_document upload1 stem now stamp))
     = map forget_stored
         (snd (Batch.process_all_pdfs_from_blob self list_blobs account_name
                 generate_blob_sas analyze_document upload2 stem now stamp)).
Proof.
  intros H.
  destruct (list_blobs (Batch.pdf_container self)) as [e|all_blobs] eqn:L.
  - unfold Batch.process_all_pdfs_from_blob. rewrite L. auto.
  - destruct (filter Batch.is_pdf all_blobs) as [|x xs] eqn:F.
    + unfold Batch.process_all_pdfs_from_blob. rewrite L, F. auto.
    + assert (filter Batch.is_pdf all_blobs <> []) as N
        by (rewrite F; discriminate).
      rewrite !(run_eq _ _ _ _ _ _ _ _ _ all_blobs L N). cbn [fst snd].
      assert (map (Batch.outcome self account_name generate_blob_sas
                     analyze_document upload1 stem now)
                (filter Batch.is_pdf all_blobs)
              = map (Batch.outcome self account_name generate_blob_sas
                       analyze_document upload2 stem now)
                  (filter Batch.is_pdf all_blobs)) as M.
      { apply map_ext. intros b. unfold Batch.outcome.
        now rewrite (process_upload_ext _ _ _ _ upload1 upload2 _ _ _ H). }
      split; [exact M|]. rewrite M, !map_app. f_equal.
      destruct (upload_summary_event self upload1 now stamp
                  (map (Batch.outcome self account_name generate_blob_sas
                          analyze_document upload2 stem now)
                     (filter Batch.is_pdf all_blobs))) as [s1 ->].
      destruct (upload_summary_event self upload2 now stamp
                  (map (Batch.outcome self account_name generate_blob_sas
                          analyze_document upload2 stem now)
                     (filter Batch.is_pdf all_blobs))) as [s2 ->].
      reflexivity.
Qed.

Lemma process_returns_iff_all_steps_witness :
  exists doc,
    Batch.process_pdf_from_blob Samples.sample_processor "policies"
      Samples.sample_sas (Samples.sample_analyze "") Samples.sample_upload
      Samples.sample_stem "t" "one.pdf" = inr doc.
Proof.
  destruct (convert_document_total Samples.sample_layout "one.pdf" "t"
              eq_refl) as [doc C].
  exists doc.
  apply (proj2 (process_returns_iff_all_steps Samples.sample_processor
                  "policies" Samples.sample_sas (Samples.sample_analyze "")
                  Samples.sample_upload Samples.sample_stem "t" "one.pdf"
                  doc)).
  exists "sp=r&sig=c2lnbmF0dXJl", Samples.sample_layout.
  split; [reflexivity|]. split; [vm_compute; reflexivity|].
  split; [exact C | reflexivity].
Defined.

Lemma run_processes_only_pdfs_witness :
  In "THREE.PDF"
    (processed (snd (Samples.sample_run Samples.sample_blobs "")))
  /\ ~ In "notes.txt"
         (processed (snd (Samples.sample_run Samples.sample_blobs ""))).
Proof.
  unfold Samples.sample_run. split.
  - apply (proj2 (run_processes_only_pdfs Samples.sample_processor
                    (fun _ => ok Samples.sample_blobs) "policies"
                    Samples.sample_sas (Samples.sample_analyze "")
                    Samples.sample_upload Samples.sample_stem
                    "2024-05-01T10:00:00" "20240501_100000")
             Samples.sample_blobs eq_refl "THREE.PDF").
    exists (Batch.mkBlob "THREE.PDF" 3000), "three".
    split; [simpl; auto|]. split; reflexivity.
  - intros I.
    apply (proj2 (run_processes_only_pdfs Samples.sample_processor
                    (fun _ => ok Samples.sample_blobs) "policies"
                    Samples.sample_sas (Samples.sample_analyze "")
                    Samples.sample_upload Samples.sample_stem
                    "2024-05-01T10:00:00" "20240501_100000")
             Samples.sample_blobs eq_refl "notes.txt") in I.
    destruct I as (blob & front & _ & _ & E).
    assert (endswith (lower "notes.txt") ".pdf" = true) as K
      by (apply endswith_iff; now exists front).
    vm_compute in K. discriminate.
Defined.

Lemma run_summary_totals_witness :
  exists before summary stored,
    snd (Samples.sample_run Samples.sample_blobs "OCR service unavailable")
    = (before
       ++ [Batch.UploadSummary "_batch_summary_20240501_100000.json"
             summary stored])%list
    /\ Batch.total_pages summary = 2%Z
    /\ Batch.total_rules summary = 2%Z.
Proof.
  destruct
    (run_summary_totals Samples.sample_processor
       (fun _ => ok Samples.sample_blobs) "policies" Samples.sample_sas
       (Samples.sample_analyze "OCR service unavailable")
       Samples.sample_upload Samples.sample_stem
       "2024-05-01T10:00:00" "20240501_100000" Samples.sample_blobs
       eq_refl ltac:(discriminate))
    as (before & summary & stored & T & P & R & _).
  exists before, summary, stored.
  split; [exact T|]. split; [exact P | exact R].
Defined.

Lemma summary_upload_failure_is_harmless_witness :
  fst (Samples.sample_run Samples.sample_blobs "")
  = fst (Batch.process_all_pdfs_from_blob Samples.sample_processor
           (fun _ => ok Samples.sample_blobs) "policies" Samples.sample_sas
           (Samples.sample_analyze "")
           (fun _ _ data =>
              match data with
              | Batch.SummaryJson _ => raise (ServiceError "quota exceeded")
              | Batch.DocumentJson _ => ok tt
              end)
           Samples.sample_stem "2024-05-01T10:00:00" "20240501_100000").
Proof.
  apply (summary_upload_failure_is_harmless Samples.sample_processor
           (fun _ => ok Samples.sample_blobs) "policies" Samples.sample_sas
           (Samples.sample_analyze "") Samples.sample_upload).
  reflexivity.
Defined.

(** ** Start-up *)

Section InitFacts.

Variables DocClient BlobService : Type.
Variable document_intelligence_client : string -> string -> result DocClient.
Variable from_connection_string : string -> result BlobService.
Variable create_container : BlobService -> string -> result Datatypes.unit.

Abbreviation init :=
  (Startup.init DocClient BlobService document_intelligence_client
     from_connection_string create_container).

Lemma required_some (v : option string) (s : string) :
  Startup.required v = Some s <-> v = Some s /\ s <> "".
Proof.
  unfold Startup.required. destruct v as [x|]; [|split; [discriminate|]].
  - destruct (String.eqb_spec x "") as [->|N]; split.
    + discriminate.
    + intros [[= <-] K]. contradiction.
    + intros [= <-]. auto.
    + now intros [-> _].
  - now intros [K _].
Qed.

(** X16. Start-up raises [ValueError] only for a required variable that is
    unset or empty: the two OCR credentials are checked first, the storage
    connection string after the OCR client is built.  When it returns, the
    three variables were set and not empty, the container names are the
    ones of the environment (taken as they are, even if empty) or else the
    defaults, and a [create_container] that raises has been passed over. *)
Theorem init_checks_environment (env : Startup.environ) :
  (Startup.required (env "AZURE_DOCUMENT_INTELLIGENCE_ENDPOINT") = None
   \/ Startup.required (env "AZURE_DOCUMENT_INTELLIGENCE_KEY") = None ->
   init env = inl (Startup.ValueError Startup.missing_credentials))
  /\ (forall message,
        init env = inl (Startup.ValueError message) ->
        Startup.required (env "AZURE_DOCUMENT_INTELLIGENCE_ENDPOINT") = None
        \/ Startup.required (env "AZURE_DOCUMENT_INTELLIGENCE_KEY") = None
        \/ Startup.required (env "AZURE_STORAGE_CONNECTION_STRING") = None)
  /\ (forall st,
        init env = inr st ->
        exists endpoint key conn,
          env "AZURE_DOCUMENT_INTELLIGENCE_ENDPOINT" = Some endpoint
          /\ endpoint <> ""
          /\ env "AZURE_DOCUMENT_INTELLIGENCE_KEY" = Some key /\ key <> ""
          /\ env "AZURE_STORAGE_CONNECTION_STRING" = Some conn /\ conn <> ""
          /\ document_intelligence_client endpoint key
             = inr (Startup.doc_client st)
          /\ from_connection_string conn = inr (Startup.blob_service st)
          /\ Batch.pdf_container (Startup.containers st)
             = match env "AZURE_PDF_CONTAINER_NAME" with
               | Some v => v
               | None => "healthcare-pdfs"
               end
          /\ Batch.json_container (Startup.containers st)
             = match env "AZURE_JSON_CONTAINER_NAME" with
               | Some v => v
               | None => "healthcare-json"
               end
          /\ Startup.created st
             = returned
                 (create_container (Startup.blob_service st)
                    (Batch.json_container (Startup.containers st))))
  /\ (forall endpoint key conn client service,
        Startup.required (env "AZURE_DOCUMENT_INTELLIGENCE_ENDPOINT")
        = Some endpoint ->
        Startup.required (env "AZURE_DOCUMENT_INTELLIGENCE_KEY") = Some key ->
        document_intelligence_client endpoint key = inr client ->
        Startup.required (env "AZURE_STORAGE_CONNECTION_STRING") = Some conn ->
        from_connection_string conn = inr service ->
        exists st, init env = inr st).
Proof.
  unfold Startup.init, Startup.getenv, Startup.getenv_or.
  split; [|split; [|split]].
  - intros [K|K].
    + now rewrite K.
    + destruct (Startup.required
                  (env "AZURE_DOCUMENT_INTELLIGENCE_ENDPOINT"));
        [now rewrite K | reflexivity].
  - intros message H.
    destruct (Startup.required (env "AZURE_DOCUMENT_INTELLIGENCE_ENDPOINT"))
      as [endpoint|]; [|auto].
    destruct (Startup.required (env "AZURE_DOCUMENT_INTELLIGENCE_KEY"))
      as [key|]; [|auto].
    destruct (document_intelligence_client endpoint key); [discriminate|].
    destruct (Startup.required (env "AZURE_STORAGE_CONNECTION_STRING"))
      as [conn|]; [|auto].
    destruct (from_connection_string conn); discriminate.
  - intros st H.
    destruct (Startup.required (env "AZURE_DOCUMENT_INTELLIGENCE_ENDPOINT"))
      as [endpoint|] eqn:RE; [|discriminate].
    destruct (Startup.required (env "AZURE_DOCUMENT_INTELLIGENCE_KEY"))
      as [key|] eqn:RK; [|discriminate].
    destruct (document_intelligence_client endpoint key) as [e|client] eqn:DC;
      [discriminate|].
    destruct (Startup.required (env "AZURE_STORAGE_CONNECTION_STRING"))
      as [conn|] eqn:RS; [|discriminate].
    destruct (from_connection_string conn) as [e|service] eqn:FC;
      [discriminate|].
    injection H as <-.
    apply required_some in RE as [Ee Ne]. apply required_some in RK as [Ek Nk].
    apply required_some in RS as [Es Ns].
    exists endpoint, key, conn. cbn.
    repeat split; auto.
  - intros endpoint key conn client service RE RK DC RS FC.
    rewrite RE, RK, DC, RS, FC. now eexists.
Qed.

End InitFacts.

Lemma init_checks_environment_witness :
  exists st,
    Startup.init Datatypes.unit Datatypes.unit (fun _ _ => ok tt)
      (fun _ => ok tt)
      (fun _ _ => raise (ServiceError "ContainerAlreadyExists"))
      sample_environ = inr st
    /\ Batch.pdf_container (Startup.containers st) = ""
    /\ Batch.json_container (Startup.containers st) = "healthcare-json"
    /\ Startup.created st = false.
Proof.
  destruct (proj2 (proj2 (proj2
              (init_checks_environment Datatypes.unit Datatypes.unit
                 (fun _ _ => ok tt) (fun _ => ok tt)
                 (fun _ _ => raise (ServiceError "ContainerAlreadyExists"))
                 sample_environ)))
              "https://di.example.net/" "0123456789abcdef"
              "AccountName=policies;AccountKey=a2V5" tt tt
              eq_refl eq_refl eq_refl eq_refl eq_refl) as [st H].
  exists st. split; [exact H|].
  destruct (proj1 (proj2 (proj2
              (init_checks_environment Datatypes.unit Datatypes.unit
                 (fun _ _ => ok tt) (fun _ => ok tt)
                 (fun _ _ => raise (ServiceError "ContainerAlreadyExists"))
                 sample_environ))) st H)
    as (e & k & c & _ & _ & _ & _ & _ & _ & _ & _ & P & J & C).
  split; [exact P|]. split; [exact J|]. exact C.
Defined.

(** ** Console report *)

Lemma shown_app (a b : list Report.report_line) :
  failed_files_shown (a ++ b) = failed_files_shown a + failed_files_shown b.
Proof.
  unfold failed_files_shown. now rewrite filter_app, List.length_app.
Qed.

Lemma hidden_app (a b : list Report.report_line) :
  failed_files_hidden (a ++ b)
  = (failed_files_hidden a + failed_files_hidden b)%Z.
Proof.
  unfold failed_files_hidden. induction a as [|l a IH]; simpl; [lia|].
  destruct l; rewrite IH; lia.
Qed.

Lemma shown_failed_files (rs : list Batch.BatchResult) :
  failed_files_shown
    (map (fun result =>
            Report.FailedFile (Batch.blob_name result)
              (Report.error_or (Batch.error result) "Unknown error")) rs)
  = List.length rs
  /\ failed_files_hidden
       (map (fun result =>
               Report.FailedFile (Batch.blob_name result)
                 (Report.error_or (Batch.error result) "Unknown error")) rs)
     = 0%Z.
Proof.
  unfold failed_files_shown, failed_files_hidden.
  induction rs as [|r rs [IH1 IH2]]; simpl; auto.
Qed.

(** X17. The console report of a batch names at most five failed files and
    tells how many more there are, so that the files named and the files
    left out add up to the number of failed entries; the page and rule
    totals it prints are those of the uploaded summary. *)
Theorem report_agrees_with_results
  (self : Batch.Processor) (rs : list Batch.BatchResult) :
  failed_files_shown (Report._print_batch_summary self rs)
  = Nat.min 5 (List.length (filter (Batch.has_status "failed") rs))
  /\ (Z.of_nat (failed_files_shown (Report._print_batch_summary self rs))
      + failed_files_hidden (Report._print_batch_summary self rs)
      = Z.of_nat (List.length (filter (Batch.has_status "failed") rs)))%Z
  /\ (forall now n,
        In (Report.Succeeded n) (Report._print_batch_summary self rs) ->
        n = Batch.successful (Batch.batch_summary rs now))
  /\ (forall now n,
        In (Report.Failed n) (Report._print_batch_summary self rs) ->
        n = Batch.failed (Batch.batch_summary rs now))
  /\ (forall now p,
        In (Report.TotalPages p) (Report._print_batch_summary self rs) ->
        p = Batch.total_pages (Batch.batch_summary rs now))
  /\ (forall now q,
        In (Report.TotalRules q) (Report._print_batch_summary self rs) ->
        q = Batch.total_rules (Batch.batch_summary rs now)).
Proof.
  unfold Report._print_batch_summary. cbv zeta.
  set (good := filter (Batch.has_status "success") rs).
  set (bad := filter (Batch.has_status "failed") rs).
  assert (failed_files_shown
            (match bad with
             | [] => []
             | _ :: _ =>
                 Report.FailedFiles
                 :: map (fun result =>
                           Report.FailedFile (Batch.blob_name result)
                             (Report.error_or (Batch.error result)
                                "Unknown error")) (firstn 5 bad)
                 ++ (if (5 <? List.length bad)%nat
                     then [Report.AndMore (Z.of_nat (List.length bad) - 5)]
                     else [])
             end) = Nat.min 5 (List.length bad)
          /\ failed_files_hidden
               (match bad with
                | [] => []
                | _ :: _ =>
                    Report.FailedFiles
                    :: map (fun result =>
                              Report.FailedFile (Batch.blob_name result)
                                (Report.error_or (Batch.error result)
                                   "Unknown error")) (firstn 5 bad)
                    ++ (if (5 <? List.length bad)%nat
                        then [Report.AndMore (Z.of_nat (List.length bad) - 5)]
                        else [])
                end)
             = (Z.of_nat (List.length bad)
                - Z.of_nat (Nat.min 5 (List.length bad)))%Z) as [B1 B2].
  { destruct bad as [|b bad'] eqn:E; [split; reflexivity|]. rewrite <- E.
    change (failed_files_shown (Report.FailedFiles :: ?l))
      with (failed_files_shown l).
    change (failed_files_hidden (Report.FailedFiles :: ?l))
      with (failed_files_hidden l).
    rewrite shown_app, hidden_app.
    destruct (shown_failed_files (firstn 5 bad)) as [-> ->].
    rewrite length_firstn.
    destruct (5 <? List.length bad)%nat eqn:C.
    - apply Nat.ltb_lt in C.
      change (failed_files_shown [Report.AndMore _]) with 0.
      change (failed_files_hidden [Report.AndMore ?k]) with (k + 0)%Z.
      split; lia.
    - apply Nat.ltb_ge in C.
      change (failed_files_shown []) with 0.
      change (failed_files_hidden []) with 0%Z.
      split; lia. }
  assert (failed_files_shown
            (match good with
             | [] => []
             | _ :: _ =>
                 [ Report.TotalPages
                     (Batch.py_sum
                        (map (fun r => Batch.get_or (Batch.pages r) 0) good));
                   Report.TotalRules
                     (Batch.py_sum
                        (map (fun r =>
                                Batch.get_or (Batch.rules_extracted r) 0)
                           good));
                   Report.SavedTo (Batch.json_container self) ]
             end) = 0
          /\ failed_files_hidden
               (match good with
                | [] => []
                | _ :: _ =>
                    [ Report.TotalPages
                        (Batch.py_sum
                           (map (fun r => Batch.get_or (Batch.pages r) 0)
                              good));
                      Report.TotalRules
                        (Batch.py_sum
                           (map (fun r =>
                                   Batch.get_or (Batch.rules_extracted r) 0)
                              good));
                      Report.SavedTo (Batch.json_container self) ]
                end) = 0%Z) as [A1 A2]
    by (destruct good; split; reflexivity).
  split; [|split].
  - rewrite !shown_app, A1, B1.
    change (failed_files_shown [Report.Succeeded _; Report.Failed _]) with 0.
    lia.
  - rewrite !shown_app, !hidden_app, A1, A2, B1, B2.
    change (failed_files_shown [Report.Succeeded _; Report.Failed _]) with 0.
    change (failed_files_hidden [Report.Succeeded _; Report.Failed _])
      with 0%Z.
    lia.
  - assert (forall l,
              In l (match bad with
                    | [] => []
                    | _ :: _ =>
                        Report.FailedFiles
                        :: map (fun result =>
                                  Report.FailedFile (Batch.blob_name result)
                                    (Report.error_or (Batch.error result)
                                       "Unknown error")) (firstn 5 bad)
                        ++ (if (5 <? List.length bad)%nat
                            then [Report.AndMore
                                    (Z.of_nat (List.length bad) - 5)]
                            else [])
                    end) ->
              match l with
              | Report.FailedFiles | Report.FailedFile _ _
              | Report.AndMore _ => True
              | _ => False
              end) as NB.
    { intros l I. destruct bad as [|b bad']; [contradiction|].
      destruct I as [<-|I]; [exact Logic.I|].
      apply in_app_or in I as [I|I].
      - apply in_map_iff in I as (x & <- & _). exact Logic.I.
      - destruct (5 <? _)%nat; [destruct I as [<-|[]]; exact Logic.I|].
        contradiction. }
    repeat split; intros now n I;
      apply in_app_or in I as [I|I];
      try (apply in_app_or in I as [I|I]; [|now apply NB in I]).
    + destruct I as [I|[I|[]]]; [now injection I as <- | discriminate].
    + destruct good; [contradiction|].
      destruct I as [I|[I|[I|[]]]]; discriminate.
    + destruct I as [I|[I|[]]]; [discriminate | now injection I as <-].
    + destruct good; [contradiction|].
      destruct I as [I|[I|[I|[]]]]; discriminate.
    + destruct I as [I|[I|[]]]; discriminate.
    + destruct good eqn:G; [contradiction|]. rewrite <- G in I.
      destruct I as [I|[I|[I|[]]]]; try discriminate.
      now injection I as <-.
    + destruct I as [I|[I|[]]]; discriminate.
    + destruct good eqn:G; [contradiction|]. rewrite <- G in I.
      destruct I as [I|[I|[I|[]]]]; try discriminate.
      now injection I as <-.
Qed.

Lemma report_agrees_with_results_witness :
  failed_files_shown
    (Report._print_batch_summary Samples.sample_processor
       (repeat
          (Batch.mkBatchResult "x.pdf" "failed" None None None None "t") 7))
  = 5
  /\ failed_files_hidden
       (Report._print_batch_summary Samples.sample_processor
          (repeat
             (Batch.mkBatchResult "x.pdf" "failed" None None None None "t")
             7))
     = 2%Z.
Proof.
  destruct (report_agrees_with_results Samples.sample_processor
              (repeat
                 (Batch.mkBatchResult "x.pdf" "failed" None None None None
                    "t") 7)) as (S & H & _).
  split; [exact S|]. rewrite S in H. simpl in H. simpl. lia.
Defined.

(** ** Entries of a run *)

Section RunEntries.

Variable self : Batch.Processor.
Variable list_blobs : string -> result (list Batch.Blob).
Variable account_name : string.
Variable generate_blob_sas : string -> string -> result string.
Variable analyze_document : string -> result pyval.
Variable upload_blob :
  string -> string -> Batch.json_data -> result Datatypes.unit.
Variable stem : string -> string.
Variable utcnow_isoformat : string.
Variable utcnow_stamp : string.

Abbreviation process :=
  (Batch.process_pdf_from_blob self account_name generate_blob_sas
     analyze_document upload_blob stem utcnow_isoformat).
Abbreviation outcome :=
  (Batch.outcome self account_name generate_blob_sas analyze_document
     upload_blob stem utcnow_isoformat).
Abbreviation run :=
  (Batch.process_all_pdfs_from_blob self list_blobs account_name
     generate_blob_sas analyze_document upload_blob stem utcnow_isoformat
     utcnow_stamp).

Lemma run_entries (r : Batch.BatchResult) :
  In r (fst run) -> exists blob, r = outcome blob.
Proof.
  unfold Batch.process_all_pdfs_from_blob.
  destruct (list_blobs _) as [e|all_blobs]; [intros []|].
  destruct (filter Batch.is_pdf all_blobs) as [|b rest] eqn:F; [intros []|].
  rewrite batch_loop_eq by (simpl; lia). cbn [fst app]. intros I.
  apply in_map_iff in I as (blob & <- & _). now exists blob.
Qed.

Lemma process_uploaded (blob : string) (doc : ExtractionDocument) :
  process blob = inr doc ->
  upload_blob (Batch.json_container self) (stem blob ++ "_ocr.json")
    (Batch.DocumentJson doc) = inr tt
  /\ source_blob doc = blob.
Proof.
  unfold Batch.process_pdf_from_blob, Batch._upload_json_to_blob.
  intros H. do 4 inv_bind H. injection H as <-. destruct a2. split; [exact E2|].
  unfold _convert_to_healthcare_json in E1. do 9 inv_bind E1.
  now injection E1 as <-.
Qed.

(** X18. Every entry that a run returns is either a success or a failure,
    according to how the processing of its blob ended.  A success entry
    names the JSON blob [<stem>_ocr.json], and the document that the
    processing returned, with that blob name, page count and rule count,
    was uploaded under that name into the JSON container; a failure entry
    names no JSON blob and carries the string form of the exception that
    the processing of its blob raised. *)
Theorem run_entries_are_backed (r : Batch.BatchResult) :
  In r (fst run) ->
  (Batch.status r = "success"
   /\ Batch.error r = None
   /\ exists doc,
        process (Batch.blob_name r) = inr doc
        /\ Batch.json_blob r
           = Some (stem (Batch.blob_name r) ++ "_ocr.json")
        /\ upload_blob (Batch.json_container self)
             (stem (Batch.blob_name r) ++ "_ocr.json")
             (Batch.DocumentJson doc) = inr tt
        /\ source_blob doc = Batch.blob_name r
        /\ Batch.pages r = Some (page_count doc)
        /\ Batch.rules_extracted r
           = Some (Z.of_nat
                     (List.length
                        (detected_rules (healthcare_metadata doc)))))
  \/ (Batch.status r = "failed"
      /\ Batch.json_blob r = None
      /\ Batch.pages r = None
      /\ Batch.rules_extracted r = None
      /\ exists e,
           process (Batch.blob_name r) = inl e
           /\ Batch.error r = Some (str_of_exn e)).
Proof.
  intros I. apply run_entries in I as [blob ->]. unfold Batch.outcome.
  destruct (process (Batch.name blob)) as [e|doc] eqn:P.
  - right. simpl. repeat split. now exists e.
  - left. simpl. repeat split. exists doc.
    destruct (process_uploaded _ _ P) as [U S].
    destruct (process_from_assembly _ _ _ _ _ _ _ _ _ P) as [raw C].
    repeat split; auto. f_equal.
    unfold _convert_to_healthcare_json in C. do 9 inv_bind C.
    now injection C as <-.
Qed.

End RunEntries.

Lemma run_entries_are_backed_witness :
  Batch.status
    (Batch.mkBatchResult "two.pdf" "failed" None None None
       (Some "OCR service unavailable") "2024-05-01T10:00:00") = "failed"
  /\ exists e,
       Batch.process_pdf_from_blob Samples.sample_processor "policies"
         Samples.sample_sas
         (Samples.sample_analyze "OCR service unavailable")
         Samples.sample_upload Samples.sample_stem "2024-05-01T10:00:00"
         "two.pdf" = inl e
       /\ Some "OCR service unavailable" = Some (str_of_exn e).
Proof.
  destruct (run_entries_are_backed Samples.sample_processor
              (fun _ => ok Samples.sample_blobs) "policies"
              Samples.sample_sas
              (Samples.sample_analyze "OCR service unavailable")
              Samples.sample_upload Samples.sample_stem
              "2024-05-01T10:00:00" "20240501_100000"
              (Batch.mkBatchResult "two.pdf" "failed" None None None
                 (Some "OCR service unavailable") "2024-05-01T10:00:00"))
    as [(S & _)|(S & _ & _ & _ & E)].
  - vm_compute. right. left. reflexivity.
  - discriminate S.
  - split; [exact S | exact E].
Defined.

(** * Text beyond code point 255 *)

(** ** The two embeddings agree on text below 256 *)

Lemma of_str_length (s : string) :
  List.length (Unicode.of_str s) = String.length s.
Proof. induction s as [|c s IH]; simpl; [reflexivity | now rewrite IH]. Qed.

Lemma of_str_len (s : string) : Unicode.len (Unicode.of_str s) = len s.
Proof. unfold Unicode.len, len. now rewrite of_str_length. Qed.

Lemma of_str_lower (s : string) :
  Unicode.lower (Unicode.of_str s) = Unicode.of_str (lower s).
Proof.
  unfold Unicode.lower.
  induction s as [|c s IH]; simpl; [reflexivity | now rewrite IH].
Qed.

Lemma of_str_startswith (t p : string) :
  Unicode.startswith (Unicode.of_str t) (Unicode.of_str p) = prefix p t.
Proof.
  revert t. induction p as [|a p IH]; intros t; [now destruct t|].
  destruct t as [|b t]; [reflexivity|]. simpl.
  destruct (ascii_dec a b) as [->|N].
  - rewrite Ascii.eqb_refl. apply IH.
  - apply Ascii.eqb_neq in N. now rewrite N.
Qed.

Lemma ucontains_unfold (p t : Unicode.ustr) :
  Unicode.contains p t
  = if Unicode.startswith t p then true
    else match t with
         | [] => false
         | _ :: rest => Unicode.contains p rest
         end.
Proof. destruct t; reflexivity. Qed.

Lemma ufind_unfold (t p : Unicode.ustr) :
  Unicode.find t p
  = if Unicode.startswith t p then 0%Z
    else match t with
         | [] => (-1)%Z
         | _ :: rest =>
             let r := Unicode.find rest p in
             if (r =? -1)%Z then (-1)%Z else (r + 1)%Z
         end.
Proof. destruct t; reflexivity. Qed.

Lemma of_str_contains (p t : string) :
  Unicode.contains (Unicode.of_str p) (Unicode.of_str t) = contains p t.
Proof.
  induction t as [|c t IH];
    rewrite contains_unfold, ucontains_unfold, of_str_startswith;
    destruct (prefix p _); try reflexivity.
  exact IH.
Qed.

Lemma of_str_find (t p : string) :
  Unicode.find (Unicode.of_str t) (Unicode.of_str p) = find t p.
Proof.
  induction t as [|c t IH];
    rewrite find_unfold, ufind_unfold, of_str_startswith;
    destruct (prefix p _); try reflexivity.
  cbn [Unicode.of_str]. cbv zeta. now rewrite IH.
Qed.

Lemma of_str_substring (s : string) (n m : nat) :
  firstn m (skipn n (Unicode.of_str s)) = Unicode.of_str (substring n m s).
Proof.
  revert n m. induction s as [|c s IH]; intros n m.
  - destruct n, m; reflexivity.
  - destruct n as [|n].
    + destruct m as [|m]; [reflexivity|]. simpl. f_equal. apply (IH 0 m).
    + simpl. apply IH.
Qed.

Lemma of_str_slice (s : string) (lo hi : Z) :
  Unicode.slice (Unicode.of_str s) lo hi = Unicode.of_str (slice s lo hi).
Proof.
  unfold Unicode.slice, slice. rewrite of_str_len. apply of_str_substring.
Qed.

Lemma of_str_lstrip (s : string) :
  Unicode.lstrip (Unicode.of_str s) = Unicode.of_str (lstrip s).
Proof.
  induction s as [|c s IH]; simpl; [reflexivity|].
  destruct (is_space c); [exact IH | reflexivity].
Qed.

Lemma of_str_rstrip (s : string) :
  Unicode.rstrip (Unicode.of_str s) = Unicode.of_str (rstrip s).
Proof.
  induction s as [|c s IH]; simpl; [reflexivity|]. rewrite IH.
  destruct (rstrip s); simpl; [destruct (is_space c)|]; reflexivity.
Qed.

Lemma of_str_strip (s : string) :
  Unicode.strip (Unicode.of_str s) = Unicode.of_str (strip s).
Proof. unfold Unicode.strip, strip. now rewrite of_str_lstrip, of_str_rstrip. Qed.

(** On text below 256 the context window of the wider embedding is the one
    of the narrower embedding. *)
Lemma of_str_surrounding_text (text pattern : string) (context_chars : Z) :
  Unicode._extract_surrounding_text (Unicode.of_str text)
    (Unicode.of_str pattern) context_chars
  = Unicode.of_str (_extract_surrounding_text text pattern context_chars).
Proof.
  unfold Unicode._extract_surrounding_text, _extract_surrounding_text.
  rewrite !of_str_lower, of_str_find, !of_str_len.
  destruct (find (lower text) (lower pattern) =? -1)%Z; [reflexivity|].
  now rewrite of_str_slice, of_str_strip.
Qed.

Lemma of_str_patterns_loop (text rule_type : string) (patterns : list string)
  (rules : list DetectedRule) :
  Unicode.patterns_loop (Unicode.of_str text)
    (Unicode.lower (Unicode.of_str text)) (Unicode.of_str rule_type)
    (map Unicode.of_str patterns) (map Unicode.of_rule rules)
  = map Unicode.of_rule
      (patterns_loop text (lower text) rule_type patterns rules).
Proof.
  revert rules. induction patterns as [|p ps IH]; intros rules;
    [reflexivity|].
  cbn [map Unicode.patterns_loop patterns_loop]. cbv zeta.
  rewrite of_str_lower, of_str_contains, <- of_str_lower.
  destruct (contains p (lower text)); [|apply IH].
  rewrite <- IH, map_app. cbn [map]. unfold Unicode.of_rule at 3.
  cbn [type pattern_matched rule_text].
  now rewrite of_str_surrounding_text.
Qed.

Lemma of_str_items_loop (text : string)
  (items : list (string * list string)) (rules : list DetectedRule) :
  Unicode.items_loop (Unicode.of_str text)
    (Unicode.lower (Unicode.of_str text))
    (map (fun entry =>
            (Unicode.of_str (fst entry), map Unicode.of_str (snd entry)))
       items)
    (map Unicode.of_rule rules)
  = map Unicode.of_rule (items_loop text (lower text) items rules).
Proof.
  revert rules. induction items as [|[rt ps] rest IH]; intros rules;
    [reflexivity|].
  cbn [map Unicode.items_loop items_loop fst snd].
  now rewrite of_str_patterns_loop, IH.
Qed.

(** On text below 256 the rules of the wider embedding are those of the
    narrower embedding. *)
Lemma of_str_rules (text : string) :
  Unicode._extract_healthcare_rules (Unicode.of_str text)
  = map Unicode.of_rule (_extract_healthcare_rules text).
Proof.
  unfold Unicode._extract_healthcare_rules, _extract_healthcare_rules.
  cbv zeta. unfold Unicode.rule_patterns.
  exact (of_str_items_loop text rule_patterns []).
Qed.

(** ** The window in the words of the specification *)

Lemma of_str_eqb (a b : string) :
  Unicode.ustr_eqb (Unicode.of_str a) (Unicode.of_str b) = String.eqb a b.
Proof.
  revert b. induction a as [|x a IH]; intros [|y b]; try reflexivity.
  simpl. rewrite IH. reflexivity.
Qed.

Lemma lower_substring (n m : nat) (s : string) :
  lower (substring n m s) = substring n m (lower s).
Proof.
  revert n m. induction s as [|c s IH]; intros n m.
  - destruct n, m; reflexivity.
  - destruct n as [|n]; [destruct m as [|m]|]; simpl; try reflexivity.
    + now rewrite IH.
    + apply IH.
Qed.

Lemma of_str_firstn (n : nat) (s : string) :
  firstn n (Unicode.of_str s) = Unicode.of_str (substring 0 n s).
Proof. exact (of_str_substring s 0 n). Qed.

(** On text below 256, the phrase stands at the start of the text, letter
    case aside, exactly when the lower-cased text starts with the
    lower-cased phrase. *)
Lemma stands_at_start (t p : string) :
  Unicode.ustr_eqb
    (Unicode.lower
       (firstn (List.length (Unicode.of_str p)) (Unicode.of_str t)))
    (Unicode.lower (Unicode.of_str p))
  = prefix (lower p) (lower t).
Proof.
  rewrite of_str_length, of_str_firstn, !of_str_lower, of_str_eqb.
  rewrite lower_substring, <- (lower_length p).
  destruct (prefix (lower p) (lower t)) eqn:P.
  - apply prefix_correct in P. rewrite P. apply String.eqb_refl.
  - apply String.eqb_neq. intros E. apply prefix_correct in E. congruence.
Qed.

Lemma first_occurrence_unfold (text pattern : Unicode.ustr) :
  Unicode.first_occurrence text pattern
  = if Unicode.ustr_eqb
         (Unicode.lower (firstn (List.length pattern) text))
         (Unicode.lower pattern)
    then Some 0
    else match text with
         | [] => None
         | _ :: rest => option_map S (Unicode.first_occurrence rest pattern)
         end.
Proof. destruct text; reflexivity. Qed.

Lemma of_str_first_occurrence (t p : string) :
  Unicode.first_occurrence (Unicode.of_str t) (Unicode.of_str p)
  = if (find (lower t) (lower p) =? -1)%Z then None
    else Some (Z.to_nat (find (lower t) (lower p))).
Proof.
  induction t as [|c t IH];
    rewrite first_occurrence_unfold, stands_at_start,
      (find_unfold (lower _) (lower p));
    destruct (prefix (lower p) _); try reflexivity.
  cbn [Unicode.of_str lower]. cbv zeta. rewrite IH.
  pose proof (find_range (lower t) (lower p)) as R.
  destruct (find (lower t) (lower p) =? -1)%Z eqn:E; [reflexivity|].
  apply Z.eqb_neq in E.
  replace (find (lower t) (lower p) + 1 =? -1)%Z with false
    by (symmetry; apply Z.eqb_neq; lia).
  simpl. f_equal. lia.
Qed.

(** On text below 256 the code returns the window that the specification
    describes. *)
Lemma specified_window_below_256 (text pattern : string) (c : Z) :
  Unicode._extract_surrounding_text (Unicode.of_str text)
    (Unicode.of_str pattern) c
  = Unicode.specified_window (Unicode.of_str text) (Unicode.of_str pattern) c.
Proof.
  unfold Unicode.specified_window. rewrite of_str_first_occurrence.
  unfold Unicode._extract_surrounding_text.
  rewrite !of_str_lower, of_str_find.
  pose proof (find_range (lower text) (lower pattern)) as R.
  destruct (find (lower text) (lower pattern) =? -1)%Z eqn:E; [reflexivity|].
  apply Z.eqb_neq in E. rewrite Z2Nat.id by lia. reflexivity.
Qed.

(** ** The context window on text with U+0130 *)

(** C4. The claimed window is not what the code returns on text with
    U+0130: the index is looked up in the lower-cased text, in which every
    U+0130 takes two places, and then used on the text itself.  For 300
    times U+0130 followed by the phrase and 300 times "b", the phrase stands
    at index 300 and the described window is the 200 characters before it,
    the phrase and the 200 characters after it; the code returns 213 times
    "b", which does not hold the phrase.  With 1000 times U+0130 before the
    phrase it returns the empty string although the phrase occurs. *)
Theorem context_window_misses_phrase :
  Unicode._extract_surrounding_text Unicode.dotted_text
    (Unicode.of_str "timely filing") 200
  = repeat (Unicode.Latin "b"%char) 213
  /\ Unicode.first_occurrence Unicode.dotted_text
       (Unicode.of_str "timely filing") = Some 300
  /\ Unicode.specified_window Unicode.dotted_text
       (Unicode.of_str "timely filing") 200
     = (repeat Unicode.CapitalIDot 200 ++ Unicode.of_str "timely filing"
        ++ repeat (Unicode.Latin "b"%char) 200)%list
  /\ Unicode.contains (Unicode.lower (Unicode.of_str "timely filing"))
       (Unicode.lower
          (Unicode._extract_surrounding_text Unicode.dotted_text
             (Unicode.of_str "timely filing") 200)) = false
  /\ Unicode.first_occurrence Unicode.long_dotted_text
       (Unicode.of_str "timely filing") = Some 1000
  /\ Unicode._extract_surrounding_text Unicode.long_dotted_text
       (Unicode.of_str "timely filing") 200 = [].
Proof. repeat split; vm_compute; reflexivity. Qed.

(** The rule that is mined from that text carries the same window. *)
Example rule_text_misses_phrase :
  map Unicode.rule_text
    (Unicode._extract_healthcare_rules Unicode.dotted_text)
  = [repeat (Unicode.Latin "b"%char) 213].
Proof. vm_compute. reflexivity. Qed.

(** ** The phrase in the window, on text below 256 *)

(** X3. On a text and a phrase of code points below 256: when the phrase is
    not empty, has no outer whitespace and occurs in the text regardless of
    case, the context window that the code returns holds an occurrence of
    it, so the window is not empty. *)
Theorem surrounding_text_holds_phrase
  (text pattern : string) (context_chars : Z) :
  (0 <= context_chars)%Z ->
  pattern <> "" -> strip pattern = pattern ->
  mentions pattern text ->
  exists w,
    Unicode._extract_surrounding_text (Unicode.of_str text)
      (Unicode.of_str pattern) context_chars = Unicode.of_str w
    /\ mentions pattern w /\ w <> "".
Proof.
  intros C N S M. rewrite of_str_surrounding_text. eexists.
  split; [reflexivity|]. now apply window_keeps_phrase.
Qed.

Lemma surrounding_text_holds_phrase_witness :
  exists w,
    Unicode._extract_surrounding_text
      (Unicode.of_str "  Claims notice: Timely Filing is 90 days.  ")
      (Unicode.of_str "timely filing") 200 = Unicode.of_str w
    /\ mentions "timely filing" w /\ w <> "".
Proof.
  apply surrounding_text_holds_phrase.
  - lia.
  - discriminate.
  - reflexivity.
  - apply (reflect_iff _ _ (mentions_reflect _ _ eq_refl)).
    vm_compute. reflexivity.
Defined.

(** X4. On a text of code points below 256, the context stored with a
    detected rule holds, regardless of case, the phrase that triggered the
    rule; it is never empty and is a stretch of the text. *)
Theorem detected_rule_text_holds_phrase
  (text : string) (r : Unicode.DetectedRule) :
  In r (Unicode._extract_healthcare_rules (Unicode.of_str text)) ->
  exists p w,
    Unicode.pattern_matched r = Unicode.of_str p
    /\ Unicode.rule_text r = Unicode.of_str w
    /\ mentions p w /\ w <> "" /\ occurs w text.
Proof.
  rewrite of_str_rules. intros I. apply in_map_iff in I as (r0 & <- & I).
  exists (pattern_matched r0), (rule_text r0).
  split; [reflexivity|]. split; [reflexivity|].
  now apply rule_text_keeps_phrase.
Qed.

Lemma detected_rule_text_holds_phrase_witness :
  exists p w,
    Unicode.of_str "filing deadline" = Unicode.of_str p
    /\ Unicode.of_str "The Filing Deadline is 90 days."
       = Unicode.of_str w
    /\ mentions p w /\ w <> ""
    /\ occurs w "  The Filing Deadline is 90 days.  ".
Proof.
  apply (detected_rule_text_holds_phrase
           "  The Filing Deadline is 90 days.  "
           {| Unicode.type := Unicode.of_str "timely_filing";
              Unicode.pattern_matched := Unicode.of_str "filing deadline";
              Unicode.rule_text :=
                Unicode.of_str "The Filing Deadline is 90 days." |}).
  vm_compute. left. reflexivity.
Defined.

(** ** Absent data, read one way throughout *)

